(** * Python-NoAdmin installer: a shallow embedding of [install.py]

    The installer is a linear sequence of I/O steps gated by platform
    branches.  The embedding keeps that shape: pure helpers (platform
    normalisation, URL templates, path stripping, PATH editing) are Rocq
    functions over strings and lists; everything that touches the
    filesystem, the registry, the console, the network or a child process
    is a computation in a small state-and-exception monad over an explicit
    [World]. *)

From Stdlib Require Import Ascii String ZArith Lia.
From stdpp Require Import gmap strings list fin_maps pretty.

Set Default Proof Using "Type".
Local Open Scope Z_scope.

(** ** Python string primitives used by the installer *)

Module Py.

Definition chr (n : nat) : string := String (ascii_of_nat n) EmptyString.

(** The three characters that cannot be typed inside a literal. *)
Definition NL : string := chr 10.
Definition DQ : string := chr 34.
Definition BSLASH : string := chr 92.

(** [str.lower] on ASCII letters; other bytes are kept.  The installer
    only compares lower-cased text with ASCII literals, and the only
    characters outside A-Z that [str.lower] maps to text with an ASCII
    letter in it are U+212A (to "k", which none of those literals
    contains) and U+0130 (to "i" followed by a combining dot). *)
Definition lower_char (c : ascii) : ascii :=
  let n := nat_of_ascii c in
  if ((65 <=? n) && (n <=? 90))%nat then ascii_of_nat (n + 32) else c.

Fixpoint lower (s : string) : string :=
  match s with
  | EmptyString => EmptyString
  | String c s' => String (lower_char c) (lower s')
  end.

(** Whitespace as [str.isspace] sees it.  A Python [str] is held here as
    its UTF-8 encoding, so a whitespace character is one, two or three
    bytes long:
    - one byte: U+0009 to U+000D, U+001C to U+001F and U+0020;
    - two bytes: U+0085 (C2 85) and U+00A0 (C2 A0);
    - three bytes: U+1680 (E1 9A 80), U+2000 to U+200A (E2 80 80 to
      E2 80 8A), U+2028, U+2029 (E2 80 A8, E2 80 A9), U+202F (E2 80 AF),
      U+205F (E2 81 9F) and U+3000 (E3 80 80). *)
Definition is_space (c : ascii) : bool :=
  let n := nat_of_ascii c in
  (((9 <=? n) && (n <=? 13)) || ((28 <=? n) && (n <=? 32)))%nat.

Definition is_space2 (a b : ascii) : bool :=
  let '(x, y) := (nat_of_ascii a, nat_of_ascii b) in
  ((x =? 194) && ((y =? 133) || (y =? 160)))%nat.

Definition is_space3 (a b c : ascii) : bool :=
  let '(x, y, z) := (nat_of_ascii a, nat_of_ascii b, nat_of_ascii c) in
  (((x =? 225) && (y =? 154) && (z =? 128))
   || ((x =? 226) && (y =? 128)
       && (((128 <=? z) && (z <=? 138)) || (z =? 168) || (z =? 169) || (z =? 175)))
   || ((x =? 226) && (y =? 129) && (z =? 159))
   || ((x =? 227) && (y =? 128) && (z =? 128)))%nat.

(** Dropping the whitespace characters at the front of a byte sequence;
    [two] and [three] recognise the longer ones in the order the bytes
    come in. *)
Fixpoint drop_spaces (two : ascii -> ascii -> bool)
    (three : ascii -> ascii -> ascii -> bool) (l : list ascii) : list ascii :=
  match l with
  | [] => []
  | a :: l1 =>
      if is_space a then drop_spaces two three l1
      else match l1 with
           | [] => l
           | b :: l2 =>
               if two a b then drop_spaces two three l2
               else match l2 with
                    | [] => l
                    | c :: l3 =>
                        if three a b c then drop_spaces two three l3 else l
                    end
           end
  end.

Definition lstrip (s : string) : string :=
  string_of_list_ascii
    (drop_spaces is_space2 is_space3 (list_ascii_of_string s)).

(** From the right the bytes of a character come last byte first. *)
Definition rstrip (s : string) : string :=
  string_of_list_ascii
    (rev (drop_spaces (fun b a => is_space2 a b) (fun c b a => is_space3 a b c)
            (rev (list_ascii_of_string s)))).

Definition strip (s : string) : string := rstrip (lstrip s).

(** [s.split(sep)] for a one-character separator (the only kind the
    installer uses): never returns the empty list. *)
Fixpoint split (sep : ascii) (s : string) : list string :=
  match s with
  | EmptyString => [EmptyString]
  | String c s' =>
      if Ascii.eqb c sep then EmptyString :: split sep s'
      else match split sep s' with
           | h :: t => String c h :: t
           | [] => [String c EmptyString]
           end
  end.

(** [sep.join(parts)]. *)
Fixpoint join (sep : string) (parts : list string) : string :=
  match parts with
  | [] => EmptyString
  | [p] => p
  | p :: rest => p +:+ sep +:+ join sep rest
  end.

Definition startswith (pre s : string) : bool := String.prefix pre s.

Fixpoint endswith (suf s : string) : bool :=
  String.eqb suf s ||
  match s with
  | EmptyString => false
  | String _ s' => endswith suf s'
  end.

(** [sub in s]. *)
Fixpoint contains (sub s : string) : bool :=
  String.prefix sub s ||
  match s with
  | EmptyString => false
  | String _ s' => contains sub s'
  end.

(** Number of positions of [s] at which [sub] starts. *)
Fixpoint occurrences (sub s : string) : nat :=
  match s with
  | EmptyString => 0%nat
  | String _ s' =>
      ((if String.prefix sub s then 1 else 0) + occurrences sub s')%nat
  end.

(** [s.replace(old, new)] for a non-empty [old]: a left-to-right scan
    that rewrites every non-overlapping occurrence.  [skip] counts the
    characters of the occurrence just rewritten that are still to be
    consumed. *)
Fixpoint replace_from (old new : string) (skip : nat) (s : string) : string :=
  match s with
  | EmptyString => EmptyString
  | String c s' =>
      match skip with
      | S k => replace_from old new k s'
      | O =>
          if String.prefix old s
          then new +:+ replace_from old new (String.length old - 1) s'
          else String c (replace_from old new 0 s')
      end
  end.

Definition replace (old new s : string) : string := replace_from old new 0 s.

Fixpoint last_char (s : string) : option ascii :=
  match s with
  | EmptyString => None
  | String c s' =>
      match last_char s' with
      | Some d => Some d
      | None => Some c
      end
  end.

(** Membership of a character in a string. *)
Fixpoint has_char (c : ascii) (s : string) : bool :=
  match s with
  | EmptyString => false
  | String d s' => Ascii.eqb c d || has_char c s'
  end.

End Py.

(** ** Exceptions and results *)

Inductive Exn : Type :=
| RuntimeError (msg : string)
| ValueError (msg : string)
| OSError (msg : string)       (* FileExistsError, IsADirectoryError, failed exec, ... *)
| ArchiveError (msg : string)  (* zipfile.BadZipFile, tarfile.ReadError *)
| EOFError
| SystemExit (code : Z).

(** [except Exception] catches everything the installer can raise except
    [SystemExit]. *)
Definition is_Exception (e : Exn) : bool :=
  match e with
  | SystemExit _ => false
  | _ => true
  end.

(** What [str(e)] gives in the handlers that print the exception. *)
Definition exn_str (e : Exn) : string :=
  match e with
  | RuntimeError m | ValueError m | OSError m | ArchiveError m => m
  | EOFError => "EOF when reading a line"
  | SystemExit c => pretty c
  end.

Inductive Result (A : Type) : Type :=
| Ok (a : A)
| Raise (e : Exn).
Arguments Ok {A} a.
Arguments Raise {A} e.

#[global] Instance Result_ret : MRet Result := fun A a => Ok a.
#[global] Instance Result_bind : MBind Result := fun A B f r =>
  match r with
  | Ok a => f a
  | Raise e => Raise e
  end.

(** ** Configuration constants *)

Definition DEFAULT_VERSION : string := "3.12.8".
Definition INSTALL_DIR_NAME : string := ".python-nonadmin".
Definition PBS_RELEASE_TAG : string := "20241206".
Definition PBS_BASE_URL : string :=
  "https://github.com/indygreg/python-build-standalone/releases/download".
Definition PYTHON_ORG_BASE : string := "https://www.python.org/ftp/python".
Definition GET_PIP_URL : string := "https://bootstrap.pypa.io/get-pip.py".
Definition AVAILABLE_VERSIONS : list string :=
  ["3.12.8"; "3.12.7"; "3.11.9"; "3.11.8"; "3.10.14"; "3.10.13"].

(** ** Platform detection (pure part) *)

(** [get_platform_info] reads [platform.system()] and [platform.machine()];
    here they are its two arguments.  The names [system] and [machine] are
    the lower-cased identifiers, as in the source. *)
Definition get_platform_info (platform_system platform_machine : string)
  : Result (string * string) :=
  let system := Py.lower platform_system in
  let machine := Py.lower platform_machine in
  os_name ←
    (if String.eqb system "darwin" then Ok "macos"
     else if String.eqb system "windows" then Ok "windows"
     else if String.eqb system "linux" then Ok "linux"
     else Raise (RuntimeError ("Unsupported operating system: " +:+ system)));
  arch ←
    (if String.eqb machine "x86_64" || String.eqb machine "amd64" then Ok "x86_64"
     else if String.eqb machine "aarch64" || String.eqb machine "arm64" then Ok "aarch64"
     else if String.eqb machine "i386" || String.eqb machine "i686" then Ok "x86"
     else Raise (RuntimeError ("Unsupported architecture: " +:+ machine)));
  mret (os_name, arch).

(** ** Download URLs *)

Definition get_pbs_download_url (version os_name arch : string) : Result string :=
  target ←
    (if String.eqb os_name "macos" then Ok (arch +:+ "-apple-darwin")
     else if String.eqb os_name "linux" then Ok (arch +:+ "-unknown-linux-gnu")
     else Raise (ValueError ("PBS not available for " +:+ os_name)));
  let filename :=
    "cpython-" +:+ version +:+ "+" +:+ PBS_RELEASE_TAG +:+ "-" +:+ target
    +:+ "-install_only.tar.gz" in
  mret (PBS_BASE_URL +:+ "/" +:+ PBS_RELEASE_TAG +:+ "/" +:+ filename).

Definition get_windows_embed_url (version arch : string) : Result string :=
  arch_suffix ←
    (if String.eqb arch "x86_64" then Ok "amd64"
     else if String.eqb arch "x86" then Ok "win32"
     else if String.eqb arch "aarch64" then Ok "arm64"
     else Raise (ValueError ("Unknown Windows architecture: " +:+ arch)));
  mret (PYTHON_ORG_BASE +:+ "/" +:+ version +:+ "/python-" +:+ version
        +:+ "-embed-" +:+ arch_suffix +:+ ".zip").

(** ** Paths and the filesystem *)

(** A path is the list of its components below the anchor, as [pathlib]
    keeps it in [parts]; [p / name] is [p ++ [name]]. *)
Abbreviation Path := (list string).

Definition path_name (p : Path) : string := List.last p EmptyString.
Definition path_parent (p : Path) : Path := removelast p.

(** The part of [s] that starts at its last dot, if it has one. *)
Fixpoint from_last_dot (s : string) : option string :=
  match s with
  | EmptyString => None
  | String c s' =>
      match from_last_dot s' with
      | Some r => Some r
      | None => if Ascii.eqb c "." then Some s else None
      end
  end.

(** [PurePath.suffix]: the last dot must be neither the first nor the last
    character of the name. *)
Definition path_suffix (p : Path) : string :=
  match path_name p with
  | EmptyString => EmptyString
  | String _ rest =>
      match from_last_dot rest with
      | Some r => if String.eqb r "." then EmptyString else r
      | None => EmptyString
      end
  end.

(** [p] and all its ancestors, root first. *)
Definition path_lineage (p : Path) : list Path :=
  (fun n => take n p) <$> seq 0 (S (length p)).

Record File : Type := { f_data : string; f_mode : Z }.

(** Directories and regular files (symbolic links are not modelled). *)
Record FS : Type := { dirs : gset Path; files : gmap Path File }.

Definition is_dir (fs : FS) (p : Path) : bool := bool_decide (p ∈ dirs fs).
Definition is_file (fs : FS) (p : Path) : bool := bool_decide (is_Some (files fs !! p)).
Definition path_exists (fs : FS) (p : Path) : bool := is_dir fs p || is_file fs p.

(** [Path.mkdir(parents=True, exist_ok=True)]: fails only when a regular
    file sits on the way. *)
Definition mkdir_parents (p : Path) (fs : FS) : Result FS :=
  if existsb (is_file fs) (path_lineage p)
  then Raise (OSError "File exists")
  else Ok {| dirs := dirs fs ∪ list_to_set (path_lineage p); files := files fs |}.

Definition read_text (p : Path) (fs : FS) : Result string :=
  match files fs !! p with
  | Some f => Ok (f_data f)
  | None =>
      if is_dir fs p then Raise (OSError "Is a directory")
      else Raise (OSError "No such file or directory")
  end.

(** Mode of a file created by [open]: 0o644. *)
Definition DEFAULT_MODE : Z := 420.

(** Opening [p] for writing: an existing file is kept in place, a new one
    needs its parent directory. *)
Definition open_for_write (p : Path) (fs : FS) : Result (option File) :=
  match files fs !! p with
  | Some f => Ok (Some f)
  | None =>
      if is_dir fs p then Raise (OSError "Is a directory")
      else if is_dir fs (path_parent p) then Ok None
      else Raise (OSError "No such file or directory")
  end.

Definition store (p : Path) (f : File) (fs : FS) : FS :=
  {| dirs := dirs fs; files := <[p := f]> (files fs) |}.

(** [Path.write_text] and [open(p, "wb")]. *)
Definition write_text (p : Path) (data : string) (fs : FS) : Result FS :=
  old ← open_for_write p fs;
  mret (store p {| f_data := data;
                  f_mode := from_option f_mode DEFAULT_MODE old |} fs).

(** [open(p, "a")] followed by one [write]. *)
Definition append_text (p : Path) (data : string) (fs : FS) : Result FS :=
  old ← open_for_write p fs;
  mret (store p {| f_data := from_option f_data EmptyString old +:+ data;
                  f_mode := from_option f_mode DEFAULT_MODE old |} fs).

(** [shutil.rmtree]. *)
Definition rmtree (p : Path) (fs : FS) : Result FS :=
  if is_dir fs p
  then Ok {| dirs := filter (fun q => ¬ p `prefix_of` q) (dirs fs);
             files := filter (fun kv => ¬ p `prefix_of` kv.1) (files fs) |}
  else Raise (OSError "Not a directory").

(** [stat.S_IXUSR | stat.S_IXGRP | stat.S_IXOTH] = 0o111. *)
Definition S_IXALL : Z := 73.

(** The loop of [install_unix] over [bin_dir.iterdir()]: every regular
    file directly under [d] gets the three execute bits. *)
Definition chmod_executables (d : Path) (fs : FS) : FS :=
  {| dirs := dirs fs;
     files := map_imap (fun q f =>
                Some (if bool_decide (path_parent q = d ∧ q ≠ [])
                      then {| f_data := f_data f; f_mode := Z.lor (f_mode f) S_IXALL |}
                      else f)) (files fs) |}.

(** ** Archives *)

(** A member of a zip or tar archive ([ZipInfo], [TarInfo]). *)
Record Member : Type := {
  m_name : string;
  m_isdir : bool;
  m_data : string;
  m_mode : Z
}.

Definition set_name (m : Member) (n : string) : Member :=
  {| m_name := n; m_isdir := m_isdir m; m_data := m_data m; m_mode := m_mode m |}.

(** Components that [os.path.join(dest, name)] adds below [dest]. *)
Definition name_parts (name : string) : Path :=
  filter (fun s => s ≠ EmptyString ∧ s ≠ ".") (Py.split "/" name).

(** [tf.extract(member, dest)] for directory and regular-file members. *)
Definition extract_member (dest : Path) (m : Member) (fs : FS) : Result FS :=
  let target := dest ++ name_parts (m_name m) in
  if m_isdir m then mkdir_parents target fs
  else
    fs1 ← mkdir_parents (path_parent target) fs;
    _ ← open_for_write target fs1;
    mret (store target {| f_data := m_data m; f_mode := m_mode m |} fs1).

(** ** The host and the world *)

Inductive HttpResponse : Type :=
| HttpBody (body : string)
| HTTPError (code : Z) (reason : string)
| URLError (reason : string).

(** [subprocess.run(..., capture_output=True, text=True)]: either the
    child could not be started, or it ran to completion. *)
Inductive ProcOutcome : Type :=
| SpawnFailed (msg : string)
| Completed (returncode : Z) (stdout stderr : string).

(** Everything the installer reads from its surroundings and every library
    call whose result it does not compute itself. *)
Record Host : Type := {
  platform_system : string;
  platform_machine : string;
  path_home : Path;
  path_anchor : string;                       (* "/" or a drive such as "C:\" *)
  os_sep : string;
  environ_SHELL : option string;
  urlopen : string -> HttpResponse;
  zip_namelist : string -> option (list Member);   (* zipfile.ZipFile *)
  tar_getmembers : string -> option (list Member); (* tarfile.open(.., "r:gz") *)
  subprocess_run : list string -> FS -> ProcOutcome * FS;
  mkdtemp : FS -> Path
}.

Inductive Output : Type :=
| InfoLine (msg : string)
| SuccessLine (msg : string)
| WarningLine (msg : string)
| ErrorLine (msg : string)
| HeaderLines (msg : string)    (* the five lines [header] prints *)
| PrintLine (msg : string)
| PromptLine (msg : string).   (* the prompt of [input] *)

(** The HKCU\Environment key: [None] when it cannot be opened for reading
    and writing. *)
Record World : Type := {
  w_fs : FS;
  w_environment_key : option (gmap string string);
  w_console : list Output;
  w_stdin : list string;
  w_requests : list string;          (* URLs fetched, oldest first *)
  w_spawned : list (list string);    (* argv of every child process *)
  w_reg_writes : list (string * string)  (* every SetValueEx, oldest first *)
}.

(** ** The installer monad: state and exceptions *)

Definition M (A : Type) : Type := World -> Result A * World.

#[global] Instance M_ret : MRet M := fun A a w => (Ok a, w).
#[global] Instance M_bind : MBind M := fun A B f c w =>
  match c w with
  | (Ok a, w') => f a w'
  | (Raise e, w') => (Raise e, w')
  end.

Definition raise {A} (e : Exn) : M A := fun w => (Raise e, w).
Definition lift {A} (r : Result A) : M A := fun w => (r, w).

(** [try: body / except Exception as e: handler(e)]. *)
Definition try_except {A} (body : M A) (handler : Exn -> M A) : M A := fun w =>
  match body w with
  | (Raise e, w') => if is_Exception e then handler e w' else (Raise e, w')
  | r => r
  end.

(** [for x in xs: body(x)]. *)
Fixpoint for_each {A} (xs : list A) (body : A -> M unit) : M unit :=
  match xs with
  | [] => mret tt
  | x :: rest => _ ← body x; for_each rest body
  end.

Definition set_fs (fs : FS) (w : World) : World :=
  {| w_fs := fs; w_environment_key := w_environment_key w;
     w_console := w_console w; w_stdin := w_stdin w;
     w_requests := w_requests w; w_spawned := w_spawned w;
     w_reg_writes := w_reg_writes w |}.

(** Writing lines to the console. *)
Definition say (out : list Output) (w : World) : World :=
  {| w_fs := w_fs w; w_environment_key := w_environment_key w;
     w_console := w_console w ++ out; w_stdin := w_stdin w;
     w_requests := w_requests w; w_spawned := w_spawned w;
     w_reg_writes := w_reg_writes w |}.

Definition emit (o : Output) : M unit := fun w => (Ok tt, say [o] w).

Definition info (msg : string) : M unit := emit (InfoLine msg).
Definition success (msg : string) : M unit := emit (SuccessLine msg).
Definition warn (msg : string) : M unit := emit (WarningLine msg).
Definition error (msg : string) : M unit := emit (ErrorLine msg).
Definition header (msg : string) : M unit := emit (HeaderLines msg).
Definition print (msg : string) : M unit := emit (PrintLine msg).

(** A filesystem query. *)
Definition ask_fs {A} (q : FS -> A) : M A := fun w => (Ok (q (w_fs w)), w).

(** A filesystem operation that may fail; the filesystem is left as it was
    when it does. *)
Definition fs_op (op : FS -> Result FS) : M unit := fun w =>
  match op (w_fs w) with
  | Ok fs' => (Ok tt, set_fs fs' w)
  | Raise e => (Raise e, w)
  end.

Definition fs_read {A} (op : FS -> Result A) : M A := fun w => (op (w_fs w), w).

(** [input(prompt)]. *)
Definition input (prompt : string) : M string := fun w =>
  let w1 := snd (emit (PromptLine prompt) w) in
  match w_stdin w1 with
  | [] => (Raise EOFError, w1)
  | line :: rest =>
      (Ok line, {| w_fs := w_fs w1; w_environment_key := w_environment_key w1;
                   w_console := w_console w1; w_stdin := rest;
                   w_requests := w_requests w1; w_spawned := w_spawned w1;
                   w_reg_writes := w_reg_writes w1 |})
  end.

Section Installer.

Variable host : Host.

Definition path_str (p : Path) : string :=
  path_anchor host +:+ Py.join (os_sep host) p.

(** [subprocess.run(argv, ...)]: the child may change the filesystem. *)
Definition run (argv : list string) : M (Z * string * string) := fun w =>
  let '(outcome, fs') := subprocess_run host argv (w_fs w) in
  let w' :=
    {| w_fs := fs'; w_environment_key := w_environment_key w;
       w_console := w_console w; w_stdin := w_stdin w;
       w_requests := w_requests w; w_spawned := w_spawned w ++ [argv];
       w_reg_writes := w_reg_writes w |} in
  match outcome with
  | Completed rc out err => (Ok (rc, out, err), w')
  | SpawnFailed msg => (Raise (OSError msg), w')
  end.

(** [urllib.request.urlopen] on a request for [url]. *)
Definition fetch (url : string) : M HttpResponse := fun w =>
  (Ok (urlopen host url),
   {| w_fs := w_fs w; w_environment_key := w_environment_key w;
      w_console := w_console w; w_stdin := w_stdin w;
      w_requests := w_requests w ++ [url]; w_spawned := w_spawned w;
      w_reg_writes := w_reg_writes w |}).

(** [with tempfile.TemporaryDirectory() as temp_dir: body]: the
    directory is removed on the way out, whatever [body] did. *)
Definition with_tempdir {A} (body : Path -> M A) : M A := fun w =>
  let tmp := mkdtemp host (w_fs w) in
  match fs_op (mkdir_parents tmp) w with
  | (Raise e, w') => (Raise e, w')
  | (Ok _, w1) =>
      let '(r, w2) := body tmp w1 in
      match rmtree tmp (w_fs w2) with
      | Ok fs' => (r, set_fs fs' w2)
      | Raise _ => (r, w2)
      end
  end.

Definition get_install_dir : Path := path_home host ++ [INSTALL_DIR_NAME].

Definition platform_info : M (string * string) :=
  lift (get_platform_info (platform_system host) (platform_machine host)).

(** *** Download and extraction *)

(** The progress line printed per chunk is not modelled (it only formats
    floating-point ratios); the body reaches the disk in one write. *)
Definition download_file (url : string) (dest : Path) (description : string)
  : M unit :=
  _ ← info ("Downloading " +:+ description +:+ "...");
  _ ← info ("URL: " +:+ url);
  response ← fetch url;
  match response with
  | HttpBody body =>
      _ ← fs_op (write_text dest body);
      _ ← print EmptyString;
      success ("Downloaded: " +:+ path_name dest)
  | HTTPError code reason =>
      raise (RuntimeError ("HTTP Error " +:+ pretty code +:+ ": " +:+ reason
                           +:+ ". URL may be invalid for this version."))
  | URLError reason =>
      raise (RuntimeError ("Network error: " +:+ reason
                           +:+ ". Check your internet connection."))
  end.

(** Opening an archive: read the file, let the library decode it. *)
Definition open_archive (decode : string -> option (list Member))
    (archive : Path) : M (list Member) :=
  data ← fs_read (read_text archive);
  match decode data with
  | Some members => mret members
  | None => raise (ArchiveError "not a valid archive")
  end.

Definition extractall (dest : Path) (members : list Member) : M unit :=
  for_each members (fun m => fs_op (extract_member dest m)).

Definition extract_archive (archive dest : Path) (strip_components : Z)
  : M unit :=
  _ ← info ("Extracting to: " +:+ path_str dest);
  _ ← fs_op (mkdir_parents dest);
  _ ← (if String.eqb (path_suffix archive) ".zip"
          || Py.endswith ".zip" (path_name archive)
       then
         members ← open_archive (zip_namelist host) archive;
         extractall dest members
       else if Py.endswith ".tar.gz" (path_name archive)
               || Py.endswith ".tgz" (path_name archive)
       then
         members ← open_archive (tar_getmembers host) archive;
         if 0 <? strip_components then
           for_each members (fun member =>
             let parts := Py.split "/" (m_name member) in
             if strip_components <? Z.of_nat (length parts) then
               fs_op (extract_member dest
                        (set_name member
                           (Py.join "/" (drop (Z.to_nat strip_components) parts))))
             else mret tt)
         else extractall dest members
       else raise (ValueError ("Unknown archive format: " +:+ path_name archive)));
  success "Extraction complete".

(** [if install_dir.exists(): warn(...); shutil.rmtree(install_dir)]. *)
Definition remove_existing (install_dir : Path) : M unit :=
  present ← ask_fs (fun fs => path_exists fs install_dir);
  if (present : bool) then
    _ ← warn "Removing existing installation...";
    fs_op (rmtree install_dir)
  else mret tt.

(** *** Windows *)

(** Lines 283-298 of [install_windows]: enabling [import site] in the
    [._pth] file of the embeddable package. *)
Definition configure_pth (version : string) (install_dir : Path) : M unit :=
  let major_minor := Py.join EmptyString (take 2 (Py.split "." version)) in
  let pth_file := install_dir ++ ["python" +:+ major_minor +:+ "._pth"] in
  present ← ask_fs (fun fs => path_exists fs pth_file);
  if (present : bool) then
    _ ← info ("Configuring " +:+ path_name pth_file +:+ " for pip support...");
    content ← fs_read (read_text pth_file);
    if Py.contains "#import site" content then
      _ ← fs_op (write_text pth_file
                   (Py.replace "#import site" "import site" content));
      success "Enabled 'import site'"
    else if negb (Py.contains "import site" content) then
      _ ← fs_op (append_text pth_file (Py.NL +:+ "import site" +:+ Py.NL));
      success "Added 'import site'"
    else mret tt
  else mret tt.

Definition install_windows (version : string) (install_dir : Path)
    (arch : string) : M Path :=
  url ← lift (get_windows_embed_url version arch);
  _ ← with_tempdir (fun temp_path =>
        let zip_file := temp_path ++ ["python-embed.zip"] in
        _ ← download_file url zip_file
              ("Python " +:+ version +:+ " embeddable package");
        _ ← remove_existing install_dir;
        extract_archive zip_file install_dir 0);
  _ ← configure_pth version install_dir;
  mret (install_dir ++ ["python.exe"]).

(** *** Unix *)

Definition install_unix (version : string) (install_dir : Path)
    (os_name arch : string) : M Path :=
  url ← lift (get_pbs_download_url version os_name arch);
  _ ← with_tempdir (fun temp_path =>
        let tarball := temp_path ++ ["python.tar.gz"] in
        _ ← download_file url tarball ("Python " +:+ version);
        _ ← remove_existing install_dir;
        extract_archive tarball install_dir 1);
  _ ← (if String.eqb os_name "macos" then
         _ ← info "Removing macOS quarantine attributes...";
         try_except
           (_ ← run ["xattr"; "-dr"; "com.apple.quarantine"; path_str install_dir];
            success "Quarantine attributes removed")
           (fun _ => mret tt)
       else mret tt);
  let bin_dir := install_dir ++ ["bin"] in
  present ← ask_fs (fun fs => path_exists fs bin_dir);
  _ ← (if (present : bool) then
         fs_op (fun fs => if is_dir fs bin_dir
                          then Ok (chmod_executables bin_dir fs)
                          else Raise (OSError "Not a directory"))
       else mret tt);
  mret (bin_dir ++ ["python3"]).

(** *** pip *)

Definition install_pip (python_exe install_dir : Path) : M unit :=
  _ ← info "Checking pip installation...";
  '(returncode, stdout, _) ← run [path_str python_exe; "-m"; "pip"; "--version"];
  if returncode =? 0 then
    _ ← success ("pip already installed: " +:+ Py.strip stdout);
    _ ← info "Upgrading pip to latest version...";
    _ ← run [path_str python_exe; "-m"; "pip"; "install"; "--upgrade"; "pip";
             "--quiet"];
    mret tt
  else
    _ ← info "Installing pip...";
    _ ← with_tempdir (fun temp_dir =>
          let get_pip_path := temp_dir ++ ["get-pip.py"] in
          _ ← download_file GET_PIP_URL get_pip_path "get-pip.py";
          '(returncode, _, stderr) ←
            run [path_str python_exe; path_str get_pip_path;
                 "--no-warn-script-location"];
          if negb (returncode =? 0) then
            _ ← error ("pip installation failed: " +:+ stderr);
            raise (RuntimeError "Failed to install pip")
          else mret tt);
    '(returncode, stdout, _) ← run [path_str python_exe; "-m"; "pip"; "--version"];
    if returncode =? 0 then success ("pip installed: " +:+ Py.strip stdout)
    else warn "pip installation may have issues".

(** *** PATH configuration *)

(** [winreg.OpenKey(HKEY_CURRENT_USER, "Environment", 0, KEY_READ | KEY_WRITE)]. *)
Definition open_environment_key : M (gmap string string) := fun w =>
  match w_environment_key w with
  | Some key => (Ok key, w)
  | None => (Raise (OSError "Access is denied"), w)
  end.

(** [winreg.SetValueEx(key, name, 0, REG_EXPAND_SZ, value)]. *)
Definition set_value_ex (name value : string) : M unit := fun w =>
  match w_environment_key w with
  | Some key =>
      (Ok tt, {| w_fs := w_fs w;
                 w_environment_key := Some (<[name := value]> key);
                 w_console := w_console w; w_stdin := w_stdin w;
                 w_requests := w_requests w; w_spawned := w_spawned w;
                 w_reg_writes := w_reg_writes w ++ [(name, value)] |})
  | None => (Raise (OSError "Access is denied"), w)
  end.

(** The loop over [paths_to_add]: one step inserts an absent entry at
    the front and records that the list changed. *)
Definition add_path (state : list string * bool) (path_to_add : string)
  : list string * bool :=
  let '(path_parts, modified) := state in
  if bool_decide (path_to_add ∈ path_parts) then (path_parts, modified)
  else (path_to_add :: path_parts, true).

Definition configure_path_windows (install_dir : Path) : M unit :=
  let scripts_dir := install_dir ++ ["Scripts"] in
  let paths_to_add := [path_str install_dir; path_str scripts_dir] in
  _ ← info "Updating user PATH...";
  try_except
    (key ← open_environment_key;
     let current_path := default EmptyString (key !! "PATH") in
     let path_parts :=
       if String.eqb current_path EmptyString then []
       else Py.split ";" current_path in
     let '(path_parts, modified) :=
       fold_left add_path paths_to_add (path_parts, false) in
     if (modified : bool) then
       let new_path := Py.join ";" path_parts in
       _ ← set_value_ex "PATH" new_path;
       _ ← success "Added to user PATH";
       warn "Restart your terminal for PATH changes to take effect"
     else info "Already in user PATH")
    (fun e =>
       _ ← warn ("Could not update PATH automatically: " +:+ exn_str e);
       _ ← info "Please add these directories to your PATH manually:";
       for_each paths_to_add (fun p => print ("  " +:+ p))).

Definition MARKER : string := "# Python-NoAdmin PATH".

(** [Path(shell).name]. *)
Definition shell_name : string :=
  List.last (name_parts (default "/bin/bash" (environ_SHELL host))) EmptyString.

(** The profile file chosen for the user's shell. *)
Definition select_profile (fs : FS) : Path :=
  if String.eqb shell_name "zsh" then path_home host ++ [".zshrc"]
  else if String.eqb shell_name "fish"
  then path_home host ++ [".config"; "fish"; "config.fish"]
  else if String.eqb shell_name "bash" then
    let bash_profile := path_home host ++ [".bash_profile"] in
    let bashrc := path_home host ++ [".bashrc"] in
    if path_exists fs bash_profile then bash_profile else bashrc
  else path_home host ++ [".profile"].

(** The block appended to the profile. *)
Definition path_config (bin_dir : Path) : string :=
  if String.eqb shell_name "fish" then
    Py.NL +:+ MARKER +:+ Py.NL
    +:+ "set -gx PATH " +:+ Py.DQ +:+ path_str bin_dir +:+ Py.DQ +:+ " $PATH" +:+ Py.NL
    +:+ "# End Python-NoAdmin" +:+ Py.NL
  else
    Py.NL +:+ MARKER +:+ Py.NL
    +:+ "export PATH=" +:+ Py.DQ +:+ path_str bin_dir +:+ ":$PATH" +:+ Py.DQ +:+ Py.NL
    +:+ "# End Python-NoAdmin" +:+ Py.NL.

Definition configure_path_unix (install_dir : Path) : M unit :=
  let bin_dir := install_dir ++ ["bin"] in
  profile ← ask_fs select_profile;
  let marker := MARKER in
  _ ← info ("Configuring shell profile: " +:+ path_str profile);
  present ← ask_fs (fun fs => path_exists fs profile);
  configured ←
    (if (present : bool) then
       content ← fs_read (read_text profile);
       mret (Py.contains marker content)
     else mret false);
  if (configured : bool) then info "Shell profile already configured"
  else
    _ ← fs_op (mkdir_parents (path_parent profile));
    let config := path_config bin_dir in
    _ ← fs_op (append_text profile config);
    _ ← success ("Added Python to PATH in " +:+ path_str profile);
    warn ("Run 'source " +:+ path_str profile +:+ "' or restart your terminal").

(** *** Main operations *)

Definition install (version : string) (force : bool) : M unit :=
  '(os_name, arch) ← platform_info;
  let install_dir := get_install_dir in
  _ ← header "Python-NoAdmin Installer";
  _ ← print ("  Version: " +:+ version);
  _ ← print ("  Platform: " +:+ os_name +:+ " (" +:+ arch +:+ ")");
  _ ← print ("  Install directory: " +:+ path_str install_dir);
  _ ← print EmptyString;
  present ← ask_fs (fun fs => path_exists fs install_dir);
  if (present : bool) && negb force then
    _ ← warn ("Python already installed at: " +:+ path_str install_dir);
    _ ← info "Use --force to reinstall";
    let python_exe :=
      if String.eqb os_name "windows" then install_dir ++ ["python.exe"]
      else install_dir ++ ["bin"; "python3"] in
    exe_present ← ask_fs (fun fs => path_exists fs python_exe);
    if (exe_present : bool) then
      '(returncode, stdout, _) ← run [path_str python_exe; "--version"];
      if returncode =? 0 then info ("Existing version: " +:+ Py.strip stdout)
      else mret tt
    else mret tt
  else
    _ ← info ("Installing Python " +:+ version +:+ "...");
    try_except
      (python_exe ←
         (if String.eqb os_name "windows"
          then install_windows version install_dir arch
          else install_unix version install_dir os_name arch);
       '(returncode, stdout, _) ← run [path_str python_exe; "--version"];
       if negb (returncode =? 0) then
         raise (RuntimeError "Python installation failed verification")
       else
         _ ← success ("Python installed: " +:+ Py.strip stdout);
         _ ← install_pip python_exe install_dir;
         _ ← (if String.eqb os_name "windows"
              then configure_path_windows install_dir
              else configure_path_unix install_dir);
         _ ← header "Installation Complete!";
         _ ← print ("  Python: " +:+ path_str python_exe);
         _ ← (if String.eqb os_name "windows"
              then print ("  pip: " +:+ path_str (install_dir ++ ["Scripts"; "pip.exe"]))
              else print ("  pip: " +:+ path_str (install_dir ++ ["bin"; "pip3"])));
         _ ← print EmptyString;
         _ ← print "  Activate in current session:";
         _ ← (if String.eqb os_name "windows"
              then print "    . .\scripts\activate.ps1"
              else print "    source ./scripts/activate.sh");
         print EmptyString)
      (fun e =>
         _ ← error ("Installation failed: " +:+ exn_str e);
         raise (SystemExit 1)).

Definition uninstall : M unit :=
  let install_dir := get_install_dir in
  '(os_name, _) ← platform_info;
  _ ← header "Python-NoAdmin Uninstaller";
  present ← ask_fs (fun fs => path_exists fs install_dir);
  if negb present then
    info ("Nothing to uninstall. Directory not found: " +:+ path_str install_dir)
  else
    _ ← print ("This will remove: " +:+ path_str install_dir);
    reply ← input "Continue? [y/N] ";
    let response := Py.lower (Py.strip reply) in
    if negb (String.eqb response "y" || String.eqb response "yes") then
      info "Uninstallation cancelled"
    else
      _ ← info "Removing installation...";
      _ ← fs_op (rmtree install_dir);
      _ ← success ("Removed: " +:+ path_str install_dir);
      _ ← (if String.eqb os_name "windows" then
             _ ← info "Note: You may want to remove Python-NoAdmin entries from your user PATH";
             info "  System Properties > Environment Variables > User variables > PATH"
           else
             _ ← info "Note: Remove Python-NoAdmin lines from your shell profile";
             info "  (e.g., ~/.bashrc, ~/.zshrc)");
      success "Uninstallation complete".

Definition list_versions : M unit :=
  _ ← print EmptyString;
  _ ← print "Available Python versions:";
  _ ← print EmptyString;
  _ ← for_each AVAILABLE_VERSIONS (fun v =>
        let marker := if String.eqb v DEFAULT_VERSION then " (default)"
                      else EmptyString in
        print ("  • " +:+ v +:+ marker));
  _ ← print EmptyString;
  _ ← print "Note: Other versions may work but are not tested.";
  print EmptyString.

(** *** Entry point *)

(** The namespace [argparse] hands to [main]. *)
Record Args : Type := {
  arg_version : string;
  arg_force : bool;
  arg_list_versions : bool;
  arg_uninstall : bool
}.

Definition main (args : Args) : M unit :=
  if arg_list_versions args then list_versions
  else if arg_uninstall args then uninstall
  else install (arg_version args) (arg_force args).

(** Exit status of the interpreter after [main]: 0 on a normal return,
    the code of a [SystemExit], 1 after an uncaught exception. *)
Definition exit_code (r : Result unit) : Z :=
  match r with
  | Ok _ => 0
  | Raise (SystemExit c) => c
  | Raise _ => 1
  end.

End Installer.

(** ** Reference tables and notions the statements use *)

(** The canonical names documented for the host identifiers. *)
Definition documented_os : list (string * string) :=
  [("darwin", "macos"); ("windows", "windows"); ("linux", "linux")].

Definition documented_arch : list (string * string) :=
  [("x86_64", "x86_64"); ("amd64", "x86_64");
   ("aarch64", "aarch64"); ("arm64", "aarch64");
   ("i386", "x86"); ("i686", "x86")].

(** The Unix platform pairs of the data model. *)
Definition unix_target (os_name arch : string) : Prop :=
  os_name ∈ ["macos"; "linux"] ∧ arch ∈ ["x86_64"; "aarch64"; "x86"].

(** Stripping as the specification words it: keep the members with more
    than [n] segments, drop the first [n] segments of each. *)
Definition segments (m : Member) : list string := Py.split "/" (m_name m).

Definition strip_member (n : nat) (m : Member) : Member :=
  {| m_name := Py.join "/" (drop n (segments m));
     m_isdir := m_isdir m; m_data := m_data m; m_mode := m_mode m |}.

Definition stripped (n : nat) (members : list Member) : list Member :=
  strip_member n <$> filter (fun m => (n < length (segments m))%nat) members.

(** The user PATH as [configure_path_windows] reads it: the value, the
    empty string when it is absent, and its entries. *)
Definition registry_path (key : gmap string string) : string :=
  default EmptyString (key !! "PATH").

Definition path_entries (current_path : string) : list string :=
  if String.eqb current_path EmptyString then [] else Py.split ";" current_path.

(** The entries to put in front: each of the two directories that is not
    an entry yet, the Scripts directory first. *)
Definition missing_entries (dir scripts : string) (entries : list string)
  : list string :=
  (if bool_decide (scripts ∈ entries) then [] else [scripts])
  ++ (if bool_decide (dir ∈ entries) then [] else [dir]).

(** The text of a profile file, empty when there is no such file. *)
Definition profile_text (fs : FS) (p : Path) : string :=
  from_option f_data EmptyString (files fs !! p).

(** The line of the block that puts the bin directory on PATH. *)
Definition path_line (host : Host) (bin_dir : Path) : string :=
  if String.eqb (shell_name host) "fish" then
    "set -gx PATH " +:+ Py.DQ +:+ path_str host bin_dir +:+ Py.DQ +:+ " $PATH"
  else
    "export PATH=" +:+ Py.DQ +:+ path_str host bin_dir +:+ ":$PATH" +:+ Py.DQ.

(** The profile is not configured yet: there is nothing at its path, or a
    file without the marker. *)
Definition unconfigured (host : Host) (fs : FS) : Prop :=
  match files fs !! select_profile host fs with
  | Some f => Py.contains MARKER (f_data f) = false
  | None => is_dir fs (select_profile host fs) = false
  end.

(** ** Concrete hosts and worlds for running the model *)

Definition pbs_members : list Member :=
  [ {| m_name := "python"; m_isdir := true; m_data := EmptyString; m_mode := 493 |};
    {| m_name := "python/bin"; m_isdir := true; m_data := EmptyString; m_mode := 493 |};
    {| m_name := "python/bin/python3"; m_isdir := false; m_data := "ELF"; m_mode := 420 |};
    {| m_name := "python/lib/libpython3.so"; m_isdir := false; m_data := "SO"; m_mode := 420 |} ].

(** A tarball without a top-level directory: every path is one segment. *)
Definition flat_members : list Member :=
  [ {| m_name := "README"; m_isdir := false; m_data := "read me"; m_mode := 420 |};
    {| m_name := "LICENSE"; m_isdir := false; m_data := "PSF"; m_mode := 420 |} ].

(** A disk that holds that tarball and nothing else. *)
Definition flat_fs : FS :=
  {| dirs := list_to_set [[]; ["tmp"]];
     files := {[ ["tmp"; "flat.tar.gz"] := {| f_data := "FLAT"; f_mode := 420 |} ]} |}.


(** A Linux x86_64 machine whose network serves one tarball and whose
    child processes all succeed without touching the disk. *)
Definition linux_host : Host :=
  {| platform_system := "Linux";
     platform_machine := "x86_64";
     path_home := ["home"; "user"];
     path_anchor := "/";
     os_sep := "/";
     environ_SHELL := Some "/bin/bash";
     urlopen := fun _ => HttpBody "PBS";
     zip_namelist := fun _ => None;
     tar_getmembers := fun data =>
       if String.eqb data "PBS" then Some pbs_members
       else if String.eqb data "FLAT" then Some flat_members
       else None;
     subprocess_run := fun _ fs => (Completed 0 ("Python 3.11.9" +:+ Py.NL) EmptyString, fs);
     mkdtemp := fun _ => ["tmp"; "tmpa1b2"] |}.

(** The same machine reporting an operating system the installer does not
    know. *)
Definition freebsd_host : Host :=
  {| platform_system := "FreeBSD";
     platform_machine := "amd64";
     path_home := ["home"; "user"];
     path_anchor := "/";
     os_sep := "/";
     environ_SHELL := Some "/bin/sh";
     urlopen := fun _ => URLError "unreachable";
     zip_namelist := fun _ => None;
     tar_getmembers := fun _ => None;
     subprocess_run := fun _ fs => (Completed 0 EmptyString EmptyString, fs);
     mkdtemp := fun _ => ["tmp"; "tmpa1b2"] |}.

(** A Linux machine on which no child process can be started. *)
Definition noexec_host : Host :=
  {| platform_system := "Linux";
     platform_machine := "x86_64";
     path_home := ["home"; "user"];
     path_anchor := "/";
     os_sep := "/";
     environ_SHELL := Some "/bin/bash";
     urlopen := fun _ => URLError "unreachable";
     zip_namelist := fun _ => None;
     tar_getmembers := fun _ => None;
     subprocess_run := fun _ fs => (SpawnFailed "Permission denied", fs);
     mkdtemp := fun _ => ["tmp"; "tmpa1b2"] |}.

Definition windows_host : Host :=
  {| platform_system := "Windows";
     platform_machine := "AMD64";
     path_home := ["Users"; "user"];
     path_anchor := "C:" +:+ Py.BSLASH;
     os_sep := Py.BSLASH;
     environ_SHELL := None;
     urlopen := fun _ => HttpBody "EMBED";
     zip_namelist := fun _ => None;
     tar_getmembers := fun _ => None;
     subprocess_run := fun _ fs => (Completed 0 ("Python 3.11.9" +:+ Py.NL) EmptyString, fs);
     mkdtemp := fun _ => ["Temp"; "tmpa1b2"] |}.

Definition empty_fs : FS := {| dirs := ∅; files := ∅ |}.

Definition world_of (fs : FS) : World :=
  {| w_fs := fs; w_environment_key := None; w_console := []; w_stdin := [];
     w_requests := []; w_spawned := []; w_reg_writes := [] |}.

(** A home directory that holds a finished installation. *)
Definition installed_fs : FS :=
  {| dirs := list_to_set [[]; ["home"]; ["home"; "user"];
                          ["home"; "user"; ".python-nonadmin"];
                          ["home"; "user"; ".python-nonadmin"; "bin"]];
     files := {[ ["home"; "user"; ".python-nonadmin"; "bin"; "python3"]
                 := {| f_data := "ELF"; f_mode := 493 |} ]} |}.

(** A home directory whose [.bashrc] holds one alias. *)
Definition bashrc_fs : FS :=
  {| dirs := list_to_set [[]; ["home"]; ["home"; "user"]];
     files := {[ ["home"; "user"; ".bashrc"]
                 := {| f_data := "alias ll=ls"; f_mode := 420 |} ]} |}.

(** [python install.py] with no option. *)
Definition install_args : Args :=
  {| arg_version := DEFAULT_VERSION; arg_force := false;
     arg_list_versions := false; arg_uninstall := false |}.

(** A Windows session whose user PATH holds two foreign entries. *)
Definition registry_world : World :=
  {| w_fs := empty_fs;
     w_environment_key := Some {[ "PATH" := "C:\Tools;D:\bin" ]};
     w_console := []; w_stdin := []; w_requests := []; w_spawned := [];
     w_reg_writes := [] |}.

(** A computation that can only fail with something [except Exception]
    catches, never with [SystemExit]. *)
Definition raises_only_exceptions {A} (c : M A) : Prop :=
  ∀ w e w', c w = (Raise e, w') → is_Exception e = true.

(** The same for a filesystem operation. *)
Definition fails_with_exception {A} (op : FS → Result A) : Prop :=
  ∀ fs e, op fs = Raise e → is_Exception e = true.

(** What a step that only talks to the console and the network leaves
    alone: the disk, the registry, standard input and the process list;
    it makes at most one request. *)
Definition only_requests (w w' : World) : Prop :=
  w_fs w' = w_fs w
  ∧ w_environment_key w' = w_environment_key w
  ∧ w_stdin w' = w_stdin w
  ∧ w_spawned w' = w_spawned w
  ∧ w_reg_writes w' = w_reg_writes w.

(** The member that ends up at path [q] when [members] are extracted below
    [dest] in order: the last regular-file member placed there. *)
Fixpoint delivered (dest : Path) (members : list Member) (q : Path)
  : option Member :=
  match members with
  | [] => None
  | m :: rest =>
      match delivered dest rest q with
      | Some m' => Some m'
      | None =>
          if negb (m_isdir m) && bool_decide (dest ++ name_parts (m_name m) = q)
          then Some m else None
      end
  end.

(** A member name that stays below the directory it is joined to: no
    [..] segment and no empty segment except a trailing one (so neither a
    leading slash nor a doubled one). *)
Definition plain_name (name : string) : bool :=
  let parts := Py.split "/" name in
  negb (existsb (String.eqb "..") parts)
  && negb (existsb (String.eqb EmptyString) (removelast parts)).

(** The embeddable package, reduced to the interpreter and its [._pth]
    file, and a Windows machine whose network serves it. *)
Definition embed_members : list Member :=
  [ {| m_name := "python.exe"; m_isdir := false; m_data := "MZ"; m_mode := 420 |};
    {| m_name := "python311._pth"; m_isdir := false;
       m_data := "python311.zip" +:+ Py.NL +:+ "." +:+ Py.NL +:+ "#import site" +:+ Py.NL;
       m_mode := 420 |} ].

Definition embed_host : Host :=
  {| platform_system := "Windows";
     platform_machine := "AMD64";
     path_home := ["Users"; "user"];
     path_anchor := "C:" +:+ Py.BSLASH;
     os_sep := Py.BSLASH;
     environ_SHELL := None;
     urlopen := fun _ => HttpBody "EMBED";
     zip_namelist := fun data =>
       if String.eqb data "EMBED" then Some embed_members else None;
     tar_getmembers := fun _ => None;
     subprocess_run := fun _ fs => (Completed 0 ("Python 3.11.9" +:+ Py.NL) EmptyString, fs);
     mkdtemp := fun _ => ["Temp"; "tmpa1b2"] |}.

(** A Linux machine whose interpreter runs scripts but has no working
    [pip] module: every [-m pip] call exits with status 1. *)
Definition nopip_host : Host :=
  {| platform_system := "Linux";
     platform_machine := "x86_64";
     path_home := ["home"; "user"];
     path_anchor := "/";
     os_sep := "/";
     environ_SHELL := Some "/bin/bash";
     urlopen := fun _ => HttpBody "GETPIP";
     zip_namelist := fun _ => None;
     tar_getmembers := fun _ => None;
     subprocess_run := fun argv fs =>
       if bool_decide ("-m" ∈ argv)
       then (Completed 1 EmptyString "No module named pip", fs)
       else (Completed 0 EmptyString EmptyString, fs);
     mkdtemp := fun _ => ["tmp"; "tmpa1b2"] |}.

(** * Properties *)

(** ** Facts about the string primitives *)

Module PyFacts.
Import Py.

Lemma append_cons c a b : String c a +:+ b = String c (a +:+ b).
Proof. reflexivity. Qed.

Lemma append_nil_r s : s +:+ EmptyString = s.
Proof.
  induction s as [|c s IH]; [reflexivity|].
  rewrite append_cons. f_equal. exact IH.
Qed.

Lemma append_assoc a b c : (a +:+ b) +:+ c = a +:+ (b +:+ c).
Proof.
  induction a as [|x a IH]; [reflexivity|].
  rewrite !append_cons. f_equal. exact IH.
Qed.

Lemma length_append a b :
  String.length (a +:+ b) = (String.length a + String.length b)%nat.
Proof.
  induction a as [|x a IH]; [reflexivity|].
  rewrite append_cons. simpl. f_equal. exact IH.
Qed.

Lemma prefix_nil s : String.prefix EmptyString s = true.
Proof. destruct s; reflexivity. Qed.

Lemma prefix_cons c m d s :
  String.prefix (String c m) (String d s) = Ascii.eqb c d && String.prefix m s.
Proof.
  simpl. destruct (ascii_dec c d) as [->|Hne].
  - now rewrite Ascii.eqb_refl.
  - apply Ascii.eqb_neq in Hne. now rewrite Hne.
Qed.

Lemma prefix_empty_r m : m ≠ EmptyString → String.prefix m EmptyString = false.
Proof. destruct m; [congruence | reflexivity]. Qed.

Lemma prefix_app m t : String.prefix m (m +:+ t) = true.
Proof.
  induction m as [|c m IH]; [apply prefix_nil|].
  change (String c m +:+ t) with (String c (m +:+ t)).
  now rewrite prefix_cons, Ascii.eqb_refl, IH.
Qed.

Lemma prefix_length m s :
  String.prefix m s = true → (String.length m ≤ String.length s)%nat.
Proof.
  revert s. induction m as [|c m IH]; intros [|d s] H; simpl; try lia.
  - discriminate.
  - rewrite prefix_cons in H. apply andb_true_iff in H as [_ H].
    apply IH in H. lia.
Qed.

(** A pattern that does not contain [x] cannot reach across an [x]. *)
Lemma prefix_before_char x m :
  has_char x m = false →
  ∀ a t, String.prefix m (a +:+ String x t) = String.prefix m a.
Proof.
  induction m as [|c m IH]; intros Hx a t.
  - now rewrite !prefix_nil.
  - simpl in Hx. apply orb_false_iff in Hx as [Hc Hm].
    destruct a as [|d a].
    + change (EmptyString +:+ String x t) with (String x t).
      rewrite prefix_cons, Ascii.eqb_sym, Hc. reflexivity.
    + change (String d a +:+ String x t) with (String d (a +:+ String x t)).
      rewrite !prefix_cons. now rewrite IH.
Qed.

Lemma occurrences_cons m c s :
  occurrences m (String c s)
  = ((if String.prefix m (String c s) then 1 else 0) + occurrences m s)%nat.
Proof. reflexivity. Qed.

Lemma contains_cons m c s :
  contains m (String c s) = String.prefix m (String c s) || contains m s.
Proof. reflexivity. Qed.

Lemma occurrences_before_char x m :
  has_char x m = false →
  ∀ a t, occurrences m (a +:+ String x t)
         = (occurrences m a + occurrences m (String x t))%nat.
Proof.
  intros Hx a t. induction a as [|d a IH]; [reflexivity|].
  change (String d a +:+ String x t) with (String d (a +:+ String x t)).
  rewrite !(occurrences_cons m d), IH.
  change (String d (a +:+ String x t)) with (String d a +:+ String x t).
  rewrite (prefix_before_char x m Hx). lia.
Qed.

Lemma occurrences_short m s :
  (String.length s < String.length m)%nat → occurrences m s = 0%nat.
Proof.
  induction s as [|c s IH]; intros Hlen; [reflexivity|].
  rewrite occurrences_cons, IH by (simpl in Hlen; lia).
  destruct (String.prefix m (String c s)) eqn:E; [|reflexivity].
  apply prefix_length in E. lia.
Qed.

Lemma occurrences_zero m s :
  m ≠ EmptyString → occurrences m s = 0%nat ↔ contains m s = false.
Proof.
  intros Hm. induction s as [|c s IH].
  - destruct m; [congruence|]. split; reflexivity.
  - rewrite occurrences_cons, contains_cons.
    destruct (String.prefix m (String c s)); simpl.
    + split; [lia | discriminate].
    + exact IH.
Qed.

Lemma contains_of_prefix m s : String.prefix m s = true → contains m s = true.
Proof.
  intros H. destruct s as [|c s].
  - unfold contains. now rewrite H.
  - now rewrite contains_cons, H.
Qed.

Lemma contains_app_r m a s : contains m s = true → contains m (a +:+ s) = true.
Proof.
  intros H. induction a as [|c a IH]; [exact H|].
  change (String c a +:+ s) with (String c (a +:+ s)).
  rewrite contains_cons, IH. apply orb_true_r.
Qed.

Lemma contains_middle m a b : contains m (a +:+ m +:+ b) = true.
Proof. apply contains_app_r, contains_of_prefix, prefix_app. Qed.

(** [c ++ sub] occurring implies [sub] occurring. *)
Lemma contains_tail c sub s :
  contains (String c sub) s = true → contains sub s = true.
Proof.
  induction s as [|d s IH]; [discriminate|].
  rewrite !contains_cons. intros H. apply orb_true_iff in H as [H|H].
  - rewrite prefix_cons in H. apply andb_true_iff in H as [_ H].
    apply contains_of_prefix in H. rewrite H. apply orb_true_r.
  - rewrite (IH H). apply orb_true_r.
Qed.

(** *** [replace] *)

Lemma replace_from_skip old new s t :
  replace_from old new (String.length s) (s +:+ t) = replace_from old new 0 t.
Proof. induction s as [|c s IH]; [reflexivity | exact IH]. Qed.

Lemma replace_hit h old' new t :
  replace (String h old') new (String h old' +:+ t)
  = new +:+ replace (String h old') new t.
Proof.
  unfold replace.
  change (String h old' +:+ t) with (String h (old' +:+ t)).
  cbn [replace_from].
  change (String h (old' +:+ t)) with (String h old' +:+ t).
  rewrite prefix_app.
  replace (String.length (String h old') - 1)%nat with (String.length old')
    by (simpl; lia).
  now rewrite replace_from_skip.
Qed.

(** When the first character of [old] does not recur in it, an
    occurrence of [old] cannot overlap the next one. *)
Lemma replace_before h old' new pre t :
  has_char h old' = false →
  contains (String h old') pre = false →
  replace (String h old') new (pre +:+ String h t)
  = pre +:+ replace (String h old') new (String h t).
Proof.
  intros Hh. unfold replace. induction pre as [|c pre IH]; intros Hpre.
  - reflexivity.
  - rewrite contains_cons in Hpre. apply orb_false_iff in Hpre as [Hp Hc].
    change (String c pre +:+ String h t) with (String c (pre +:+ String h t)).
    cbn [replace_from].
    assert (String.prefix (String h old') (String c (pre +:+ String h t)) = false)
      as ->.
    { rewrite prefix_cons in Hp |- *.
      now rewrite (prefix_before_char h old' Hh). }
    rewrite (IH Hc). reflexivity.
Qed.

Lemma replace_absent old new s :
  contains old s = false → replace old new s = s.
Proof.
  unfold replace. induction s as [|c s IH]; intros H; [reflexivity|].
  rewrite contains_cons in H. apply orb_false_iff in H as [Hp Hc].
  cbn [replace_from]. rewrite Hp, (IH Hc). reflexivity.
Qed.

(** *** [endswith] *)

Lemma last_char_cons c s :
  s ≠ EmptyString → last_char (String c s) = last_char s.
Proof.
  intros Hs. simpl. destruct s as [|d s]; [congruence|].
  destruct (last_char (String d s)) eqn:E; [reflexivity|].
  simpl in E. destruct (last_char s); discriminate.
Qed.

Lemma endswith_last_char suf s :
  suf ≠ EmptyString → endswith suf s = true → last_char s = last_char suf.
Proof.
  intros Hsuf. induction s as [|c s IH]; simpl; intros H.
  - rewrite orb_false_r in H. apply String.eqb_eq in H. congruence.
  - apply orb_true_iff in H as [H|H].
    + apply String.eqb_eq in H. now subst suf.
    + rewrite <- (IH H). apply last_char_cons.
      intros ->. simpl in H. rewrite orb_false_r in H.
      apply String.eqb_eq in H. congruence.
Qed.

Lemma endswith_refl s : endswith s s = true.
Proof. destruct s; simpl; now rewrite ?String.eqb_refl, ?Ascii.eqb_refl. Qed.

Lemma endswith_cons suf c s : endswith suf s = true → endswith suf (String c s) = true.
Proof. intros H. simpl. rewrite H. apply orb_true_r. Qed.

(** *** [split] and [join] *)

Lemma split_nonempty sep s : split sep s ≠ [].
Proof.
  destruct s as [|c s]; simpl; [discriminate|].
  destruct (Ascii.eqb c sep); [discriminate|].
  destruct (split sep s); discriminate.
Qed.

Lemma join_cons sep p q rest :
  join sep (p :: q :: rest) = p +:+ sep +:+ join sep (q :: rest).
Proof. reflexivity. Qed.

Lemma join_app sep a b :
  a ≠ [] → b ≠ [] → join sep (a ++ b) = join sep a +:+ sep +:+ join sep b.
Proof.
  intros Ha Hb. induction a as [|p a IH]; [congruence|].
  destruct a as [|q a].
  - destruct b as [|r b]; [congruence | reflexivity].
  - change ((p :: q :: a) ++ b) with (p :: (q :: a) ++ b).
    change ((q :: a) ++ b) with (q :: (a ++ b)) at 1.
    rewrite join_cons. change (q :: a ++ b) with ((q :: a) ++ b).
    rewrite IH by discriminate. rewrite join_cons.
    now rewrite !append_assoc.
Qed.

(** Joining what [split] returned gives the string back. *)
Lemma join_split sep s : join (String sep EmptyString) (split sep s) = s.
Proof.
  induction s as [|c s IH]; [reflexivity|].
  simpl. destruct (Ascii.eqb_spec c sep) as [->|Hne].
  - pose proof (split_nonempty sep s) as Hs.
    destruct (split sep s) as [|h t]; [congruence|].
    rewrite join_cons, IH. reflexivity.
  - destruct (split sep s) as [|h t] eqn:E.
    + now destruct (split_nonempty sep s).
    + rewrite <- IH. destruct t; reflexivity.
Qed.

(** *** Characters of a pattern *)

Lemma has_char_app c a b : has_char c (a +:+ b) = has_char c a || has_char c b.
Proof.
  induction a as [|d a IH]; [reflexivity|].
  rewrite append_cons. cbn [has_char]. now rewrite IH, orb_assoc.
Qed.

Lemma prefix_has_char c m s :
  String.prefix m s = true → has_char c m = true → has_char c s = true.
Proof.
  revert s. induction m as [|d m IH]; intros s Hp Hc; [discriminate|].
  destruct s as [|e s]; [discriminate|].
  rewrite prefix_cons in Hp. apply andb_true_iff in Hp as [Hde Hp].
  apply Ascii.eqb_eq in Hde as <-.
  cbn [has_char] in *. apply orb_true_iff in Hc as [Hc|Hc].
  - now rewrite Hc.
  - rewrite (IH s Hp Hc). apply orb_true_r.
Qed.

(** A pattern with a character that [s] lacks does not occur in [s]. *)
Lemma occurrences_foreign c m s :
  has_char c m = true → has_char c s = false → occurrences m s = 0%nat.
Proof.
  intros Hm. induction s as [|d s IH]; intros Hs; [reflexivity|].
  rewrite occurrences_cons.
  destruct (String.prefix m (String d s)) eqn:Hp.
  - apply (prefix_has_char c) in Hp; [congruence | exact Hm].
  - cbn [has_char] in Hs. apply orb_false_iff in Hs as [_ Hs]. now rewrite IH.
Qed.

Lemma prefix_refl m : String.prefix m m = true.
Proof.
  induction m as [|c m IH]; [reflexivity|].
  now rewrite prefix_cons, Ascii.eqb_refl.
Qed.

Lemma occurrences_self m : m ≠ EmptyString → occurrences m m = 1%nat.
Proof.
  intros Hm. destruct m as [|c m]; [congruence|].
  rewrite occurrences_cons, prefix_refl.
  rewrite occurrences_short by (simpl; lia). reflexivity.
Qed.

End PyFacts.

(** ** The primitives against CPython *)

Example split_path : Py.split "/" "python/bin/python3" = ["python"; "bin"; "python3"].
Proof. reflexivity. Qed.

Example split_trailing : Py.split "/" "python/" = ["python"; EmptyString].
Proof. reflexivity. Qed.

Example split_version : Py.split "." "3.11.9" = ["3"; "11"; "9"].
Proof. reflexivity. Qed.

Example join_parts : Py.join "/" ["bin"; "python3"] = "bin/python3".
Proof. reflexivity. Qed.

Example lower_amd64 : Py.lower "AMD64" = "amd64".
Proof. reflexivity. Qed.

Example strip_reply : Py.strip ("  Yes " +:+ Py.NL) = "Yes".
Proof. reflexivity. Qed.

(** A no-break space, an ideographic space and a thin space are stripped
    like a blank; the last byte of "à" (C3 A0) is not a no-break space. *)
Example strip_unicode_spaces :
  Py.strip (Py.chr 194 +:+ Py.chr 160 +:+ " y" +:+ Py.chr 227 +:+ Py.chr 128
            +:+ Py.chr 128 +:+ Py.chr 226 +:+ Py.chr 128 +:+ Py.chr 137 +:+ Py.NL)
  = "y"
  ∧ Py.strip (" y" +:+ Py.chr 195 +:+ Py.chr 160)
    = "y" +:+ Py.chr 195 +:+ Py.chr 160.
Proof. split; reflexivity. Qed.

Example replace_twice :
  Py.replace "#import site" "import site" "a#import site;##import site"
  = "aimport site;#import site".
Proof. reflexivity. Qed.

Example endswith_tgz : Py.endswith ".tgz" "python.tgz" = true.
Proof. reflexivity. Qed.

Example suffix_samples :
  path_suffix ["tmp"; "python.tar.gz"] = ".gz"
  ∧ path_suffix ["tmp"; "python-embed.zip"] = ".zip"
  ∧ path_suffix [".zip"] = EmptyString
  ∧ path_suffix ["archive."] = EmptyString.
Proof. repeat split; reflexivity. Qed.

(** ** Platform detection *)

Ltac pair_cases H :=
  repeat (apply elem_of_cons in H as [H|H]; [injection H as ? ?|]);
  [.. | now apply elem_of_nil in H].

Ltac in_list := apply list_elem_of_In; vm_compute; auto 20.

(** C2.  Writing [system] and [machine] for the lower-cased host
    identifiers, as the source does: every pair of the known enumeration is
    mapped to its documented canonical pair, whose components lie in
    {windows, macos, linux} and {x86_64, aarch64, x86}; a system outside
    the enumeration gives the unsupported-OS error and a known system with
    a machine outside it gives the unsupported-architecture error. *)
Theorem get_platform_info_enumeration (platform_system platform_machine : string) :
  let system := Py.lower platform_system in
  let machine := Py.lower platform_machine in
  (∀ os_name arch,
      (system, os_name) ∈ documented_os → (machine, arch) ∈ documented_arch →
      get_platform_info platform_system platform_machine = Ok (os_name, arch)
      ∧ os_name ∈ ["windows"; "macos"; "linux"]
      ∧ arch ∈ ["x86_64"; "aarch64"; "x86"])
  ∧ ((∀ os_name, (system, os_name) ∉ documented_os) →
      get_platform_info platform_system platform_machine
      = Raise (RuntimeError ("Unsupported operating system: " +:+ system)))
  ∧ (∀ os_name,
      (system, os_name) ∈ documented_os →
      (∀ arch, (machine, arch) ∉ documented_arch) →
      get_platform_info platform_system platform_machine
      = Raise (RuntimeError ("Unsupported architecture: " +:+ machine))).
Proof.
  intros system machine. unfold get_platform_info. fold system. fold machine.
  clearbody system machine. split; [|split].
  - intros os_name arch Hos Harch. unfold documented_os in Hos.
    unfold documented_arch in Harch.
    pair_cases Hos; pair_cases Harch; subst;
      (split; [reflexivity | split; in_list]).
  - intros Hout.
    destruct (String.eqb_spec system "darwin") as [->|_];
      [exfalso; apply (Hout "macos"); in_list|].
    destruct (String.eqb_spec system "windows") as [->|_];
      [exfalso; apply (Hout "windows"); in_list|].
    destruct (String.eqb_spec system "linux") as [->|_];
      [exfalso; apply (Hout "linux"); in_list|].
    reflexivity.
  - intros os_name Hos Hout. unfold documented_os in Hos.
    assert (∀ m a, machine = m → (m, a) ∈ documented_arch → False) as Hno.
    { intros m a <- Hin. exact (Hout a Hin). }
    destruct (String.eqb_spec machine "x86_64") as [E|_];
      [exfalso; apply (Hno _ "x86_64" E); in_list|].
    destruct (String.eqb_spec machine "amd64") as [E|_];
      [exfalso; apply (Hno _ "x86_64" E); in_list|].
    destruct (String.eqb_spec machine "aarch64") as [E|_];
      [exfalso; apply (Hno _ "aarch64" E); in_list|].
    destruct (String.eqb_spec machine "arm64") as [E|_];
      [exfalso; apply (Hno _ "aarch64" E); in_list|].
    destruct (String.eqb_spec machine "i386") as [E|_];
      [exfalso; apply (Hno _ "x86" E); in_list|].
    destruct (String.eqb_spec machine "i686") as [E|_];
      [exfalso; apply (Hno _ "x86" E); in_list|].
    pair_cases Hos; subst; reflexivity.
Qed.

(** The theorem at a Windows host that reports [AMD64], and at hosts it
    rejects. *)
Lemma get_platform_info_enumeration_witness :
  get_platform_info "Windows" "AMD64" = Ok ("windows", "x86_64")
  ∧ get_platform_info "FreeBSD" "amd64"
    = Raise (RuntimeError "Unsupported operating system: freebsd")
  ∧ get_platform_info "Linux" "riscv64"
    = Raise (RuntimeError "Unsupported architecture: riscv64").
Proof.
  pose proof (get_platform_info_enumeration "Windows" "AMD64") as [H1 _].
  pose proof (get_platform_info_enumeration "FreeBSD" "amd64") as (_ & H2 & _).
  pose proof (get_platform_info_enumeration "Linux" "riscv64") as (_ & _ & H3).
  split; [|split].
  - apply (H1 "windows" "x86_64"); vm_compute; in_list.
  - apply H2. intros os_name Hin. vm_compute in Hin.
    pair_cases Hin; congruence.
  - apply (H3 "linux"); [vm_compute; in_list|].
    intros arch Hin. vm_compute in Hin. pair_cases Hin; congruence.
Defined.

(** ** URL resolution *)

(** C3.  The resolvers are functions of their string arguments alone, and
    their values are the documented templates: the python-build-standalone
    archive name carries version, release tag and target triple, the
    embeddable package carries version and architecture suffix.  For
    "3.11.9" on (linux, x86_64) the URL ends in the expected file name. *)
Theorem url_resolvers_match_templates :
  (∀ version arch,
      get_pbs_download_url version "linux" arch
      = Ok ("https://github.com/indygreg/python-build-standalone/releases/download/20241206/cpython-"
            +:+ version +:+ "+20241206-" +:+ arch
            +:+ "-unknown-linux-gnu-install_only.tar.gz"))
  ∧ (∀ version arch,
      get_pbs_download_url version "macos" arch
      = Ok ("https://github.com/indygreg/python-build-standalone/releases/download/20241206/cpython-"
            +:+ version +:+ "+20241206-" +:+ arch
            +:+ "-apple-darwin-install_only.tar.gz"))
  ∧ (∀ version,
      get_windows_embed_url version "x86_64"
      = Ok ("https://www.python.org/ftp/python/" +:+ version +:+ "/python-"
            +:+ version +:+ "-embed-amd64.zip")
      ∧ get_windows_embed_url version "x86"
        = Ok ("https://www.python.org/ftp/python/" +:+ version +:+ "/python-"
              +:+ version +:+ "-embed-win32.zip")
      ∧ get_windows_embed_url version "aarch64"
        = Ok ("https://www.python.org/ftp/python/" +:+ version +:+ "/python-"
              +:+ version +:+ "-embed-arm64.zip"))
  ∧ get_pbs_download_url "3.11.9" "linux" "x86_64"
    = Ok "https://github.com/indygreg/python-build-standalone/releases/download/20241206/cpython-3.11.9+20241206-x86_64-unknown-linux-gnu-install_only.tar.gz"
  ∧ (∀ url,
      get_pbs_download_url "3.11.9" "linux" "x86_64" = Ok url →
      Py.contains
        "cpython-3.11.9+20241206-x86_64-unknown-linux-gnu-install_only.tar.gz"
        url = true).
Proof.
  split; [|split; [|split; [|split]]].
  - intros version arch. unfold get_pbs_download_url. cbn.
    now rewrite !PyFacts.append_assoc.
  - intros version arch. unfold get_pbs_download_url. cbn.
    now rewrite !PyFacts.append_assoc.
  - intros version. repeat split; reflexivity.
  - reflexivity.
  - intros url [= <-]. vm_compute. reflexivity.
Qed.

Lemma url_resolvers_match_templates_witness :
  Py.contains
    "cpython-3.11.9+20241206-x86_64-unknown-linux-gnu-install_only.tar.gz"
    "https://github.com/indygreg/python-build-standalone/releases/download/20241206/cpython-3.11.9+20241206-x86_64-unknown-linux-gnu-install_only.tar.gz"
  = true.
Proof.
  destruct url_resolvers_match_templates as (_ & _ & _ & _ & H).
  apply H. reflexivity.
Defined.

(** C4, as the code has it.  The python-build-standalone resolver looks at
    the operating system only: it fails exactly when [os_name] is neither
    macos nor linux and otherwise builds a URL from whatever [arch] it is
    given; the Windows resolver fails for every [arch] outside its three
    suffixes. *)
Theorem resolvers_reject_unknown :
  (∀ version os_name arch,
      os_name ≠ "macos" → os_name ≠ "linux" →
      get_pbs_download_url version os_name arch
      = Raise (ValueError ("PBS not available for " +:+ os_name)))
  ∧ (∀ version os_name arch,
      os_name = "macos" ∨ os_name = "linux" →
      ∃ url, get_pbs_download_url version os_name arch = Ok url)
  ∧ (∀ version arch,
      arch ≠ "x86_64" → arch ≠ "x86" → arch ≠ "aarch64" →
      get_windows_embed_url version arch
      = Raise (ValueError ("Unknown Windows architecture: " +:+ arch))).
Proof.
  split; [|split].
  - intros version os_name arch Hm Hl. unfold get_pbs_download_url.
    apply String.eqb_neq in Hm, Hl. now rewrite Hm, Hl.
  - intros version os_name arch [->| ->]; eexists; reflexivity.
  - intros version arch H1 H2 H3. unfold get_windows_embed_url.
    apply String.eqb_neq in H1, H2, H3. now rewrite H1, H2, H3.
Qed.

Lemma resolvers_reject_unknown_witness :
  get_pbs_download_url "3.12.8" "windows" "x86_64"
  = Raise (ValueError "PBS not available for windows")
  ∧ (∃ url, get_pbs_download_url "3.12.8" "linux" "aarch64" = Ok url)
  ∧ get_windows_embed_url "3.12.8" "riscv64"
    = Raise (ValueError "Unknown Windows architecture: riscv64").
Proof.
  destruct resolvers_reject_unknown as (H1 & H2 & H3).
  split; [|split].
  - apply (H1 "3.12.8" "windows" "x86_64"); discriminate.
  - apply (H2 "3.12.8" "linux" "aarch64"). now right.
  - apply (H3 "3.12.8" "riscv64"); discriminate.
Defined.

(** C4 as stated fails: an architecture outside every supported Unix
    target still gets a URL from the python-build-standalone resolver. *)
Lemma pbs_resolver_accepts_unknown_arch :
  ¬ unix_target "linux" "riscv64"
  ∧ get_pbs_download_url "3.12.8" "linux" "riscv64"
    = Ok "https://github.com/indygreg/python-build-standalone/releases/download/20241206/cpython-3.12.8+20241206-riscv64-unknown-linux-gnu-install_only.tar.gz".
Proof.
  split; [|reflexivity].
  intros [_ H]. apply list_elem_of_In in H. vm_compute in H.
  repeat destruct H as [H|H]; try discriminate H. exact H.
Qed.

(** ** Running computations of the monad *)

Lemma bind_run {A B} (c : M A) (k : A → M B) (w : World) :
  (c ≫= k) w
  = match c w with
    | (Ok a, w') => k a w'
    | (Raise e, w') => (Raise e, w')
    end.
Proof. reflexivity. Qed.

Lemma emit_run o w : emit o w = (Ok tt, say [o] w).
Proof. reflexivity. Qed.

Lemma say_say a b w : say b (say a w) = say (a ++ b) w.
Proof. unfold say; simpl. now rewrite app_assoc. Qed.

Lemma say_nil w : say [] w = w.
Proof. destruct w; unfold say; simpl. now rewrite app_nil_r. Qed.

(** ** PATH configuration on Windows *)

Lemma path_str_longer host (p : Path) (name : string) :
  name ≠ EmptyString →
  (String.length (path_str host p) < String.length (path_str host (p ++ [name])))%nat.
Proof.
  intros Hname. unfold path_str. rewrite !PyFacts.length_append.
  assert (0 < String.length name)%nat by (destruct name; [congruence | simpl; lia]).
  destruct p as [|c p].
  - simpl. lia.
  - rewrite PyFacts.join_app by discriminate.
    change (Py.join (os_sep host) [name]) with name.
    rewrite !PyFacts.length_append. lia.
Qed.

Lemma scripts_dir_differs host (install_dir : Path) :
  path_str host install_dir ≠ path_str host (install_dir ++ ["Scripts"]).
Proof.
  intros E. pose proof (path_str_longer host install_dir "Scripts") as H.
  rewrite <- E in H. specialize (H ltac:(discriminate)). lia.
Qed.

Lemma add_path_step (parts : list string) (modified : bool) (x : string) :
  add_path (parts, modified) x
  = if bool_decide (x ∈ parts) then (parts, modified) else (x :: parts, true).
Proof. reflexivity. Qed.

Lemma add_paths (dir scripts : string) (entries : list string) :
  dir ≠ scripts →
  fold_left add_path [dir; scripts] (entries, false)
  = (missing_entries dir scripts entries ++ entries,
     bool_decide (missing_entries dir scripts entries ≠ [])).
Proof.
  intros Hne. unfold missing_entries.
  change (fold_left add_path [dir; scripts] (entries, false))
    with (add_path (add_path (entries, false) dir) scripts).
  rewrite add_path_step.
  destruct (decide (dir ∈ entries)) as [Hd|Hd];
    destruct (decide (scripts ∈ entries)) as [Hs|Hs].
  - rewrite (bool_decide_eq_true_2 _ Hd), add_path_step.
    rewrite (bool_decide_eq_true_2 _ Hs). reflexivity.
  - rewrite (bool_decide_eq_true_2 _ Hd), add_path_step.
    rewrite (bool_decide_eq_false_2 _ Hs). reflexivity.
  - rewrite (bool_decide_eq_false_2 _ Hd), add_path_step.
    rewrite (bool_decide_eq_true_2 _ Hs).
    rewrite bool_decide_eq_true_2 by (apply elem_of_cons; now right).
    reflexivity.
  - rewrite (bool_decide_eq_false_2 _ Hd), add_path_step.
    rewrite (bool_decide_eq_false_2 _ Hs).
    rewrite bool_decide_eq_false_2; [reflexivity|].
    intros [E|H]%elem_of_cons; congruence.
Qed.

Lemma open_environment_key_run key w :
  w_environment_key w = Some key → open_environment_key w = (Ok key, w).
Proof. intros H. unfold open_environment_key. now rewrite H. Qed.

(** C7.  With the Environment key open and [entries] the entries of the
    current PATH value (none when the value is absent or empty): the
    install directory and its Scripts directory are put in front exactly
    when they are not entries yet, Scripts first; the value is written
    back exactly when one of them was added, and then the old value
    follows the new entries unchanged; otherwise nothing is written. *)
Theorem configure_path_windows_prepends (host : Host) (install_dir : Path)
    (key : gmap string string) (w : World) :
  w_environment_key w = Some key →
  let dir := path_str host install_dir in
  let scripts := path_str host (install_dir ++ ["Scripts"]) in
  let entries := path_entries (registry_path key) in
  let added := missing_entries dir scripts entries in
  let new_path := Py.join ";" (added ++ entries) in
  ∃ w', configure_path_windows host install_dir w = (Ok tt, w')
    ∧ w_fs w' = w_fs w
    ∧ (added = [] →
       w_reg_writes w' = w_reg_writes w ∧ w_environment_key w' = Some key)
    ∧ (added ≠ [] →
       w_reg_writes w' = w_reg_writes w ++ [("PATH", new_path)]
       ∧ w_environment_key w' = Some (<["PATH" := new_path]> key))
    ∧ (added ≠ [] → entries ≠ [] →
       new_path = Py.join ";" added +:+ ";" +:+ registry_path key).
Proof.
  intros Hkey dir scripts entries added new_path.
  unfold configure_path_windows, try_except.
  rewrite bind_run. unfold info. rewrite emit_run.
  rewrite bind_run.
  rewrite (open_environment_key_run key) by exact Hkey.
  fold (registry_path key). fold (path_entries (registry_path key)).
  fold entries. fold dir. fold scripts.
  rewrite (add_paths dir scripts entries) by apply scripts_dir_differs.
  assert (added ≠ [] → entries ≠ [] →
          new_path = Py.join ";" added +:+ ";" +:+ registry_path key) as Hkeep.
  { intros Ha He. unfold new_path. rewrite PyFacts.join_app by assumption.
    do 2 f_equal. unfold entries, path_entries in *.
    destruct (String.eqb (registry_path key) EmptyString); [congruence|].
    apply (PyFacts.join_split ";"). }
  destruct (decide (added = [])) as [Hnone|Hsome].
  - rewrite bool_decide_eq_false_2 by (intros H; now apply H).
    rewrite emit_run, say_say.
    eexists. split; [reflexivity|]. cbn. repeat split; try easy.
  - rewrite bool_decide_eq_true_2 by assumption.
    rewrite bind_run.
    unfold set_value_ex at 1. cbn [w_environment_key say]. rewrite Hkey.
    rewrite bind_run. unfold success, warn. rewrite !emit_run, say_say.
    eexists. split; [reflexivity|]. cbn. repeat split; try easy.
Qed.

Lemma configure_path_windows_prepends_witness :
  ∃ w',
    configure_path_windows windows_host ["Users"; "user"; ".python-nonadmin"]
      {| w_fs := empty_fs;
         w_environment_key := Some {[ "PATH" := "C:\Tools;D:\bin" ]};
         w_console := []; w_stdin := []; w_requests := []; w_spawned := [];
         w_reg_writes := [] |}
    = (Ok tt, w')
    ∧ w_reg_writes w'
      = [("PATH",
          "C:\Users\user\.python-nonadmin\Scripts;C:\Users\user\.python-nonadmin;C:\Tools;D:\bin")].
Proof.
  destruct (configure_path_windows_prepends windows_host
              ["Users"; "user"; ".python-nonadmin"]
              {[ "PATH" := "C:\Tools;D:\bin" ]}
              {| w_fs := empty_fs;
                 w_environment_key := Some {[ "PATH" := "C:\Tools;D:\bin" ]};
                 w_console := []; w_stdin := []; w_requests := [];
                 w_spawned := []; w_reg_writes := [] |} eq_refl)
    as (w' & Hrun & _ & _ & Hadd & _).
  exists w'. split; [exact Hrun|].
  apply Hadd. vm_compute. discriminate.
Defined.

(** ** Filesystem operations on an existing regular file *)

Lemma is_file_lookup fs p f : files fs !! p = Some f → is_file fs p = true.
Proof. intros H. unfold is_file. apply bool_decide_eq_true_2. now exists f. Qed.

Lemma path_exists_file fs p f : files fs !! p = Some f → path_exists fs p = true.
Proof.
  intros H. unfold path_exists. rewrite (is_file_lookup fs p f H).
  apply orb_true_r.
Qed.

Lemma read_text_file fs p f : files fs !! p = Some f → read_text p fs = Ok (f_data f).
Proof. intros H. unfold read_text. now rewrite H. Qed.

Lemma write_text_file fs p f data :
  files fs !! p = Some f →
  write_text p data fs = Ok (store p {| f_data := data; f_mode := f_mode f |} fs).
Proof. intros H. unfold write_text, open_for_write. now rewrite H. Qed.

Lemma append_text_file fs p f data :
  files fs !! p = Some f →
  append_text p data fs
  = Ok (store p {| f_data := f_data f +:+ data; f_mode := f_mode f |} fs).
Proof. intros H. unfold append_text, open_for_write. now rewrite H. Qed.

Lemma fs_op_run op w fs' : op (w_fs w) = Ok fs' → fs_op op w = (Ok tt, set_fs fs' w).
Proof. intros H. unfold fs_op. now rewrite H. Qed.

Lemma fs_op_fail op w e : op (w_fs w) = Raise e → fs_op op w = (Raise e, w).
Proof. intros H. unfold fs_op. now rewrite H. Qed.

(** ** The [._pth] file of the embeddable package *)

(** C6.  With the [._pth] file present: if its content contains
    "#import site", the file is rewritten with that text replaced by
    "import site" (the first occurrence is rewritten in place, the scan
    goes on behind it); if the content does not contain "import site" at
    all, a line "import site" is appended; if it contains "import site"
    but not "#import site", the filesystem is left as it was. *)
Theorem configure_pth_enables_site (version : string) (install_dir : Path)
    (f : File) (w : World) :
  let major_minor := Py.join EmptyString (take 2 (Py.split "." version)) in
  let pth_file := install_dir ++ ["python" +:+ major_minor +:+ "._pth"] in
  let content := f_data f in
  files (w_fs w) !! pth_file = Some f →
  ∃ w', configure_pth version install_dir w = (Ok tt, w')
    ∧ (Py.contains "#import site" content = true →
       w_fs w'
       = store pth_file
           {| f_data := Py.replace "#import site" "import site" content;
              f_mode := f_mode f |} (w_fs w)
       ∧ ∀ pre post,
           content = pre +:+ "#import site" +:+ post →
           Py.contains "#import site" pre = false →
           Py.replace "#import site" "import site" content
           = pre +:+ "import site"
             +:+ Py.replace "#import site" "import site" post)
    ∧ (Py.contains "import site" content = false →
       w_fs w'
       = store pth_file
           {| f_data := content +:+ Py.NL +:+ "import site" +:+ Py.NL;
              f_mode := f_mode f |} (w_fs w))
    ∧ (Py.contains "import site" content = true →
       Py.contains "#import site" content = false →
       w_fs w' = w_fs w).
Proof.
  intros major_minor pth_file content Hfile.
  unfold configure_pth. fold major_minor. fold pth_file.
  rewrite bind_run. unfold ask_fs.
  rewrite (path_exists_file _ _ _ Hfile).
  rewrite bind_run. unfold info. rewrite emit_run.
  rewrite bind_run. unfold fs_read. cbn [w_fs say].
  rewrite (read_text_file _ _ _ Hfile). fold content.
  assert (∀ pre post,
             content = pre +:+ "#import site" +:+ post →
             Py.contains "#import site" pre = false →
             Py.replace "#import site" "import site" content
             = pre +:+ "import site"
               +:+ Py.replace "#import site" "import site" post) as Hfirst.
  { intros pre post -> Hpre.
    change ("#import site" +:+ post) with (String "#" ("import site" +:+ post)).
    rewrite (PyFacts.replace_before "#" "import site") by (reflexivity || exact Hpre).
    f_equal. apply (PyFacts.replace_hit "#" "import site"). }
  destruct (Py.contains "#import site" content) eqn:Hcommented.
  - rewrite bind_run.
    erewrite fs_op_run by (cbn [w_fs say]; apply write_text_file, Hfile).
    unfold success. rewrite emit_run.
    eexists. split; [reflexivity|]. cbn [w_fs say set_fs].
    split; [intros _; split; [reflexivity | exact Hfirst]|].
    split; [|discriminate].
    intros Hnone. apply PyFacts.contains_tail in Hcommented. congruence.
  - destruct (Py.contains "import site" content) eqn:Hplain; cbn [negb].
    + eexists. split; [reflexivity|]. cbn [w_fs say].
      split; [discriminate|]. split; [discriminate | reflexivity].
    + rewrite bind_run.
      erewrite fs_op_run by (cbn [w_fs say]; apply append_text_file, Hfile).
      unfold success. rewrite emit_run.
      eexists. split; [reflexivity|]. cbn [w_fs say set_fs].
      split; [discriminate|]. split; [reflexivity | discriminate].
Qed.

(** The theorem on the file shipped with Python 3.11. *)
Lemma configure_pth_enables_site_witness :
  ∃ w',
    configure_pth "3.11.9" ["Users"; "user"; ".python-nonadmin"]
      (world_of
         {| dirs := {[ ["Users"; "user"; ".python-nonadmin"] ]};
            files := {[ ["Users"; "user"; ".python-nonadmin"; "python311._pth"]
                        := {| f_data := "python311.zip;.;#import site;";
                              f_mode := 420 |} ]} |})
    = (Ok tt, w')
    ∧ files (w_fs w') !! ["Users"; "user"; ".python-nonadmin"; "python311._pth"]
      = Some {| f_data := "python311.zip;.;import site;"; f_mode := 420 |}.
Proof.
  assert (files
            (w_fs
               (world_of
                  {| dirs := {[ ["Users"; "user"; ".python-nonadmin"] ]};
                     files := {[ ["Users"; "user"; ".python-nonadmin"; "python311._pth"]
                                 := {| f_data := "python311.zip;.;#import site;";
                                       f_mode := 420 |} ]} |}))
          !! (["Users"; "user"; ".python-nonadmin"]
              ++ ["python" +:+ Py.join EmptyString (take 2 (Py.split "." "3.11.9"))
                  +:+ "._pth"])
          = Some {| f_data := "python311.zip;.;#import site;"; f_mode := 420 |})
    as Hfile by (vm_compute; reflexivity).
  destruct (configure_pth_enables_site "3.11.9"
              ["Users"; "user"; ".python-nonadmin"] _ _ Hfile)
    as (w' & Hrun & Hcommented & _).
  exists w'. split; [exact Hrun|].
  destruct (Hcommented eq_refl) as [-> _]. vm_compute. reflexivity.
Defined.

(** ** Directories *)

Lemma path_lineage_spec (p q : Path) : q ∈ path_lineage p ↔ q `prefix_of` p.
Proof.
  unfold path_lineage. rewrite list_elem_of_fmap. split.
  - intros (n & -> & _). apply prefix_take.
  - intros [k ->]. exists (length q). split.
    + now rewrite take_app_length.
    + apply elem_of_seq. rewrite length_app. lia.
Qed.

Lemma mkdir_parents_ok p fs fs1 :
  mkdir_parents p fs = Ok fs1 →
  files fs1 = files fs ∧ dirs fs1 = dirs fs ∪ list_to_set (path_lineage p).
Proof.
  unfold mkdir_parents. destruct (existsb (is_file fs) (path_lineage p)).
  - discriminate.
  - intros [= <-]. split; reflexivity.
Qed.

Lemma is_dir_mkdir p fs fs1 q :
  mkdir_parents p fs = Ok fs1 →
  is_dir fs1 q = is_dir fs q || bool_decide (q `prefix_of` p).
Proof.
  intros [_ Hd]%mkdir_parents_ok. unfold is_dir. rewrite Hd.
  rewrite <- bool_decide_or. apply bool_decide_ext.
  rewrite elem_of_union, elem_of_list_to_set. now rewrite path_lineage_spec.
Qed.

Lemma is_file_mkdir p fs fs1 q :
  mkdir_parents p fs = Ok fs1 → is_file fs1 q = is_file fs q.
Proof. intros [Hf _]%mkdir_parents_ok. unfold is_file. now rewrite Hf. Qed.

Lemma is_dir_store p f fs q : is_dir (store p f fs) q = is_dir fs q.
Proof. reflexivity. Qed.

Lemma is_file_store p f fs q :
  is_file (store p f fs) q = bool_decide (q = p) || is_file fs q.
Proof.
  unfold is_file, store. cbn [files].
  rewrite <- bool_decide_or. apply bool_decide_ext.
  destruct (decide (q = p)) as [->|Hne].
  - rewrite lookup_insert_eq. split; [now left | now eexists].
  - rewrite lookup_insert_ne by congruence. tauto.
Qed.

Lemma not_prefix_of_parent (p : Path) : p ≠ [] → ¬ p `prefix_of` path_parent p.
Proof.
  intros Hp Hpre. apply prefix_length in Hpre.
  rewrite (app_removelast_last EmptyString Hp) in Hpre at 1.
  unfold path_parent in Hpre. rewrite length_app in Hpre. simpl in Hpre. lia.
Qed.

(** ** The shell profile *)

Ltac run_monad :=
  unfold mbind, M_bind, mret, M_ret;
  cbn [emit info success warn error print header ask_fs fs_read raise lift
       w_fs say set_fs].

Section Profile.

Variable host : Host.
Variable install_dir : Path.

Let run := configure_path_unix host install_dir.
Let block := path_config host (install_dir ++ ["bin"]).

Lemma select_profile_nonempty fs : select_profile host fs ≠ [].
Proof.
  unfold select_profile.
  repeat match goal with |- context [if ?b then _ else _] => destruct b end;
    intros E; apply app_eq_nil in E as [_ E]; discriminate.
Qed.

(** The profile already carries the marker: nothing is touched. *)
Lemma configured_noop w f :
  files (w_fs w) !! select_profile host (w_fs w) = Some f →
  Py.contains MARKER (f_data f) = true →
  ∃ w', run w = (Ok tt, w') ∧ w_fs w' = w_fs w.
Proof.
  intros Hfile Hmark. unfold run, configure_path_unix. run_monad.
  rewrite (path_exists_file _ _ _ Hfile). run_monad.
  rewrite (read_text_file _ _ _ Hfile), Hmark.
  eexists. split; reflexivity.
Qed.

(** A directory where the profile should be: reading it fails. *)
Lemma profile_is_directory w :
  files (w_fs w) !! select_profile host (w_fs w) = None →
  is_dir (w_fs w) (select_profile host (w_fs w)) = true →
  ∃ e w', run w = (Raise e, w') ∧ w_fs w' = w_fs w.
Proof.
  intros Hfile Hdir. unfold run, configure_path_unix. run_monad.
  unfold path_exists. rewrite Hdir. cbn [orb]. run_monad.
  unfold read_text. rewrite Hfile, Hdir.
  do 2 eexists. split; reflexivity.
Qed.

Lemma unconfigured_mkdir_fails w e :
  unconfigured host (w_fs w) →
  mkdir_parents (path_parent (select_profile host (w_fs w))) (w_fs w) = Raise e →
  ∃ w', run w = (Raise e, w') ∧ w_fs w' = w_fs w.
Proof.
  intros Hun Hmk. unfold run, configure_path_unix. run_monad.
  unfold unconfigured in Hun.
  destruct (files (w_fs w) !! select_profile host (w_fs w)) as [f|] eqn:Hfile.
  - rewrite (path_exists_file _ _ _ Hfile). run_monad.
    rewrite (read_text_file _ _ _ Hfile), Hun.
    erewrite fs_op_fail by (cbn [w_fs say]; exact Hmk).
    eexists. split; reflexivity.
  - unfold path_exists, is_file. rewrite Hun, Hfile.
    rewrite bool_decide_eq_false_2 by (now intros [? ?]). cbn [orb]. run_monad.
    erewrite fs_op_fail by (cbn [w_fs say]; exact Hmk).
    eexists. split; reflexivity.
Qed.

Lemma unconfigured_appends w fs1 :
  unconfigured host (w_fs w) →
  mkdir_parents (path_parent (select_profile host (w_fs w))) (w_fs w) = Ok fs1 →
  ∃ w', run w = (Ok tt, w')
    ∧ w_fs w'
      = store (select_profile host (w_fs w))
          {| f_data := profile_text (w_fs w) (select_profile host (w_fs w)) +:+ block;
             f_mode := from_option f_mode DEFAULT_MODE
                         (files (w_fs w) !! select_profile host (w_fs w)) |}
          fs1.
Proof.
  intros Hun Hmk. unfold run, configure_path_unix. run_monad.
  unfold unconfigured in Hun. unfold profile_text.
  set (profile := select_profile host (w_fs w)) in *.
  pose proof (mkdir_parents_ok _ _ _ Hmk) as [Hfiles _].
  destruct (files (w_fs w) !! profile) as [f|] eqn:Hfile.
  - rewrite (path_exists_file _ _ _ Hfile). run_monad.
    rewrite (read_text_file _ _ _ Hfile), Hun.
    erewrite fs_op_run by (cbn [w_fs say]; exact Hmk). run_monad.
    erewrite fs_op_run
      by (cbn [w_fs say set_fs]; apply (append_text_file _ _ f);
          rewrite Hfiles; exact Hfile).
    eexists. split; reflexivity.
  - unfold path_exists, is_file. rewrite Hun, Hfile.
    rewrite bool_decide_eq_false_2 by (now intros [? ?]). cbn [orb]. run_monad.
    erewrite fs_op_run by (cbn [w_fs say]; exact Hmk). run_monad.
    erewrite fs_op_run; [eexists; split; reflexivity|].
    cbn [w_fs say set_fs]. unfold append_text, open_for_write.
    rewrite Hfiles, Hfile.
    rewrite (is_dir_mkdir _ _ _ profile Hmk), Hun.
    rewrite bool_decide_eq_false_2
      by (apply not_prefix_of_parent, select_profile_nonempty).
    rewrite (is_dir_mkdir _ _ _ (path_parent profile) Hmk).
    rewrite (bool_decide_eq_true_2 (path_parent profile `prefix_of` path_parent profile))
      by reflexivity.
    rewrite orb_true_r. reflexivity.
Qed.
(** Appending to the profile does not change which profile is chosen. *)
Lemma select_profile_stable fs fs1 f :
  mkdir_parents (path_parent (select_profile host fs)) fs = Ok fs1 →
  select_profile host (store (select_profile host fs) f fs1)
  = select_profile host fs.
Proof.
  intros Hmk. unfold select_profile at 1 3.
  destruct (String.eqb (shell_name host) "zsh") eqn:Hzsh; [reflexivity|].
  destruct (String.eqb (shell_name host) "fish") eqn:Hfish; [reflexivity|].
  destruct (String.eqb (shell_name host) "bash") eqn:Hbash; [|reflexivity].
  set (bash_profile := path_home host ++ [".bash_profile"]).
  assert (path_exists (store (select_profile host fs) f fs1) bash_profile
          = path_exists fs bash_profile) as ->; [|reflexivity].
  unfold path_exists at 1.
  rewrite is_dir_store, is_file_store.
  rewrite (is_dir_mkdir _ _ _ bash_profile Hmk), (is_file_mkdir _ _ _ bash_profile Hmk).
  destruct (path_exists fs bash_profile) eqn:Hex.
  - assert (select_profile host fs = bash_profile) as ->.
    { unfold select_profile. rewrite Hzsh, Hfish, Hbash.
      fold bash_profile. now rewrite Hex. }
    rewrite (bool_decide_eq_true_2 (bash_profile = bash_profile)) by reflexivity.
    cbn [orb]. apply orb_true_r.
  - assert (select_profile host fs = path_home host ++ [".bashrc"]) as ->.
    { unfold select_profile. rewrite Hzsh, Hfish, Hbash.
      fold bash_profile. now rewrite Hex. }
    unfold path_parent. rewrite removelast_last.
    rewrite bool_decide_eq_false_2 by apply prefix_snoc_not.
    rewrite bool_decide_eq_false_2
      by (intros [_ E]%app_inj_tail; discriminate).
    unfold path_exists in Hex. apply orb_false_iff in Hex as [-> ->].
    reflexivity.
Qed.

(** *** Counting the marker *)

Lemma occurrences_split m x a t :
  Py.has_char x m = false → m ≠ EmptyString →
  Py.occurrences m (a +:+ String x EmptyString +:+ t)
  = (Py.occurrences m a + Py.occurrences m t)%nat.
Proof.
  intros Hx Hm.
  change (String x EmptyString +:+ t) with (String x t).
  rewrite (PyFacts.occurrences_before_char x m Hx).
  rewrite PyFacts.occurrences_cons.
  destruct m as [|c m]; [congruence|].
  rewrite PyFacts.prefix_cons. simpl in Hx.
  apply orb_false_iff in Hx as [Hc _].
  now rewrite Ascii.eqb_sym, Hc.
Qed.

Lemma block_has_marker old : Py.contains MARKER (old +:+ block) = true.
Proof.
  unfold block, path_config.
  destruct (String.eqb (shell_name host) "fish");
    rewrite <- (PyFacts.append_assoc old Py.NL); apply PyFacts.contains_middle.
Qed.

Lemma marker_once old :
  Py.occurrences MARKER old = 0%nat →
  Py.occurrences MARKER (path_str host (install_dir ++ ["bin"])) = 0%nat →
  Py.occurrences MARKER (old +:+ block) = 1%nat.
Proof.
  intros Hold Hbin. unfold block, path_config, Py.NL, Py.DQ, Py.chr.
  destruct (String.eqb (shell_name host) "fish").
  - rewrite !occurrences_split by (reflexivity || discriminate).
    rewrite Hold, Hbin. reflexivity.
  - match goal with
    | |- context [":$PATH" +:+ ?r] =>
        change (":$PATH" +:+ r) with (String ":" EmptyString +:+ "$PATH" +:+ r)
    end.
    rewrite !occurrences_split by (reflexivity || discriminate).
    rewrite Hold, Hbin. reflexivity.
Qed.

(** The block is framed by the start and end marker comments. *)
Lemma block_framed :
  block = Py.NL +:+ MARKER +:+ Py.NL +:+ path_line host (install_dir ++ ["bin"])
          +:+ Py.NL +:+ "# End Python-NoAdmin" +:+ Py.NL.
Proof.
  unfold block, path_config, path_line.
  destruct (String.eqb (shell_name host) "fish");
    now rewrite !PyFacts.append_assoc.
Qed.

(** The line that sets PATH occurs once more than before. *)
Lemma line_once old :
  Py.has_char (ascii_of_nat 10) (path_str host (install_dir ++ ["bin"])) = false →
  Py.occurrences (path_line host (install_dir ++ ["bin"])) (old +:+ block)
  = S (Py.occurrences (path_line host (install_dir ++ ["bin"])) old).
Proof.
  intros Hbin. rewrite block_framed.
  set (line := path_line host (install_dir ++ ["bin"])).
  assert (Py.has_char (ascii_of_nat 10) line = false) as Hnl.
  { unfold line, path_line.
    destruct (String.eqb (shell_name host) "fish");
      rewrite !PyFacts.has_char_app, Hbin; reflexivity. }
  assert (Py.has_char "x" line = true) as Hx.
  { unfold line, path_line.
    destruct (String.eqb (shell_name host) "fish");
      rewrite PyFacts.has_char_app; reflexivity. }
  assert (line ≠ EmptyString) as Hne by (intros E; rewrite E in Hx; discriminate).
  unfold Py.NL, Py.chr.
  rewrite !occurrences_split by assumption.
  rewrite (PyFacts.occurrences_foreign "x" line MARKER) by (exact Hx || reflexivity).
  rewrite (PyFacts.occurrences_foreign "x" line (_ +:+ _)) by (exact Hx || reflexivity).
  rewrite PyFacts.occurrences_self by exact Hne. lia.
Qed.

(** A run that leaves the filesystem alone does so again. *)
Lemma unchanged_again w :
  (∀ w0, w_fs w0 = w_fs w → ∃ r w', run w0 = (r, w') ∧ w_fs w' = w_fs w0) →
  w_fs (run w).2 = w_fs w ∧ w_fs (run (run w).2).2 = w_fs (run w).2.
Proof.
  intros H. destruct (H w eq_refl) as (r & w' & Hrun & Hfs).
  rewrite Hrun. cbn [snd]. split; [exact Hfs|].
  destruct (H w' Hfs) as (r' & w'' & Hrun' & Hfs').
  rewrite Hrun'. exact Hfs'.
Qed.

Lemma second_run_unconfigured w :
  unconfigured host (w_fs w) →
  w_fs (run (run w).2).2 = w_fs (run w).2.
Proof.
  intros Hun. set (profile := select_profile host (w_fs w)).
  destruct (mkdir_parents (path_parent profile) (w_fs w)) as [fs1|e] eqn:Hmk.
  - destruct (unconfigured_appends w fs1 Hun Hmk) as (w' & Hrun & Hfs).
    rewrite Hrun. cbn [snd]. fold profile in Hfs.
    edestruct (configured_noop w') as (w'' & Hrun' & Hfs').
    { rewrite Hfs. rewrite (select_profile_stable _ _ _ Hmk).
      fold profile. cbn [files store]. apply lookup_insert_eq. }
    { cbn [f_data]. apply block_has_marker. }
    rewrite Hrun'. exact Hfs'.
  - apply unchanged_again. intros w0 E.
    destruct (unconfigured_mkdir_fails w0 e) as (w' & Hrun & Hfs);
      [rewrite E; exact Hun | rewrite E; exact Hmk |].
    now exists (Raise e), w'.
Qed.

Lemma second_run_noop w : w_fs (run (run w).2).2 = w_fs (run w).2.
Proof.
  set (profile := select_profile host (w_fs w)).
  destruct (files (w_fs w) !! profile) as [f|] eqn:Hfile.
  - destruct (Py.contains MARKER (f_data f)) eqn:Hmark.
    + apply unchanged_again. intros w0 E.
      destruct (configured_noop w0 f) as (w' & Hrun & Hfs);
        [rewrite E; exact Hfile | exact Hmark |].
      now exists (Ok tt), w'.
    + apply second_run_unconfigured. unfold unconfigured.
      fold profile. now rewrite Hfile.
  - destruct (is_dir (w_fs w) profile) eqn:Hdir.
    + apply unchanged_again. intros w0 E.
      destruct (profile_is_directory w0) as (e & w' & Hrun & Hfs);
        [rewrite E; exact Hfile | rewrite E; exact Hdir |].
      now exists (Raise e), w'.
    + apply second_run_unconfigured. unfold unconfigured.
      fold profile. now rewrite Hfile.
Qed.

(** A successful run on an unconfigured profile stores the old text
    followed by the block, and touches no other file. *)
Lemma first_run_appends w :
  unconfigured host (w_fs w) → (run w).1 = Ok tt →
  files (w_fs (run w).2)
  = <[select_profile host (w_fs w) :=
        {| f_data := profile_text (w_fs w) (select_profile host (w_fs w)) +:+ block;
           f_mode := from_option f_mode DEFAULT_MODE
                       (files (w_fs w) !! select_profile host (w_fs w)) |}]>
      (files (w_fs w)).
Proof.
  intros Hun Hok. set (profile := select_profile host (w_fs w)) in *.
  destruct (mkdir_parents (path_parent profile) (w_fs w)) as [fs1|e] eqn:Hmk.
  - destruct (unconfigured_appends w fs1 Hun Hmk) as (w' & Hrun & Hfs).
    rewrite Hrun. cbn [snd]. rewrite Hfs. cbn [files store].
    now destruct (mkdir_parents_ok _ _ _ Hmk) as [-> _].
  - destruct (unconfigured_mkdir_fails w e Hun Hmk) as (w' & Hrun & _).
    rewrite Hrun in Hok. discriminate.
Qed.

End Profile.

(** C5.  If the selected profile already contains the marker, the call
    returns without touching the filesystem.  Otherwise a successful call
    stores the old text followed by one block (marker line, the line that
    sets PATH, end comment) and changes no other file.  A second call
    never changes the filesystem again.  After two calls on a profile that
    had no marker the file is the old text plus that one block; the marker
    occurs in it exactly once (the install path not spelling the marker
    itself) and the PATH line occurs once more than in the old text (the
    install path holding no line break). *)
Theorem configure_path_unix_idempotent (host : Host) (install_dir : Path)
    (w : World) :
  let run := configure_path_unix host install_dir in
  let profile := select_profile host (w_fs w) in
  let bin_dir := install_dir ++ ["bin"] in
  let block := path_config host bin_dir in
  let old := profile_text (w_fs w) profile in
  let w1 := (run w).2 in
  let w2 := (run w1).2 in
  (∀ f, files (w_fs w) !! profile = Some f →
        Py.contains MARKER (f_data f) = true →
        (run w).1 = Ok tt ∧ w_fs w1 = w_fs w)
  ∧ (unconfigured host (w_fs w) → (run w).1 = Ok tt →
     files (w_fs w1)
     = <[profile := {| f_data := old +:+ block;
                       f_mode := from_option f_mode DEFAULT_MODE
                                   (files (w_fs w) !! profile) |}]>
         (files (w_fs w)))
  ∧ block = Py.NL +:+ MARKER +:+ Py.NL +:+ path_line host bin_dir +:+ Py.NL
            +:+ "# End Python-NoAdmin" +:+ Py.NL
  ∧ w_fs w2 = w_fs w1
  ∧ (unconfigured host (w_fs w) → (run w).1 = Ok tt →
     profile_text (w_fs w2) profile = old +:+ block
     ∧ (Py.contains MARKER (path_str host bin_dir) = false →
        Py.occurrences MARKER (profile_text (w_fs w2) profile) = 1%nat)
     ∧ (Py.has_char (ascii_of_nat 10) (path_str host bin_dir) = false →
        Py.occurrences (path_line host bin_dir) (profile_text (w_fs w2) profile)
        = S (Py.occurrences (path_line host bin_dir) old))).
Proof.
  intros run profile bin_dir block old w1 w2.
  assert (MARKER ≠ EmptyString) as Hne by discriminate.
  split; [|split; [|split; [|split]]].
  - intros f Hfile Hmark.
    destruct (configured_noop host install_dir w f Hfile Hmark)
      as (w' & Hrun & Hfs).
    unfold w1, run. rewrite Hrun. split; [reflexivity | exact Hfs].
  - apply first_run_appends.
  - apply block_framed.
  - apply second_run_noop.
  - intros Hun Hok.
    assert (profile_text (w_fs w2) profile = old +:+ block) as Htext.
    { unfold w2, w1, run. rewrite (second_run_noop host install_dir w).
      unfold profile_text at 1.
      rewrite (first_run_appends host install_dir w Hun Hok).
      now rewrite lookup_insert_eq. }
    split; [exact Htext|]. rewrite Htext. split.
    + intros Hbin. apply marker_once.
      * apply (PyFacts.occurrences_zero _ _ Hne).
        unfold old, profile_text, unconfigured in *. fold profile in Hun.
        destruct (files (w_fs w) !! profile); [exact Hun | reflexivity].
      * now apply (PyFacts.occurrences_zero _ _ Hne).
    + apply line_once.
Qed.

(** Two runs on a home directory whose [.bashrc] holds one alias. *)
Lemma configure_path_unix_idempotent_witness :
  profile_text
    (w_fs (configure_path_unix linux_host ["home"; "user"; ".python-nonadmin"]
             (configure_path_unix linux_host ["home"; "user"; ".python-nonadmin"]
                (world_of bashrc_fs)).2).2)
    ["home"; "user"; ".bashrc"]
  = "alias ll=ls"
    +:+ path_config linux_host ["home"; "user"; ".python-nonadmin"; "bin"]
  ∧ Py.occurrences MARKER
      (profile_text
         (w_fs (configure_path_unix linux_host ["home"; "user"; ".python-nonadmin"]
                  (configure_path_unix linux_host ["home"; "user"; ".python-nonadmin"]
                     (world_of bashrc_fs)).2).2)
         ["home"; "user"; ".bashrc"])
    = 1%nat
  ∧ Py.occurrences
      (path_line linux_host ["home"; "user"; ".python-nonadmin"; "bin"])
      (profile_text
         (w_fs (configure_path_unix linux_host ["home"; "user"; ".python-nonadmin"]
                  (configure_path_unix linux_host ["home"; "user"; ".python-nonadmin"]
                     (world_of bashrc_fs)).2).2)
         ["home"; "user"; ".bashrc"])
    = 1%nat.
Proof.
  pose proof (configure_path_unix_idempotent linux_host
                ["home"; "user"; ".python-nonadmin"] (world_of bashrc_fs))
    as (_ & _ & _ & _ & H).
  destruct H as (Htext & Hmarker & Hline); [vm_compute; reflexivity ..|].
  split; [exact Htext|]. split.
  - apply Hmarker. vm_compute. reflexivity.
  - apply Hline. vm_compute. reflexivity.
Defined.

(** ** Archive extraction *)

Lemma from_last_dot_endswith s r :
  from_last_dot s = Some r → Py.endswith r s = true.
Proof.
  revert r. induction s as [|c s IH]; intros r; [discriminate|].
  cbn [from_last_dot]. destruct (from_last_dot s) as [r'|].
  - intros [= <-]. apply PyFacts.endswith_cons, IH. reflexivity.
  - destruct (Ascii.eqb c "."); [|discriminate].
    intros [= <-]. apply PyFacts.endswith_refl.
Qed.

Lemma path_suffix_endswith (p : Path) (suf : string) :
  suf ≠ EmptyString → path_suffix p = suf → Py.endswith suf (path_name p) = true.
Proof.
  unfold path_suffix. intros Hsuf.
  destruct (path_name p) as [|c rest]; [congruence|].
  destruct (from_last_dot rest) as [r|] eqn:E; [|congruence].
  destruct (String.eqb r "."); [congruence|].
  intros <-. apply PyFacts.endswith_cons, from_last_dot_endswith, E.
Qed.

(** A name that ends in [.tar.gz] or [.tgz] is not taken for a zip file. *)
Lemma tarball_not_zip (archive : Path) :
  Py.endswith ".tar.gz" (path_name archive) = true
  ∨ Py.endswith ".tgz" (path_name archive) = true →
  String.eqb (path_suffix archive) ".zip" || Py.endswith ".zip" (path_name archive)
  = false.
Proof.
  intros Htar.
  assert (Py.last_char (path_name archive) = Some "z"%char) as Hz.
  { destruct Htar as [H|H];
      apply PyFacts.endswith_last_char in H; try discriminate; exact H. }
  assert (Py.endswith ".zip" (path_name archive) = false) as Hzip.
  { destruct (Py.endswith ".zip" (path_name archive)) eqn:E; [|reflexivity].
    apply PyFacts.endswith_last_char in E; [|discriminate].
    rewrite Hz in E. discriminate. }
  rewrite Hzip, orb_false_r. apply String.eqb_neq. intros E.
  apply path_suffix_endswith in E; [congruence | discriminate].
Qed.

Lemma not_zip_suffix (archive : Path) :
  Py.endswith ".zip" (path_name archive) = false →
  String.eqb (path_suffix archive) ".zip" || Py.endswith ".zip" (path_name archive)
  = false.
Proof.
  intros Hzip. rewrite Hzip, orb_false_r. apply String.eqb_neq. intros E.
  apply path_suffix_endswith in E; [congruence | discriminate].
Qed.

(** Creating [dest] adds nothing below it. *)
Lemma mkdir_adds_nothing_below dest fs fs1 (q : Path) :
  mkdir_parents dest fs = Ok fs1 →
  dest `prefix_of` q → q ≠ dest →
  path_exists fs1 q = path_exists fs q.
Proof.
  intros Hmk Hpre Hne. unfold path_exists.
  rewrite (is_dir_mkdir _ _ _ q Hmk), (is_file_mkdir _ _ _ q Hmk).
  rewrite bool_decide_eq_false_2; [now rewrite orb_false_r|].
  intros Hback. apply Hne. symmetry.
  apply prefix_length_eq; [exact Hpre | now apply prefix_length].
Qed.

Lemma is_dir_after_mkdir dest fs fs1 :
  mkdir_parents dest fs = Ok fs1 → is_dir fs1 dest = true.
Proof.
  intros Hmk. rewrite (is_dir_mkdir _ _ _ dest Hmk).
  rewrite (bool_decide_eq_true_2 (dest `prefix_of` dest)) by reflexivity.
  apply orb_true_r.
Qed.

(** ** What extracting a list of members leaves on the disk *)

Lemma path_parent_prefix (q : Path) : path_parent q `prefix_of` q.
Proof.
  unfold path_parent. destruct (decide (q = [])) as [->|Hne]; [reflexivity|].
  rewrite (app_removelast_last EmptyString Hne) at 2. now apply prefix_app_r.
Qed.

Lemma extract_member_ok dest m fs fs' :
  extract_member dest m fs = Ok fs' →
  dirs fs ⊆ dirs fs'
  ∧ (if m_isdir m
     then files fs' = files fs ∧ is_dir fs' (dest ++ name_parts (m_name m)) = true
     else files fs'
          = <[dest ++ name_parts (m_name m)
              := {| f_data := m_data m; f_mode := m_mode m |}]> (files fs)).
Proof.
  unfold extract_member. destruct (m_isdir m).
  - intros Hmk. destruct (mkdir_parents_ok _ _ _ Hmk) as [Hf Hd].
    split; [rewrite Hd; apply union_subseteq_l|].
    split; [exact Hf | exact (is_dir_after_mkdir _ _ _ Hmk)].
  - destruct (mkdir_parents _ fs) as [fs1|e] eqn:Hmk; [|discriminate].
    cbn [mbind Result_bind].
    destruct (open_for_write _ fs1) as [old|e]; [|discriminate].
    cbn [mbind Result_bind mret Result_ret]. intros [= <-].
    destruct (mkdir_parents_ok _ _ _ Hmk) as [Hf Hd].
    cbn [store dirs files]. rewrite Hf, Hd.
    split; [apply union_subseteq_l | reflexivity].
Qed.


Lemma extractall_ok dest members w w' :
  extractall dest members w = (Ok tt, w') →
  w' = set_fs (w_fs w') w
  ∧ dirs (w_fs w) ⊆ dirs (w_fs w')
  ∧ (∀ m, m ∈ members → m_isdir m = true →
       is_dir (w_fs w') (dest ++ name_parts (m_name m)) = true)
  ∧ (∀ q, files (w_fs w') !! q
          = match delivered dest members q with
            | Some m => Some {| f_data := m_data m; f_mode := m_mode m |}
            | None => files (w_fs w) !! q
            end).
Proof.
  unfold extractall. revert w.
  induction members as [|m ms IH]; intros w; cbn [for_each delivered].
  - intros [= <-]. split; [now destruct w|]. split; [reflexivity|].
    split; [|reflexivity]. intros m Hm. now apply elem_of_nil in Hm.
  - rewrite bind_run. unfold fs_op at 1.
    destruct (extract_member dest m (w_fs w)) as [fs1|e] eqn:Hm; [|discriminate].
    intros Hrest. destruct (IH _ Hrest) as (Hw & Hd & Hdirs & Hfiles).
    cbn [set_fs w_fs] in *.
    destruct (extract_member_ok _ _ _ _ Hm) as [Hd1 Hm1].
    split; [rewrite Hw at 1; reflexivity|].
    split; [etrans; [exact Hd1 | exact Hd]|]. split.
    + intros m0 [->|Hin]%elem_of_cons Hisdir.
      * rewrite Hisdir in Hm1. destruct Hm1 as [_ Hdir].
        unfold is_dir in *. apply bool_decide_eq_true.
        apply bool_decide_eq_true in Hdir. revert Hdir. apply Hd.
      * now apply Hdirs.
    + intros q. rewrite Hfiles.
      destruct (delivered dest ms q) as [m'|]; [reflexivity|].
      destruct (m_isdir m); cbn [negb andb].
      * now destruct Hm1 as [-> _].
      * rewrite Hm1.
        destruct (decide (dest ++ name_parts (m_name m) = q)) as [<-|Hne].
        -- rewrite bool_decide_eq_true_2 by reflexivity.
           now rewrite lookup_insert_eq.
        -- rewrite bool_decide_eq_false_2 by exact Hne.
           now rewrite lookup_insert_ne.
Qed.





Section Archives.

Variable host : Host.

(** The member-by-member loop of the tar branch is whole-archive
    extraction of the stripped member list. *)
Lemma strip_loop dest (n : Z) (members : list Member) (w : World) :
  0 ≤ n →
  for_each members (fun member =>
    let parts := Py.split "/" (m_name member) in
    if n <? Z.of_nat (length parts) then
      fs_op (extract_member dest
               (set_name member (Py.join "/" (drop (Z.to_nat n) parts))))
    else mret tt) w
  = extractall dest (stripped (Z.to_nat n) members) w.
Proof.
  intros Hn. revert w. induction members as [|m ms IH]; intros w; [reflexivity|].
  unfold stripped. cbn [for_each]. rewrite bind_run.
  fold (segments m).
  destruct (decide (Z.to_nat n < length (segments m))%nat) as [Hlt|Hge].
  - rewrite filter_cons_True by exact Hlt.
    rewrite (proj2 (Z.ltb_lt _ _)) by lia.
    rewrite fmap_cons. unfold extractall. cbn [for_each]. rewrite bind_run.
    change (set_name m (Py.join "/" (drop (Z.to_nat n) (segments m))))
      with (strip_member (Z.to_nat n) m).
    destruct (fs_op (extract_member dest (strip_member (Z.to_nat n) m)) w)
      as [[[]|e] w']; [|reflexivity].
    apply IH.
  - rewrite filter_cons_False by exact Hge.
    rewrite (proj2 (Z.ltb_ge _ _)) by lia.
    apply IH.
Qed.

(** C8.  A name that ends in neither [.zip], [.tar.gz] nor [.tgz] makes
    [extract_archive] raise the unsupported-format [ValueError]; the
    destination (created, with its parents, before the dispatch) is a
    directory afterwards, no file has changed and nothing lies below the
    destination that was not there before. *)
Theorem extract_archive_unknown_format (archive dest : Path)
    (strip_components : Z) (w : World) (fs1 : FS) :
  Py.endswith ".zip" (path_name archive) = false →
  Py.endswith ".tar.gz" (path_name archive) = false →
  Py.endswith ".tgz" (path_name archive) = false →
  mkdir_parents dest (w_fs w) = Ok fs1 →
  ∃ w',
    extract_archive host archive dest strip_components w
    = (Raise (ValueError ("Unknown archive format: " +:+ path_name archive)), w')
    ∧ w_fs w' = fs1
    ∧ is_dir (w_fs w') dest = true
    ∧ files (w_fs w') = files (w_fs w)
    ∧ (∀ q, dest `prefix_of` q → q ≠ dest →
            path_exists (w_fs w') q = path_exists (w_fs w) q).
Proof.
  intros Hzip Htar Htgz Hmk. unfold extract_archive. run_monad.
  erewrite fs_op_run by (cbn [w_fs say]; exact Hmk). run_monad.
  rewrite (not_zip_suffix archive Hzip), Htar, Htgz. cbn [orb]. run_monad.
  eexists. split; [reflexivity|]. cbn [w_fs set_fs].
  split; [reflexivity|]. split; [exact (is_dir_after_mkdir _ _ _ Hmk)|].
  split; [exact (proj1 (mkdir_parents_ok _ _ _ Hmk))|].
  intros q. apply (mkdir_adds_nothing_below _ _ _ q Hmk).
Qed.


End Archives.

(** Stripping one segment from the python-build-standalone layout. *)
Example stripped_pbs :
  m_name <$> stripped 1 pbs_members = ["bin"; "bin/python3"; "lib/libpython3.so"].
Proof. reflexivity. Qed.

(** An archive named [python.rar] on an empty disk. *)
Lemma extract_archive_unknown_format_witness :
  ∃ w',
    extract_archive linux_host ["tmp"; "python.rar"] ["opt"; "python"] 0
      (world_of empty_fs)
    = (Raise (ValueError "Unknown archive format: python.rar"), w')
    ∧ is_dir (w_fs w') ["opt"; "python"] = true
    ∧ files (w_fs w') = ∅.
Proof.
  destruct (extract_archive_unknown_format linux_host
              ["tmp"; "python.rar"] ["opt"; "python"] 0 (world_of empty_fs)
              {| dirs := ∅ ∪ list_to_set (path_lineage ["opt"; "python"]);
                 files := ∅ |}
              eq_refl eq_refl eq_refl eq_refl)
    as (w' & Hrun & _ & Hdir & Hfiles & _).
  exists w'. split; [exact Hrun|]. split; [exact Hdir | exact Hfiles].
Defined.


(** ** Uninstall and install on their early exits *)

Section EarlyExits.

Variable host : Host.

Let install_dir := get_install_dir host.

(** C9, as the code has it.  [uninstall] detects the platform before it
    looks at the disk.  With no install directory it never touches the
    filesystem and never prompts; on a supported platform it prints the
    header, reports that there is nothing to uninstall and returns; on
    an unsupported one it raises the platform error with nothing
    printed. *)
Theorem uninstall_absent (w : World) :
  path_exists (w_fs w) install_dir = false →
  (w_fs (uninstall host w).2 = w_fs w
   ∧ w_stdin (uninstall host w).2 = w_stdin w
   ∧ (∀ msg, PromptLine msg ∉ w_console w → PromptLine msg ∉ w_console (uninstall host w).2))
  ∧ (∀ os_name arch,
       get_platform_info (platform_system host) (platform_machine host)
       = Ok (os_name, arch) →
       uninstall host w
       = (Ok tt,
          say [HeaderLines "Python-NoAdmin Uninstaller";
               InfoLine ("Nothing to uninstall. Directory not found: "
                     +:+ path_str host install_dir)] w))
  ∧ (∀ e,
       get_platform_info (platform_system host) (platform_machine host)
       = Raise e →
       uninstall host w = (Raise e, w)).
Proof.
  intros Habsent.
  assert (∀ os_name arch,
             get_platform_info (platform_system host) (platform_machine host)
             = Ok (os_name, arch) →
             uninstall host w
             = (Ok tt,
                say [HeaderLines "Python-NoAdmin Uninstaller";
                     InfoLine ("Nothing to uninstall. Directory not found: "
                           +:+ path_str host install_dir)] w)) as Hok.
  { intros os_name arch Hplat. unfold uninstall, platform_info. run_monad.
    rewrite Hplat. run_monad. fold install_dir. rewrite Habsent.
    cbn [negb]. unfold info, emit. now rewrite say_say. }
  assert (∀ e,
             get_platform_info (platform_system host) (platform_machine host)
             = Raise e →
             uninstall host w = (Raise e, w)) as Hfail.
  { intros e Hplat. unfold uninstall, platform_info. run_monad.
    now rewrite Hplat. }
  split; [|split; [exact Hok | exact Hfail]].
  destruct (get_platform_info (platform_system host) (platform_machine host))
    as [[os_name arch]|e] eqn:Hplat.
  - rewrite (Hok _ _ eq_refl). cbn [snd w_fs w_stdin w_console say].
    split; [reflexivity|]. split; [reflexivity|].
    intros msg Hnot Hin. apply elem_of_app in Hin as [Hin|Hin]; [now apply Hnot|].
    repeat (apply elem_of_cons in Hin as [Hin|Hin]; [discriminate|]).
    now apply elem_of_nil in Hin.
  - rewrite (Hfail _ eq_refl). cbn [snd]. repeat split; auto.
Qed.
(** C10, as the code has it.  [install] detects the platform first.  On
    a supported platform, with the install directory present and
    [force] off, it fetches nothing, writes no registry value and reads
    no input; it prints the banner and the two notices and, when the
    interpreter path exists, starts exactly one child process, the
    version query.  The filesystem afterwards is the one that child
    left.  If the child could be started the call returns normally
    (exit status 0); if not, the [OSError] of the failed start
    escapes. *)
Theorem install_already_installed (version : string) (w : World)
    (os_name arch : string) :
  get_platform_info (platform_system host) (platform_machine host)
  = Ok (os_name, arch) →
  path_exists (w_fs w) install_dir = true →
  let python_exe :=
    if String.eqb os_name "windows" then install_dir ++ ["python.exe"]
    else install_dir ++ ["bin"; "python3"] in
  let argv := [path_str host python_exe; "--version"] in
  let banner :=
    [HeaderLines "Python-NoAdmin Installer";
     PrintLine ("  Version: " +:+ version);
     PrintLine ("  Platform: " +:+ os_name +:+ " (" +:+ arch +:+ ")");
     PrintLine ("  Install directory: " +:+ path_str host install_dir);
     PrintLine EmptyString;
     WarningLine ("Python already installed at: " +:+ path_str host install_dir);
     InfoLine "Use --force to reinstall"] in
  let r := (install host version false w).1 in
  let w' := (install host version false w).2 in
  (w_requests w' = w_requests w
   ∧ w_reg_writes w' = w_reg_writes w
   ∧ w_environment_key w' = w_environment_key w
   ∧ w_stdin w' = w_stdin w)
  ∧ (path_exists (w_fs w) python_exe = false →
     install host version false w = (Ok tt, say banner w))
  ∧ (path_exists (w_fs w) python_exe = true →
     w_spawned w' = w_spawned w ++ [argv]
     ∧ w_fs w' = (subprocess_run host argv (w_fs w)).2
     ∧ match (subprocess_run host argv (w_fs w)).1 with
       | Completed returncode stdout _ =>
           r = Ok tt ∧ exit_code r = 0
           ∧ w_console w'
             = w_console w ++ banner
               ++ (if returncode =? 0
                   then [InfoLine ("Existing version: " +:+ Py.strip stdout)]
                   else [])
       | SpawnFailed msg => r = Raise (OSError msg)
       end).
Proof.
  intros Hplat Hdir python_exe argv banner r w'.
  subst r w'. unfold install, platform_info. run_monad.
  rewrite Hplat. run_monad. fold install_dir. rewrite Hdir.
  cbn [negb andb]. run_monad. fold python_exe.
  destruct (path_exists (w_fs w) python_exe) eqn:Hexe.
  - unfold run. cbn [w_fs say]. fold argv.
    destruct (subprocess_run host argv (w_fs w)) as [[msg|rc out err] fs'].
    + cbn. repeat split; try discriminate; reflexivity.
    + cbn [fst snd]. destruct (rc =? 0); cbn; rewrite <- ?app_assoc;
        repeat split; try discriminate; reflexivity.
  - cbn. repeat split; try discriminate.
    intros _. f_equal. unfold say. cbn. now rewrite <- !app_assoc.
Qed.

End EarlyExits.

(** The two theorems on the Linux machine. *)
Lemma uninstall_absent_witness :
  uninstall linux_host (world_of empty_fs)
  = (Ok tt,
     say [HeaderLines "Python-NoAdmin Uninstaller";
          InfoLine "Nothing to uninstall. Directory not found: /home/user/.python-nonadmin"]
       (world_of empty_fs)).
Proof.
  destruct (uninstall_absent linux_host (world_of empty_fs) eq_refl)
    as (_ & Hok & _).
  apply (Hok "linux" "x86_64"). reflexivity.
Defined.

Lemma install_already_installed_witness :
  w_spawned (install linux_host "3.11.9" false (world_of installed_fs)).2
  = [["/home/user/.python-nonadmin/bin/python3"; "--version"]]
  ∧ w_fs (install linux_host "3.11.9" false (world_of installed_fs)).2
    = installed_fs
  ∧ w_requests (install linux_host "3.11.9" false (world_of installed_fs)).2 = [].
Proof.
  pose proof (install_already_installed linux_host "3.11.9"
                (world_of installed_fs) "linux" "x86_64" eq_refl eq_refl)
    as ((Hreq & _) & _ & Hexe).
  destruct (Hexe ltac:(vm_compute; reflexivity)) as (Hspawn & Hfs & _).
  split; [exact Hspawn|]. split; [exact Hfs | exact Hreq].
Defined.

(** C9 as stated fails on a platform the detector rejects: nothing is
    reported and the call does not return normally. *)
Lemma uninstall_unsupported_platform :
  path_exists empty_fs (get_install_dir freebsd_host) = false
  ∧ uninstall freebsd_host (world_of empty_fs)
    = (Raise (RuntimeError "Unsupported operating system: freebsd"),
       world_of empty_fs).
Proof. split; reflexivity. Qed.

(** C10 as stated fails in two ways: on a platform the detector rejects
    the error escapes before anything is printed, and where the version
    query cannot be started its [OSError] escapes; the exit status is 1
    both times. *)
Lemma install_exits_nonzero :
  path_exists installed_fs (get_install_dir freebsd_host) = true
  ∧ (main freebsd_host install_args (world_of installed_fs)).1
    = Raise (RuntimeError "Unsupported operating system: freebsd")
  ∧ exit_code (main freebsd_host install_args (world_of installed_fs)).1 = 1
  ∧ path_exists installed_fs (get_install_dir noexec_host) = true
  ∧ (main noexec_host install_args (world_of installed_fs)).1
    = Raise (OSError "Permission denied")
  ∧ exit_code (main noexec_host install_args (world_of installed_fs)).1 = 1.
Proof. repeat split; vm_compute; reflexivity. Qed.

(** * Further properties of the installer *)

(** ** Removing a tree *)

Lemma rmtree_ok p fs fs' :
  rmtree p fs = Ok fs' →
  is_dir fs p = true
  ∧ (∀ q, files fs' !! q
          = if bool_decide (p `prefix_of` q) then None else files fs !! q)
  ∧ (∀ q, is_dir fs' q = is_dir fs q && negb (bool_decide (p `prefix_of` q))).
Proof.
  unfold rmtree. destruct (is_dir fs p) eqn:Hdir; [|discriminate].
  intros [= <-]. split; [reflexivity|]. split; intros q; cbn [files dirs].
  - destruct (decide (p `prefix_of` q)) as [Hpre|Hpre].
    + rewrite (bool_decide_eq_true_2 _ Hpre).
      apply map_lookup_filter_None_2.
      destruct (files fs !! q) as [f|]; [right | now left].
      intros x _ Hnot. now apply Hnot.
    + rewrite (bool_decide_eq_false_2 _ Hpre).
      destruct (files fs !! q) as [f|] eqn:Hq.
      * now apply map_lookup_filter_Some_2.
      * apply map_lookup_filter_None_2. now left.
  - unfold is_dir. cbn [dirs].
    destruct (decide (p `prefix_of` q)) as [Hpre|Hpre].
    + rewrite (bool_decide_eq_true_2 (p `prefix_of` q) Hpre), andb_false_r.
      apply bool_decide_eq_false_2. rewrite elem_of_filter. tauto.
    + rewrite (bool_decide_eq_false_2 (p `prefix_of` q) Hpre), andb_true_r.
      apply bool_decide_ext. rewrite elem_of_filter. tauto.
Qed.

Lemma rmtree_not_dir p fs : is_dir fs p = false → ∃ e, rmtree p fs = Raise e.
Proof. intros H. unfold rmtree. rewrite H. now eexists. Qed.

Lemma is_file_lookup_iff fs q : is_file fs q = true ↔ is_Some (files fs !! q).
Proof. unfold is_file. apply bool_decide_eq_true. Qed.

Lemma rmtree_path_exists p fs fs' q :
  rmtree p fs = Ok fs' →
  path_exists fs' q = path_exists fs q && negb (bool_decide (p `prefix_of` q)).
Proof.
  intros (_ & Hfiles & Hdirs)%rmtree_ok. unfold path_exists.
  rewrite Hdirs. unfold is_file. rewrite Hfiles.
  destruct (bool_decide (p `prefix_of` q)); cbn [negb].
  - rewrite !andb_false_r. cbn [orb].
    apply bool_decide_eq_false_2. now intros [? ?].
  - now rewrite !andb_true_r.
Qed.

(** ** From the detected platform to a download URL *)

(** X1.  Whatever pair the platform detector returns, the resolver that
    [install] picks for it (the embeddable package for windows, the
    python-build-standalone archive otherwise) returns a URL: resolution
    cannot fail once detection has succeeded. *)
Theorem resolver_total_on_detected
    (platform_system platform_machine version os_name arch : string) :
  get_platform_info platform_system platform_machine = Ok (os_name, arch) →
  if String.eqb os_name "windows"
  then ∃ url, get_windows_embed_url version arch = Ok url
  else ∃ url, get_pbs_download_url version os_name arch = Ok url.
Proof.
  unfold get_platform_info.
  set (system := Py.lower platform_system).
  set (machine := Py.lower platform_machine).
  destruct (String.eqb system "darwin");
    [|destruct (String.eqb system "windows");
      [|destruct (String.eqb system "linux"); [|discriminate]]];
    cbn [mbind Result_bind];
    (destruct (String.eqb machine "x86_64" || String.eqb machine "amd64");
     [|destruct (String.eqb machine "aarch64" || String.eqb machine "arm64");
       [|destruct (String.eqb machine "i386" || String.eqb machine "i686");
         [|discriminate]]]);
    intros [= <- <-]; eexists; reflexivity.
Qed.

Lemma resolver_total_on_detected_witness :
  ∃ url, get_pbs_download_url "3.12.8" "linux" "x86" = Ok url.
Proof.
  exact (resolver_total_on_detected "Linux" "i686" "3.12.8" "linux" "x86" eq_refl).
Defined.

(** ** Downloads *)

Lemma write_text_frame p data fs fs' :
  write_text p data fs = Ok fs' →
  dirs fs' = dirs fs
  ∧ (f_data <$> files fs' !! p) = Some data
  ∧ (∀ q, q ≠ p → files fs' !! q = files fs !! q).
Proof.
  unfold write_text. destruct (open_for_write p fs) as [old|e]; [|discriminate].
  cbn [mbind Result_bind mret Result_ret]. intros [= <-].
  split; [reflexivity|]. cbn [files store]. split.
  - now rewrite lookup_insert_eq.
  - intros q Hq. now rewrite lookup_insert_ne by congruence.
Qed.

Section Downloads.

Variable host : Host.

(** X2.  [download_file] asks the network exactly once and starts no
    process.  An HTTP status error and a transport error are both turned
    into a [RuntimeError] whose text names the cause, and then the
    filesystem is as before.  When a body arrives and the call returns, the
    destination holds exactly that body, and no directory and no other
    file has changed. *)
Theorem download_file_outcomes (url : string) (dest : Path)
    (description : string) (w : World) :
  w_requests (download_file host url dest description w).2 = w_requests w ++ [url]
  ∧ w_spawned (download_file host url dest description w).2 = w_spawned w
  ∧ dirs (w_fs (download_file host url dest description w).2) = dirs (w_fs w)
  ∧ (∀ q, q ≠ dest →
          files (w_fs (download_file host url dest description w).2) !! q
          = files (w_fs w) !! q)
  ∧ match urlopen host url with
    | HTTPError code reason =>
        (download_file host url dest description w).1
        = Raise (RuntimeError ("HTTP Error " +:+ pretty code +:+ ": " +:+ reason
                               +:+ ". URL may be invalid for this version."))
        ∧ w_fs (download_file host url dest description w).2 = w_fs w
    | URLError reason =>
        (download_file host url dest description w).1
        = Raise (RuntimeError ("Network error: " +:+ reason
                               +:+ ". Check your internet connection."))
        ∧ w_fs (download_file host url dest description w).2 = w_fs w
    | HttpBody body =>
        (download_file host url dest description w).1 = Ok tt →
        f_data <$> files (w_fs (download_file host url dest description w).2) !! dest
        = Some body
    end.
Proof.
  unfold download_file, fetch. run_monad.
  destruct (urlopen host url) as [body|code reason|reason]; run_monad.
  - unfold fs_op. cbn [w_fs].
    destruct (write_text dest body (w_fs w)) as [fs'|e] eqn:Hwrite.
    + destruct (write_text_frame _ _ _ _ Hwrite) as (Hd & Hbody & Hrest).
      cbn. repeat split; try assumption. now intros _.
    + cbn. repeat split; try reflexivity. discriminate.
  - cbn. repeat split; reflexivity.
  - cbn. repeat split; reflexivity.
Qed.

End Downloads.

Lemma download_file_outcomes_witness :
  f_data <$> files (w_fs (download_file linux_host "https://example.org/a"
                            ["tmp"; "a"] "a" (world_of flat_fs)).2) !! ["tmp"; "a"]
  = Some "PBS".
Proof.
  destruct (download_file_outcomes linux_host "https://example.org/a"
              ["tmp"; "a"] "a" (world_of flat_fs)) as (_ & _ & _ & _ & H).
  apply H. vm_compute. reflexivity.
Defined.

(** ** Uninstall *)

Lemma input_run prompt w :
  input prompt w
  = match w_stdin w with
    | [] => (Raise EOFError, say [PromptLine prompt] w)
    | line :: rest =>
        (Ok line,
         {| w_fs := w_fs w; w_environment_key := w_environment_key w;
            w_console := w_console w ++ [PromptLine prompt]; w_stdin := rest;
            w_requests := w_requests w; w_spawned := w_spawned w;
            w_reg_writes := w_reg_writes w |})
    end.
Proof. reflexivity. Qed.

Section Uninstall.

Variable host : Host.

Let install_dir := get_install_dir host.

(** X3.  [uninstall] deletes nothing unless it is told to: if the reply
    to the prompt, stripped of the whitespace around it (every character
    [str.strip] removes, not only the ASCII ones) and lower-cased, is
    neither "y" nor "yes" (or if there is no reply to read), the
    filesystem after the call is the filesystem before it, whatever the
    platform and whether or not an installation exists.  With an
    installation present on a supported platform such a reply makes the
    call return normally. *)
Theorem uninstall_needs_confirmation (w : World) :
  (∀ reply rest,
      w_stdin w = reply :: rest →
      Py.lower (Py.strip reply) ≠ "y" ∧ Py.lower (Py.strip reply) ≠ "yes") →
  w_fs (uninstall host w).2 = w_fs w
  ∧ (∀ os_name arch reply rest,
        get_platform_info (platform_system host) (platform_machine host)
        = Ok (os_name, arch) →
        path_exists (w_fs w) install_dir = true →
        w_stdin w = reply :: rest →
        (uninstall host w).1 = Ok tt
        ∧ w_stdin (uninstall host w).2 = rest
        ∧ w_console (uninstall host w).2
          = w_console w
            ++ [HeaderLines "Python-NoAdmin Uninstaller";
                PrintLine ("This will remove: " +:+ path_str host install_dir);
                PromptLine "Continue? [y/N] ";
                InfoLine "Uninstallation cancelled"]).
Proof.
  intros Hno. unfold uninstall, platform_info. run_monad.
  destruct (get_platform_info (platform_system host) (platform_machine host))
    as [[os_name arch]|e] eqn:Hplat; run_monad.
  2: { split; [reflexivity|]. intros ? ? ? ? [=]. }
  fold install_dir.
  destruct (path_exists (w_fs w) install_dir) eqn:Hdir; cbn [negb]; run_monad.
  2: { split; [reflexivity|]. intros ? ? ? ? _ [=]. }
  rewrite input_run. cbn [w_stdin say].
  destruct (w_stdin w) as [|reply rest] eqn:Hin.
  { split; [reflexivity|]. intros ? ? ? ? _ _ [=]. }
  destruct (Hno reply rest eq_refl) as [Hy Hyes].
  apply String.eqb_neq in Hy, Hyes. rewrite Hy, Hyes. cbn [orb negb].
  cbn. split; [reflexivity|].
  intros ? ? r' rest' [= <- <-] _ [= <- <-].
  repeat split. now rewrite <- !app_assoc.
Qed.

(** X4.  On a supported platform, with the install directory present as
    a directory and a reply that reads "y" or "yes" once stripped and
    lower-cased, [uninstall] returns normally and removes exactly the
    install tree: afterwards a path exists iff it existed before and does
    not lie at or below the install directory, and every file elsewhere is
    unchanged. *)
Theorem uninstall_removes_tree (w : World) (os_name arch reply : string)
    (rest : list string) :
  get_platform_info (platform_system host) (platform_machine host)
  = Ok (os_name, arch) →
  is_dir (w_fs w) install_dir = true →
  w_stdin w = reply :: rest →
  Py.lower (Py.strip reply) = "y" ∨ Py.lower (Py.strip reply) = "yes" →
  (uninstall host w).1 = Ok tt
  ∧ (∀ q, path_exists (w_fs (uninstall host w).2) q
          = path_exists (w_fs w) q && negb (bool_decide (install_dir `prefix_of` q)))
  ∧ (∀ q, ¬ install_dir `prefix_of` q →
          files (w_fs (uninstall host w).2) !! q = files (w_fs w) !! q)
  ∧ w_requests (uninstall host w).2 = w_requests w
  ∧ w_reg_writes (uninstall host w).2 = w_reg_writes w.
Proof.
  intros Hplat Hdir Hin Hyes.
  assert (path_exists (w_fs w) install_dir = true) as Hex
    by (unfold path_exists; now rewrite Hdir).
  destruct (rmtree install_dir (w_fs w)) as [fs'|e] eqn:Hrm.
  2: { unfold rmtree in Hrm. rewrite Hdir in Hrm. discriminate. }
  assert (∃ w', uninstall host w = (Ok tt, w')
                ∧ w_fs w' = fs'
                ∧ w_requests w' = w_requests w
                ∧ w_reg_writes w' = w_reg_writes w)
    as (w' & -> & Hfs & Hreq & Hreg).
  { unfold uninstall, platform_info. run_monad.
    rewrite Hplat. run_monad. fold install_dir. rewrite Hex.
    cbn [negb]. run_monad. rewrite input_run. cbn [w_stdin say]. rewrite Hin.
    assert (String.eqb (Py.lower (Py.strip reply)) "y"
            || String.eqb (Py.lower (Py.strip reply)) "yes" = true) as ->.
    { destruct Hyes as [-> | ->]; reflexivity. }
    cbn [negb]. run_monad.
    erewrite fs_op_run by (cbn [w_fs]; exact Hrm). run_monad.
    destruct (String.eqb os_name "windows"); run_monad;
      eexists; (split; [reflexivity|]); cbn; repeat split. }
  cbn [fst snd]. rewrite Hfs.
  destruct (rmtree_ok _ _ _ Hrm) as (_ & Hfiles & _).
  split; [reflexivity|].
  split; [intros q; apply (rmtree_path_exists _ _ _ q Hrm)|].
  split; [|split; assumption].
  intros q Hq. rewrite Hfiles. now rewrite bool_decide_eq_false_2.
Qed.

End Uninstall.

(** A zero-width space (U+200B, bytes E2 80 8B) is no whitespace for
    [str.strip]: a reply made of one and [y] is not a yes. *)
Lemma uninstall_needs_confirmation_witness :
  w_fs (uninstall linux_host
          {| w_fs := installed_fs; w_environment_key := None; w_console := [];
             w_stdin := [Py.chr 226 +:+ Py.chr 128 +:+ Py.chr 139 +:+ "y"];
             w_requests := []; w_spawned := []; w_reg_writes := [] |}).2
  = installed_fs.
Proof.
  apply (uninstall_needs_confirmation linux_host
           {| w_fs := installed_fs; w_environment_key := None; w_console := [];
              w_stdin := [Py.chr 226 +:+ Py.chr 128 +:+ Py.chr 139 +:+ "y"];
              w_requests := []; w_spawned := []; w_reg_writes := [] |}).
  intros reply rest [= <- <-]. split; vm_compute; discriminate.
Defined.

Lemma uninstall_removes_tree_witness :
  path_exists
    (w_fs (uninstall linux_host
             {| w_fs := installed_fs; w_environment_key := None; w_console := [];
                w_stdin := [" Y "]; w_requests := []; w_spawned := [];
                w_reg_writes := [] |}).2)
    ["home"; "user"; ".python-nonadmin"; "bin"; "python3"]
  = false.
Proof.
  destruct (uninstall_removes_tree linux_host
              {| w_fs := installed_fs; w_environment_key := None; w_console := [];
                 w_stdin := [" Y "]; w_requests := []; w_spawned := [];
                 w_reg_writes := [] |}
              "linux" "x86_64" " Y " [] eq_refl eq_refl eq_refl
              (or_introl eq_refl)) as (_ & H & _).
  rewrite H. vm_compute. reflexivity.
Defined.

(** A reply of a no-break space followed by [y] is a yes, as it is for
    [str.strip]: the installation is removed. *)
Example uninstall_accepts_padded_yes :
  path_exists
    (w_fs (uninstall linux_host
             {| w_fs := installed_fs; w_environment_key := None; w_console := [];
                w_stdin := [Py.chr 194 +:+ Py.chr 160 +:+ "y"]; w_requests := [];
                w_spawned := []; w_reg_writes := [] |}).2)
    ["home"; "user"; ".python-nonadmin"]
  = false.
Proof. vm_compute. reflexivity. Qed.

(** ** The user PATH on Windows, again *)

Lemma split_single sep p :
  Py.has_char sep p = false → Py.split sep p = [p].
Proof.
  induction p as [|c p IH]; intros H; [reflexivity|].
  cbn [Py.has_char] in H. apply orb_false_iff in H as [Hc Hp].
  cbn [Py.split]. rewrite Ascii.eqb_sym, Hc, (IH Hp). reflexivity.
Qed.

Lemma split_app_sep sep p t :
  Py.has_char sep p = false →
  Py.split sep (p +:+ String sep t) = p :: Py.split sep t.
Proof.
  induction p as [|c p IH]; intros H.
  - change (EmptyString +:+ String sep t) with (String sep t).
    cbn [Py.split]. now rewrite Ascii.eqb_refl.
  - cbn [Py.has_char] in H. apply orb_false_iff in H as [Hc Hp].
    rewrite PyFacts.append_cons. cbn [Py.split].
    rewrite Ascii.eqb_sym, Hc, (IH Hp). reflexivity.
Qed.

Lemma split_no_sep sep s x : x ∈ Py.split sep s → Py.has_char sep x = false.
Proof.
  revert x. induction s as [|c s IH]; intros x Hin.
  - cbn [Py.split] in Hin. apply list_elem_of_singleton in Hin as ->. reflexivity.
  - cbn [Py.split] in Hin. destruct (Ascii.eqb c sep) eqn:Hc.
    + apply elem_of_cons in Hin as [->|Hin]; [reflexivity | now apply IH].
    + destruct (Py.split sep s) as [|h t] eqn:Hs.
      * apply list_elem_of_singleton in Hin as ->. cbn [Py.has_char].
        now rewrite Ascii.eqb_sym, Hc.
      * apply elem_of_cons in Hin as [->|Hin].
        -- cbn [Py.has_char]. rewrite Ascii.eqb_sym, Hc. cbn [orb].
           apply IH. apply elem_of_cons. now left.
        -- apply IH. apply elem_of_cons. now right.
Qed.

(** Splitting what [join] built gives the parts back, when no part
    contains the separator. *)
Lemma split_join sep (parts : list string) :
  parts ≠ [] →
  (∀ x, x ∈ parts → Py.has_char sep x = false) →
  Py.split sep (Py.join (String sep EmptyString) parts) = parts.
Proof.
  induction parts as [|p parts IH]; intros Hne Hclean; [congruence|].
  assert (Py.has_char sep p = false) as Hp
    by (apply Hclean, elem_of_cons; now left).
  destruct parts as [|q parts].
  - cbn [Py.join]. now apply split_single.
  - rewrite PyFacts.join_cons.
    change (String sep EmptyString +:+ ?t) with (String sep t).
    change (p +:+ String sep EmptyString +:+ Py.join (String sep EmptyString) (q :: parts))
      with (p +:+ String sep (Py.join (String sep EmptyString) (q :: parts))).
    rewrite (split_app_sep sep p _ Hp). f_equal. apply IH; [discriminate|].
    intros x Hx. apply Hclean, elem_of_cons. now right.
Qed.

Lemma join_nonempty sep (parts : list string) x :
  x ∈ parts → x ≠ EmptyString → Py.join sep parts ≠ EmptyString.
Proof.
  intros Hin Hx. assert (0 < String.length x)%nat as Hlen
    by (destruct x; [congruence | simpl; lia]).
  assert (String.length x ≤ String.length (Py.join sep parts))%nat as Hle.
  { clear Hx Hlen. induction parts as [|p parts IH];
      [now apply elem_of_nil in Hin|].
    destruct parts as [|q parts].
    - apply list_elem_of_singleton in Hin as ->. reflexivity.
    - rewrite PyFacts.join_cons, !PyFacts.length_append.
      apply elem_of_cons in Hin as [->|Hin]; [lia|].
      specialize (IH Hin). lia. }
  intros E. rewrite E in Hle. simpl in Hle. lia.
Qed.

Section WindowsPath.

Variable host : Host.
Variable install_dir : Path.

Let dir := path_str host install_dir.
Let scripts := path_str host (install_dir ++ ["Scripts"]).

(** What one run does with the key open. *)
Lemma configure_path_windows_run (key : gmap string string) (w : World) :
  w_environment_key w = Some key →
  ∃ w', configure_path_windows host install_dir w = (Ok tt, w')
    ∧ w_fs w' = w_fs w
    ∧ w_requests w' = w_requests w
    ∧ w_spawned w' = w_spawned w
    ∧ match missing_entries dir scripts (path_entries (registry_path key)) with
      | [] => w_reg_writes w' = w_reg_writes w ∧ w_environment_key w' = Some key
      | added =>
          w_reg_writes w'
          = w_reg_writes w
            ++ [("PATH", Py.join ";" (added ++ path_entries (registry_path key)))]
          ∧ w_environment_key w'
            = Some (<["PATH" := Py.join ";" (added ++ path_entries (registry_path key))]>
                      key)
      end.
Proof.
  intros Hkey. unfold configure_path_windows, try_except.
  rewrite bind_run. unfold info. rewrite emit_run. rewrite bind_run.
  rewrite (open_environment_key_run key) by exact Hkey.
  fold (registry_path key). fold (path_entries (registry_path key)).
  fold dir. fold scripts.
  rewrite (add_paths dir scripts) by apply scripts_dir_differs.
  destruct (missing_entries dir scripts (path_entries (registry_path key)))
    as [|a added] eqn:Hadded.
  - rewrite bool_decide_eq_false_2 by (intros H; now apply H).
    rewrite emit_run. eexists. split; [reflexivity|]. cbn.
    repeat split; assumption.
  - rewrite bool_decide_eq_true_2 by discriminate.
    rewrite bind_run. unfold set_value_ex at 1. cbn [w_environment_key say].
    rewrite Hkey. rewrite bind_run. unfold success, warn. rewrite !emit_run.
    eexists. split; [reflexivity|]. cbn. repeat split.
Qed.

(** What one run does when the key cannot be opened. *)
Lemma configure_path_windows_closed (w : World) :
  w_environment_key w = None →
  ∃ w', configure_path_windows host install_dir w = (Ok tt, w')
    ∧ w_fs w' = w_fs w ∧ w_requests w' = w_requests w
    ∧ w_reg_writes w' = w_reg_writes w
    ∧ w_environment_key w' = None
    ∧ PrintLine ("  " +:+ dir) ∈ w_console w'
    ∧ PrintLine ("  " +:+ scripts) ∈ w_console w'.
Proof.
  intros Hkey. unfold configure_path_windows, try_except. run_monad.
  unfold open_environment_key. cbn [w_environment_key say]. rewrite Hkey.
  cbn [is_Exception for_each]. run_monad.
  eexists. split; [reflexivity|]. cbn.
  repeat split; try assumption.
  - rewrite !elem_of_app, !list_elem_of_singleton. tauto.
  - rewrite !elem_of_app, !list_elem_of_singleton. tauto.
Qed.

(** X5.  [configure_path_windows] never fails and never touches the
    filesystem or the network.  When the Environment key cannot be opened
    it writes nothing to the registry and prints the two directories for
    the user to add by hand. *)
Theorem configure_path_windows_never_raises (w : World) :
  (configure_path_windows host install_dir w).1 = Ok tt
  ∧ w_fs (configure_path_windows host install_dir w).2 = w_fs w
  ∧ w_requests (configure_path_windows host install_dir w).2 = w_requests w
  ∧ (w_environment_key w = None →
     w_reg_writes (configure_path_windows host install_dir w).2 = w_reg_writes w
     ∧ w_environment_key (configure_path_windows host install_dir w).2 = None
     ∧ PrintLine ("  " +:+ dir) ∈ w_console (configure_path_windows host install_dir w).2
     ∧ PrintLine ("  " +:+ scripts)
       ∈ w_console (configure_path_windows host install_dir w).2).
Proof.
  destruct (w_environment_key w) as [key|] eqn:Hkey.
  - destruct (configure_path_windows_run key w Hkey)
      as (w' & -> & Hfs & Hreq & _).
    cbn [fst snd]. repeat split; try assumption; discriminate.
  - destruct (configure_path_windows_closed w Hkey)
      as (w' & -> & Hfs & Hreq & Hreg & Hk & Hd & Hs).
    cbn [fst snd]. repeat split; assumption.
Qed.

(** X6.  A second run of [configure_path_windows] changes nothing in the
    registry: after one run both directories are entries of the stored
    value, so the next run finds them and writes nothing.  This needs the
    two directory names to be free of the separator ";". *)
Theorem configure_path_windows_second_run (w : World) :
  Py.has_char ";" dir = false →
  Py.has_char ";" scripts = false →
  w_reg_writes
    (configure_path_windows host install_dir
       (configure_path_windows host install_dir w).2).2
  = w_reg_writes (configure_path_windows host install_dir w).2
  ∧ w_environment_key
      (configure_path_windows host install_dir
         (configure_path_windows host install_dir w).2).2
    = w_environment_key (configure_path_windows host install_dir w).2.
Proof.
  intros Hdir Hscripts.
  assert (scripts ≠ EmptyString) as Hnonempty.
  { intros E. pose proof (path_str_longer host install_dir "Scripts") as H.
    fold scripts in H. rewrite E in H. specialize (H ltac:(discriminate)).
    simpl in H. lia. }
  destruct (w_environment_key w) as [key|] eqn:Hkey.
  2: { destruct (configure_path_windows_closed w Hkey)
         as (w1 & -> & _ & _ & Hreg & Hk & _).
       cbn [snd].
       destruct (configure_path_windows_closed w1 Hk)
         as (w2 & -> & _ & _ & Hreg' & Hk' & _).
       cbn [snd]. split; congruence. }
  destruct (configure_path_windows_run key w Hkey)
    as (w1 & -> & _ & _ & _ & Hfirst).
  cbn [snd].
  set (entries := path_entries (registry_path key)) in *.
  assert (∀ x, x ∈ entries → Py.has_char ";" x = false) as Hclean.
  { intros x Hx. unfold entries, path_entries in Hx.
    destruct (String.eqb (registry_path key) EmptyString);
      [now apply elem_of_nil in Hx | now apply split_no_sep in Hx]. }
  destruct (missing_entries dir scripts entries) as [|a added] eqn:Hadded.
  - destruct Hfirst as [Hreg Hk].
    destruct (configure_path_windows_run key w1 Hk) as (w2 & -> & _ & _ & _ & H).
    cbn [snd]. fold entries in H. rewrite Hadded in H.
    destruct H as [-> ->]. split; congruence.
  - destruct Hfirst as [Hreg Hk].
    set (parts := (a :: added) ++ entries) in *.
    assert (dir ∈ parts ∧ scripts ∈ parts) as [Hd Hs].
    { unfold parts. rewrite <- Hadded. unfold missing_entries.
      rewrite !elem_of_app.
      destruct (decide (scripts ∈ entries)) as [H1|H1];
        destruct (decide (dir ∈ entries)) as [H2|H2];
        rewrite ?(bool_decide_eq_true_2 _ H1), ?(bool_decide_eq_false_2 _ H1),
                ?(bool_decide_eq_true_2 _ H2), ?(bool_decide_eq_false_2 _ H2);
        rewrite ?list_elem_of_singleton; tauto. }
    assert (∀ x, x ∈ parts → Py.has_char ";" x = false) as Hparts.
    { intros x Hx. unfold parts in Hx. rewrite <- Hadded in Hx.
      apply elem_of_app in Hx as [Hx|Hx]; [|now apply Hclean].
      unfold missing_entries in Hx. apply elem_of_app in Hx as [Hx|Hx];
        [destruct (bool_decide (scripts ∈ entries))
        |destruct (bool_decide (dir ∈ entries))];
        try (now apply elem_of_nil in Hx);
        apply list_elem_of_singleton in Hx as ->; assumption. }
    destruct (configure_path_windows_run _ w1 Hk) as (w2 & -> & _ & _ & _ & H).
    cbn [snd].
    assert (path_entries (registry_path (<["PATH" := Py.join ";" parts]> key))
            = parts) as Hentries.
    { unfold registry_path. rewrite lookup_insert_eq. cbn [default].
      unfold path_entries.
      rewrite (proj2 (String.eqb_neq _ _)) by (now apply (join_nonempty _ _ scripts)).
      apply (split_join ";"); [discriminate | exact Hparts]. }
    rewrite Hentries in H.
    assert (missing_entries dir scripts parts = []) as Hnone.
    { unfold missing_entries.
      now rewrite (bool_decide_eq_true_2 _ Hd), (bool_decide_eq_true_2 _ Hs). }
    rewrite Hnone in H. destruct H as [-> ->]. split; congruence.
Qed.

End WindowsPath.

Lemma configure_path_windows_never_raises_witness :
  w_reg_writes
    (configure_path_windows windows_host ["Users"; "user"; ".python-nonadmin"]
       (world_of empty_fs)).2
  = [].
Proof.
  destruct (configure_path_windows_never_raises windows_host
              ["Users"; "user"; ".python-nonadmin"] (world_of empty_fs))
    as (_ & _ & _ & H).
  now destruct (H eq_refl) as (-> & _).
Defined.

Lemma configure_path_windows_second_run_witness :
  w_reg_writes
    (configure_path_windows windows_host ["Users"; "user"; ".python-nonadmin"]
       (configure_path_windows windows_host ["Users"; "user"; ".python-nonadmin"]
          registry_world).2).2
  = w_reg_writes
      (configure_path_windows windows_host ["Users"; "user"; ".python-nonadmin"]
         registry_world).2.
Proof.
  apply (configure_path_windows_second_run windows_host
           ["Users"; "user"; ".python-nonadmin"] registry_world);
    vm_compute; reflexivity.
Defined.

(** ** Execute bits *)

Lemma chmod_lookup d fs q :
  files (chmod_executables d fs) !! q
  = (fun f => if bool_decide (path_parent q = d ∧ q ≠ [])
              then {| f_data := f_data f; f_mode := Z.lor (f_mode f) S_IXALL |}
              else f) <$> files fs !! q.
Proof.
  unfold chmod_executables. cbn [files]. rewrite map_lookup_imap.
  now destruct (files fs !! q).
Qed.

(** X7.  The loop of [install_unix] over the bin directory creates and
    deletes nothing and changes no file content.  Every regular file
    directly under the directory ends with the three execute bits set and
    all its other mode bits as before; files anywhere else keep their
    mode.  Running the loop again changes nothing. *)
Theorem chmod_executables_marks (d : Path) (fs : FS) :
  dirs (chmod_executables d fs) = dirs fs
  ∧ (∀ q, f_data <$> files (chmod_executables d fs) !! q
          = f_data <$> files fs !! q)
  ∧ (∀ q f, files fs !! q = Some f → path_parent q = d → q ≠ [] →
       ∃ f', files (chmod_executables d fs) !! q = Some f'
             ∧ Z.land (f_mode f') S_IXALL = S_IXALL
             ∧ ∀ i, Z.testbit S_IXALL i = false →
                    Z.testbit (f_mode f') i = Z.testbit (f_mode f) i)
  ∧ (∀ q, ¬ (path_parent q = d ∧ q ≠ []) →
          files (chmod_executables d fs) !! q = files fs !! q)
  ∧ chmod_executables d (chmod_executables d fs) = chmod_executables d fs.
Proof.
  split; [reflexivity|]. split; [|split; [|split]].
  - intros q. rewrite chmod_lookup. destruct (files fs !! q) as [f|]; [|reflexivity].
    cbn. now destruct (bool_decide _).
  - intros q f Hq Hparent Hne. rewrite chmod_lookup, Hq. cbn [fmap option_fmap option_map].
    rewrite bool_decide_eq_true_2 by (split; assumption).
    eexists. split; [reflexivity|]. cbn [f_mode]. split.
    + apply Z.bits_inj'. intros i _.
      rewrite Z.land_spec, Z.lor_spec.
      now destruct (Z.testbit (f_mode f) i), (Z.testbit S_IXALL i).
    + intros i Hi. now rewrite Z.lor_spec, Hi, orb_false_r.
  - intros q Hq. rewrite chmod_lookup. rewrite (bool_decide_eq_false_2 _ Hq).
    now destruct (files fs !! q).
  - unfold chmod_executables at 1 3. f_equal. apply map_eq. intros q.
    rewrite map_lookup_imap, chmod_lookup. rewrite map_lookup_imap.
    destruct (files fs !! q) as [f|]; [|reflexivity]. cbn.
    destruct (bool_decide (path_parent q = d ∧ q ≠ [])); [|reflexivity].
    cbn. do 2 f_equal. rewrite <- Z.lor_assoc. f_equal.
Qed.

Lemma chmod_executables_marks_witness :
  ∃ f', files (chmod_executables ["opt"; "bin"]
                 {| dirs := {[ ["opt"; "bin"] ]};
                    files := {[ ["opt"; "bin"; "python3"]
                                := {| f_data := "ELF"; f_mode := 420 |} ]} |})
        !! ["opt"; "bin"; "python3"] = Some f'
        ∧ Z.land (f_mode f') S_IXALL = S_IXALL.
Proof.
  destruct (chmod_executables_marks ["opt"; "bin"]
              {| dirs := {[ ["opt"; "bin"] ]};
                 files := {[ ["opt"; "bin"; "python3"]
                             := {| f_data := "ELF"; f_mode := 420 |} ]} |})
    as (_ & _ & H & _).
  destruct (H ["opt"; "bin"; "python3"] {| f_data := "ELF"; f_mode := 420 |})
    as (f' & Hf & Hbits & _); [vm_compute; reflexivity | reflexivity | discriminate |].
  exists f'. split; assumption.
Defined.

(** ** What can escape from the installer's steps *)

Create HintDb safe discriminated.

Lemma safe_ret {A} (a : A) : raises_only_exceptions (mret a).
Proof. intros w e w' [=]. Qed.

Lemma safe_raise {A} e : is_Exception e = true → raises_only_exceptions (@raise A e).
Proof. intros He w e' w' [= <- _]. exact He. Qed.

Lemma safe_bind {A B} (c : M A) (k : A → M B) :
  raises_only_exceptions c → (∀ a, raises_only_exceptions (k a)) →
  raises_only_exceptions (c ≫= k).
Proof.
  intros Hc Hk w e w'. rewrite bind_run.
  destruct (c w) as [[a|e0] w0] eqn:E.
  - apply Hk.
  - intros [= <- _]. exact (Hc _ _ _ E).
Qed.

Lemma safe_emit o : raises_only_exceptions (emit o).
Proof. intros w e w' [=]. Qed.

Lemma safe_ask_fs {A} (q : FS → A) : raises_only_exceptions (ask_fs q).
Proof. intros w e w' [=]. Qed.

Lemma safe_fs_op op : fails_with_exception op → raises_only_exceptions (fs_op op).
Proof.
  intros Hop w e w'. unfold fs_op.
  destruct (op (w_fs w)) as [fs'|e0] eqn:E; [discriminate|].
  intros [= <- _]. exact (Hop _ _ E).
Qed.

Lemma safe_fs_read {A} (op : FS → Result A) :
  fails_with_exception op → raises_only_exceptions (fs_read op).
Proof. intros Hop w e w' [= E _]. exact (Hop _ _ E). Qed.

Lemma safe_lift {A} (r : Result A) :
  (∀ e, r = Raise e → is_Exception e = true) → raises_only_exceptions (lift r).
Proof. intros Hr w e w' [= E _]. now apply Hr. Qed.

Lemma safe_for_each {A} (xs : list A) (body : A → M unit) :
  (∀ x, raises_only_exceptions (body x)) → raises_only_exceptions (for_each xs body).
Proof.
  intros Hbody. induction xs as [|x xs IH]; cbn [for_each].
  - apply safe_ret.
  - apply safe_bind; [apply Hbody | intros _; exact IH].
Qed.

Lemma safe_try_except {A} (body : M A) handler :
  raises_only_exceptions body → (∀ e, raises_only_exceptions (handler e)) →
  raises_only_exceptions (try_except body handler).
Proof.
  intros Hb Hh w e w'. unfold try_except.
  destruct (body w) as [[a|e0] w0] eqn:E; [discriminate|].
  rewrite (Hb _ _ _ E). apply Hh.
Qed.

Lemma mkdir_parents_exception p : fails_with_exception (mkdir_parents p).
Proof.
  intros fs e. unfold mkdir_parents.
  destruct (existsb _ _); [now intros [= <-] | discriminate].
Qed.

Lemma open_for_write_exception p : fails_with_exception (open_for_write p).
Proof.
  intros fs e. unfold open_for_write.
  destruct (files fs !! p); [discriminate|].
  destruct (is_dir fs p); [now intros [= <-]|].
  destruct (is_dir fs (path_parent p)); [discriminate | now intros [= <-]].
Qed.

Lemma write_text_exception p data : fails_with_exception (write_text p data).
Proof.
  intros fs e. unfold write_text.
  destruct (open_for_write p fs) as [old|e0] eqn:E; [discriminate|].
  intros [= <-]. exact (open_for_write_exception _ _ _ E).
Qed.

Lemma append_text_exception p data : fails_with_exception (append_text p data).
Proof.
  intros fs e. unfold append_text.
  destruct (open_for_write p fs) as [old|e0] eqn:E; [discriminate|].
  intros [= <-]. exact (open_for_write_exception _ _ _ E).
Qed.

Lemma read_text_exception p : fails_with_exception (read_text p).
Proof.
  intros fs e. unfold read_text. destruct (files fs !! p); [discriminate|].
  destruct (is_dir fs p); now intros [= <-].
Qed.

Lemma rmtree_exception p : fails_with_exception (rmtree p).
Proof.
  intros fs e. unfold rmtree. destruct (is_dir fs p); [discriminate|].
  now intros [= <-].
Qed.

Lemma extract_member_exception dest m : fails_with_exception (extract_member dest m).
Proof.
  intros fs e. unfold extract_member. destruct (m_isdir m).
  - apply mkdir_parents_exception.
  - destruct (mkdir_parents _ fs) as [fs1|e0] eqn:E1.
    + cbn [mbind Result_bind].
      destruct (open_for_write _ fs1) as [old|e1] eqn:E2; [discriminate|].
      intros [= <-]. exact (open_for_write_exception _ _ _ E2).
    + intros [= <-]. exact (mkdir_parents_exception _ _ _ E1).
Qed.

#[local] Hint Resolve safe_ret safe_emit safe_ask_fs mkdir_parents_exception
  write_text_exception append_text_exception read_text_exception
  rmtree_exception extract_member_exception : safe.

Ltac safe_step :=
  match goal with
  | |- raises_only_exceptions (mbind _ _) => apply safe_bind; [|intros]
  | |- raises_only_exceptions (mret _) => apply safe_ret
  | |- raises_only_exceptions (raise _) => apply safe_raise; reflexivity
  | |- raises_only_exceptions (emit _) => apply safe_emit
  | |- raises_only_exceptions (info _) => apply safe_emit
  | |- raises_only_exceptions (success _) => apply safe_emit
  | |- raises_only_exceptions (warn _) => apply safe_emit
  | |- raises_only_exceptions (error _) => apply safe_emit
  | |- raises_only_exceptions (print _) => apply safe_emit
  | |- raises_only_exceptions (header _) => apply safe_emit
  | |- raises_only_exceptions (ask_fs _) => apply safe_ask_fs
  | |- raises_only_exceptions (fs_op _) => apply safe_fs_op
  | |- raises_only_exceptions (fs_read _) => apply safe_fs_read
  | |- raises_only_exceptions (for_each _ _) => apply safe_for_each; intros
  | |- raises_only_exceptions (try_except _ _) => apply safe_try_except; [|intros]
  | |- raises_only_exceptions (if ?b then _ else _) => destruct b
  | |- raises_only_exceptions (match ?x with _ => _ end) => destruct x
  | |- fails_with_exception _ => solve [auto with safe]
  end.

Ltac safe := repeat safe_step; auto with safe.

Section Safety.

Variable host : Host.

Lemma safe_run argv : raises_only_exceptions (run host argv).
Proof.
  intros w e w'. unfold run.
  destruct (subprocess_run host argv (w_fs w)) as [[msg|rc out err] fs'];
    [now intros [= <- _] | discriminate].
Qed.

Lemma safe_fetch url : raises_only_exceptions (fetch host url).
Proof. intros w e w' [=]. Qed.

Lemma safe_with_tempdir {A} (body : Path → M A) :
  (∀ p, raises_only_exceptions (body p)) →
  raises_only_exceptions (with_tempdir host body).
Proof.
  intros Hbody w e w'. unfold with_tempdir.
  destruct (fs_op (mkdir_parents (mkdtemp host (w_fs w))) w) as [[[]|e0] w0] eqn:E.
  - destruct (body (mkdtemp host (w_fs w)) w0) as [r w2] eqn:Eb.
    destruct (rmtree _ (w_fs w2)); intros [= -> _]; exact (Hbody _ _ _ _ Eb).
  - intros [= <- _]. revert E. apply safe_fs_op. auto with safe.
Qed.

Hint Resolve safe_run safe_fetch : safe.

Lemma safe_download_file url dest description :
  raises_only_exceptions (download_file host url dest description).
Proof. unfold download_file. safe. Qed.

Lemma safe_extract_archive archive dest n :
  raises_only_exceptions (extract_archive host archive dest n).
Proof. unfold extract_archive, open_archive, extractall. safe. Qed.

Lemma safe_remove_existing install_dir : raises_only_exceptions (remove_existing install_dir).
Proof. unfold remove_existing. safe. Qed.

Lemma safe_configure_pth version install_dir :
  raises_only_exceptions (configure_pth version install_dir).
Proof. unfold configure_pth. safe. Qed.

Hint Resolve safe_download_file safe_extract_archive safe_remove_existing
  safe_configure_pth : safe.

Lemma safe_install_windows version install_dir arch :
  raises_only_exceptions (install_windows host version install_dir arch).
Proof.
  unfold install_windows. safe.
  - apply safe_lift. unfold get_windows_embed_url.
    repeat destruct (String.eqb _ _); try discriminate. now intros e [= <-].
  - apply safe_with_tempdir. intros p. safe.
Qed.

Lemma safe_install_unix version install_dir os_name arch :
  raises_only_exceptions (install_unix host version install_dir os_name arch).
Proof.
  unfold install_unix. safe.
  - apply safe_lift. unfold get_pbs_download_url.
    repeat destruct (String.eqb _ _); try discriminate. now intros e [= <-].
  - apply safe_with_tempdir. intros p. safe.
  - intros fs e. destruct (is_dir fs _); [discriminate | now intros [= <-]].
Qed.

Lemma safe_install_pip python_exe install_dir :
  raises_only_exceptions (install_pip host python_exe install_dir).
Proof.
  unfold install_pip. safe.
  apply safe_with_tempdir. intros p. safe.
Qed.

Lemma safe_configure_path_windows install_dir :
  raises_only_exceptions (configure_path_windows host install_dir).
Proof.
  unfold configure_path_windows. safe.
  - intros w e w'. unfold open_environment_key.
    destruct (w_environment_key w); [discriminate | now intros [= <- _]].
  - intros w e w'. unfold set_value_ex.
    destruct (w_environment_key w); [discriminate | now intros [= <- _]].
Qed.

Lemma safe_configure_path_unix install_dir :
  raises_only_exceptions (configure_path_unix host install_dir).
Proof. unfold configure_path_unix. safe. Qed.

End Safety.

(** ** A failed installation *)

Lemma safe_install_body host version os_name arch :
  raises_only_exceptions
    (python_exe ←
       (if String.eqb os_name "windows"
        then install_windows host version (get_install_dir host) arch
        else install_unix host version (get_install_dir host) os_name arch);
     '(returncode, stdout, _) ← run host [path_str host python_exe; "--version"];
     if negb (returncode =? 0) then
       raise (RuntimeError "Python installation failed verification")
     else
       _ ← success ("Python installed: " +:+ Py.strip stdout);
       _ ← install_pip host python_exe (get_install_dir host);
       _ ← (if String.eqb os_name "windows"
            then configure_path_windows host (get_install_dir host)
            else configure_path_unix host (get_install_dir host));
       _ ← header "Installation Complete!";
       _ ← print ("  Python: " +:+ path_str host python_exe);
       _ ← (if String.eqb os_name "windows"
            then print ("  pip: " +:+ path_str host (get_install_dir host ++ ["Scripts"; "pip.exe"]))
            else print ("  pip: " +:+ path_str host (get_install_dir host ++ ["bin"; "pip3"])));
       _ ← print EmptyString;
       _ ← print "  Activate in current session:";
       _ ← (if String.eqb os_name "windows"
            then print "    . .\scripts\activate.ps1"
            else print "    source ./scripts/activate.sh");
       print EmptyString).
Proof.
  apply safe_bind.
  { destruct (String.eqb os_name "windows");
      [apply safe_install_windows | apply safe_install_unix]. }
  intros python_exe. apply safe_bind; [apply safe_run|].
  intros [[rc out] err]. destruct (negb (rc =? 0)).
  { apply safe_raise. reflexivity. }
  apply safe_bind; [apply safe_emit|]. intros _.
  apply safe_bind; [apply safe_install_pip|]. intros _.
  apply safe_bind.
  { destruct (String.eqb os_name "windows");
      [apply safe_configure_path_windows | apply safe_configure_path_unix]. }
  intros _. safe.
Qed.

(** X8.  Once [install] has decided to install (the platform is
    supported, and the install directory is absent or [--force] was
    given), nothing but [sys.exit(1)] can escape from it: whichever step
    fails -- URL resolution, download, extraction, a child process that
    cannot be started, the verification, pip, the profile -- the call
    ends in [SystemExit 1], and the last thing on the console is the
    line [Installation failed: <message of that exception>]. *)
Theorem install_failure_reported (host : Host) (version : string)
    (force : bool) (w : World) (os_name arch : string) :
  get_platform_info (platform_system host) (platform_machine host)
    = Ok (os_name, arch) →
  path_exists (w_fs w) (get_install_dir host) = false ∨ force = true →
  ∀ e w', install host version force w = (Raise e, w') →
    e = SystemExit 1
    ∧ exit_code (Raise e) = 1
    ∧ ∃ e0 out, is_Exception e0 = true
        ∧ w_console w'
          = out ++ [ErrorLine ("Installation failed: " +:+ exn_str e0)].
Proof.
  intros Hplat Hgo e w'. unfold install, platform_info.
  rewrite bind_run. unfold lift at 1. rewrite Hplat.
  repeat (rewrite bind_run, emit_run || rewrite bind_run; unfold header, print, info;
          rewrite ?emit_run).
  unfold ask_fs at 1. cbn [w_fs say].
  replace (path_exists (w_fs w) (get_install_dir host) && negb force) with false
    by (destruct Hgo as [-> | ->]; [reflexivity | now rewrite andb_false_r]).
  rewrite bind_run. unfold info. rewrite emit_run.
  unfold try_except.
  match goal with |- context [match ?b ?w0 with _ => _ end] =>
    pose proof (safe_install_body host version os_name arch w0) as Hsafe;
    destruct (b w0) as [[[]|e0] w1] eqn:Ebody end.
  - discriminate.
  - rewrite (Hsafe _ _ Ebody). rewrite bind_run. unfold error. rewrite emit_run.
    intros [= <- <-]. split; [reflexivity|]. split; [reflexivity|].
    exists e0, (w_console w1). split; [exact (Hsafe _ _ Ebody) | reflexivity].
Qed.

Lemma install_failure_reported_witness :
  (install noexec_host DEFAULT_VERSION false (world_of empty_fs)).1
  = Raise (SystemExit 1).
Proof.
  destruct (install noexec_host DEFAULT_VERSION false (world_of empty_fs))
    as [[[]|e] w'] eqn:E.
  - vm_compute in E. discriminate E.
  - assert (Hplat : get_platform_info (platform_system noexec_host)
                      (platform_machine noexec_host) = Ok ("linux", "x86_64"))
      by (vm_compute; reflexivity).
    assert (Hgo : path_exists (w_fs (world_of empty_fs)) (get_install_dir noexec_host)
                  = false ∨ false = true)
      by (left; vm_compute; reflexivity).
    destruct (install_failure_reported noexec_host DEFAULT_VERSION false
                (world_of empty_fs) "linux" "x86_64" Hplat Hgo e w' E) as [-> _].
    reflexivity.
Defined.

(** ** Installing without a network *)

Section Offline.

Variable host : Host.

Lemma download_file_offline url dest description w :
  (∀ body, urlopen host url ≠ HttpBody body) →
  ∃ e w', download_file host url dest description w = (Raise e, w')
          ∧ is_Exception e = true ∧ only_requests w w'.
Proof.
  intros offline. unfold download_file, info. rewrite !bind_run, !emit_run.
  unfold fetch at 1. cbn [w_fs w_environment_key w_console w_stdin w_requests
                          w_spawned w_reg_writes say].
  destruct (urlopen host url) as [body|code reason|reason] eqn:E.
  - now destruct (offline body).
  - eexists _, _. split; [reflexivity|]. split; [reflexivity|].
    repeat split.
  - eexists _, _. split; [reflexivity|]. split; [reflexivity|].
    repeat split.
Qed.

(** A temporary directory around a body that fails without touching the
    disk: all that can remain is the chain of directories down to the
    temporary one; the directory itself is gone. *)
Lemma with_tempdir_body_fails {A} (body : Path → M A) w :
  (∀ tp w0, ∃ e w1, body tp w0 = (Raise e, w1)
                    ∧ is_Exception e = true ∧ only_requests w0 w1) →
  ∃ e w', with_tempdir host body w = (Raise e, w')
    ∧ is_Exception e = true
    ∧ w_environment_key w' = w_environment_key w
    ∧ w_stdin w' = w_stdin w
    ∧ w_spawned w' = w_spawned w
    ∧ w_reg_writes w' = w_reg_writes w
    ∧ ∀ q, ¬ mkdtemp host (w_fs w) `prefix_of` q →
        files (w_fs w') !! q = files (w_fs w) !! q
        ∧ (is_dir (w_fs w) q = true → is_dir (w_fs w') q = true)
        ∧ (is_dir (w_fs w') q = true →
           is_dir (w_fs w) q = true ∨ q `prefix_of` mkdtemp host (w_fs w)).
Proof.
  intros Hbody. unfold with_tempdir.
  set (tmp := mkdtemp host (w_fs w)).
  destruct (mkdir_parents tmp (w_fs w)) as [fs1|e1] eqn:Hmk.
  - rewrite (fs_op_run _ _ _ Hmk).
    destruct (Hbody tmp (set_fs fs1 w)) as (e & w1 & -> & He & Hfs & Hk & Hi & Hs & Hr).
    cbn [set_fs w_fs w_environment_key w_stdin w_spawned w_reg_writes] in *.
    assert (Hdir : is_dir (w_fs w1) tmp = true)
      by (rewrite Hfs; exact (is_dir_after_mkdir _ _ _ Hmk)).
    destruct (rmtree tmp (w_fs w1)) as [fs2|e2] eqn:Hrm.
    + eexists e, _. split; [reflexivity|]. split; [exact He|].
      cbn [set_fs w_fs w_environment_key w_stdin w_spawned w_reg_writes].
      do 4 (split; [assumption|]).
      intros q Hq. apply rmtree_ok in Hrm as (_ & Hfiles & Hdirs).
      rewrite Hfiles, Hdirs, (bool_decide_eq_false_2 _ Hq), andb_true_r, Hfs.
      rewrite (is_dir_mkdir _ _ _ q Hmk).
      destruct (mkdir_parents_ok _ _ _ Hmk) as [-> _].
      split; [reflexivity|]. split.
      * intros ->. reflexivity.
      * intros [H|H]%orb_true_iff; [now left | right].
        now apply bool_decide_eq_true in H.
    + destruct (rmtree_not_dir tmp (w_fs w1)) as [e3 He3].
      * unfold rmtree in Hrm. now rewrite Hdir in Hrm.
      * unfold rmtree in Hrm. now rewrite Hdir in Hrm.
  - rewrite (fs_op_fail _ _ _ Hmk).
    eexists e1, w. split; [reflexivity|].
    split; [exact (mkdir_parents_exception _ _ _ Hmk)|].
    do 4 (split; [reflexivity|]).
    intros q _. split; [reflexivity|]. split; [tauto | now left].
Qed.

Lemma platform_step_offline version install_dir os_name arch w :
  (∀ url body, urlopen host url ≠ HttpBody body) →
  ∃ e w',
    (if String.eqb os_name "windows"
     then install_windows host version install_dir arch
     else install_unix host version install_dir os_name arch) w = (Raise e, w')
    ∧ is_Exception e = true
    ∧ w_environment_key w' = w_environment_key w
    ∧ w_stdin w' = w_stdin w
    ∧ w_spawned w' = w_spawned w
    ∧ w_reg_writes w' = w_reg_writes w
    ∧ ∀ q, ¬ mkdtemp host (w_fs w) `prefix_of` q →
        files (w_fs w') !! q = files (w_fs w) !! q
        ∧ (is_dir (w_fs w) q = true → is_dir (w_fs w') q = true)
        ∧ (is_dir (w_fs w') q = true →
           is_dir (w_fs w) q = true ∨ q `prefix_of` mkdtemp host (w_fs w)).
Proof.
  intros offline.
  assert (Hstay : ∀ e, is_Exception e = true →
            ∃ e0 w', (Raise e : Result Path, w) = (Raise e0, w')
              ∧ is_Exception e0 = true
              ∧ w_environment_key w' = w_environment_key w
              ∧ w_stdin w' = w_stdin w
              ∧ w_spawned w' = w_spawned w
              ∧ w_reg_writes w' = w_reg_writes w
              ∧ ∀ q, ¬ mkdtemp host (w_fs w) `prefix_of` q →
                  files (w_fs w') !! q = files (w_fs w) !! q
                  ∧ (is_dir (w_fs w) q = true → is_dir (w_fs w') q = true)
                  ∧ (is_dir (w_fs w') q = true →
                     is_dir (w_fs w) q = true ∨ q `prefix_of` mkdtemp host (w_fs w))).
  { intros e He. exists e, w. split; [reflexivity|]. split; [exact He|].
    do 4 (split; [reflexivity|]).
    intros q _. split; [reflexivity|]. split; [tauto | now left]. }
  destruct (String.eqb os_name "windows").
  - unfold install_windows. rewrite bind_run. unfold lift at 1.
    destruct (get_windows_embed_url version arch) as [url|e0] eqn:Eurl.
    + rewrite bind_run.
      match goal with |- context [with_tempdir host ?b w] =>
        destruct (with_tempdir_body_fails b w) as (e & w' & -> & Hrest) end.
      * intros tp w0. cbv zeta. rewrite bind_run.
        destruct (download_file_offline url (tp ++ ["python-embed.zip"])
                    ("Python " +:+ version +:+ " embeddable package") w0
                    (offline url)) as (e & w1 & -> & He & Hw).
        now exists e, w1.
      * now exists e, w'.
    + apply Hstay. revert Eurl. unfold get_windows_embed_url.
      repeat destruct (String.eqb _ _); try discriminate. now intros [= <-].
  - unfold install_unix. rewrite bind_run. unfold lift at 1.
    destruct (get_pbs_download_url version os_name arch) as [url|e0] eqn:Eurl.
    + rewrite bind_run.
      match goal with |- context [with_tempdir host ?b w] =>
        destruct (with_tempdir_body_fails b w) as (e & w' & -> & Hrest) end.
      * intros tp w0. cbv zeta. rewrite bind_run.
        destruct (download_file_offline url (tp ++ ["python.tar.gz"])
                    ("Python " +:+ version) w0 (offline url))
          as (e & w1 & -> & He & Hw).
        now exists e, w1.
      * now exists e, w'.
    + apply Hstay. revert Eurl. unfold get_pbs_download_url.
      repeat destruct (String.eqb _ _); try discriminate. now intros [= <-].
Qed.

(** X9.  The download comes before anything is removed.  When no
    download can succeed, an installation that was started (also one
    forced over an existing installation) ends in [sys.exit(1)] without
    starting a process or writing to the registry, and outside the
    temporary directory the disk is as before: every file is unchanged,
    every directory is still there, and the only directories that can
    be new are the ancestors of the temporary directory. *)
Theorem install_offline_keeps_disk (version : string) (force : bool)
    (w : World) (os_name arch : string) :
  get_platform_info (platform_system host) (platform_machine host)
    = Ok (os_name, arch) →
  (∀ url body, urlopen host url ≠ HttpBody body) →
  path_exists (w_fs w) (get_install_dir host) = false ∨ force = true →
  ∃ w', install host version force w = (Raise (SystemExit 1), w')
    ∧ w_spawned w' = w_spawned w
    ∧ w_reg_writes w' = w_reg_writes w
    ∧ w_environment_key w' = w_environment_key w
    ∧ ∀ q, ¬ mkdtemp host (w_fs w) `prefix_of` q →
        files (w_fs w') !! q = files (w_fs w) !! q
        ∧ (is_dir (w_fs w) q = true → is_dir (w_fs w') q = true)
        ∧ (is_dir (w_fs w') q = true →
           is_dir (w_fs w) q = true ∨ q `prefix_of` mkdtemp host (w_fs w)).
Proof.
  intros Hplat offline Hgo. unfold install, platform_info.
  rewrite bind_run. unfold lift at 1. rewrite Hplat.
  repeat (rewrite bind_run, emit_run || rewrite bind_run; unfold header, print, info;
          rewrite ?emit_run).
  unfold ask_fs at 1. cbn [w_fs say].
  replace (path_exists (w_fs w) (get_install_dir host) && negb force) with false
    by (destruct Hgo as [-> | ->]; [reflexivity | now rewrite andb_false_r]).
  rewrite bind_run. unfold info. rewrite emit_run.
  unfold try_except. rewrite bind_run.
  match goal with |- context [(if String.eqb os_name "windows" then _ else _) ?w0] =>
    destruct (platform_step_offline version (get_install_dir host) os_name arch w0
                offline) as (e & w1 & -> & He & Hk & Hi & Hs & Hr & Hq) end.
  rewrite He, bind_run. unfold error. rewrite emit_run.
  eexists. split; [reflexivity|].
  cbn [say w_fs w_environment_key w_stdin w_spawned w_reg_writes] in *.
  rewrite Hs, Hr, Hk. do 3 (split; [reflexivity|]). exact Hq.
Qed.

End Offline.

Lemma install_offline_keeps_disk_witness :
  ∃ w', install noexec_host DEFAULT_VERSION true (world_of installed_fs)
        = (Raise (SystemExit 1), w')
    ∧ files (w_fs w') !! ["home"; "user"; ".python-nonadmin"; "bin"; "python3"]
      = Some {| f_data := "ELF"; f_mode := 493 |}.
Proof.
  assert (Hplat : get_platform_info (platform_system noexec_host)
                    (platform_machine noexec_host) = Ok ("linux", "x86_64"))
    by (vm_compute; reflexivity).
  assert (Hoff : ∀ url body, urlopen noexec_host url ≠ HttpBody body)
    by (intros url body; discriminate).
  assert (Hgo : path_exists (w_fs (world_of installed_fs)) (get_install_dir noexec_host)
                = false ∨ true = true) by (right; reflexivity).
  destruct (install_offline_keeps_disk noexec_host DEFAULT_VERSION true
              (world_of installed_fs) "linux" "x86_64" Hplat Hoff Hgo)
    as (w' & E & _ & _ & _ & Hq).
  exists w'. split; [exact E|].
  destruct (Hq ["home"; "user"; ".python-nonadmin"; "bin"; "python3"]) as [-> _].
  - intros [k Hk]. vm_compute in Hk. discriminate Hk.
  - vm_compute. reflexivity.
Defined.

(** ** Listing the versions *)

(** X10.  [--list] wins over every other option and needs nothing from
    the machine: whatever the host (also one the platform detector
    rejects) and whatever [--uninstall], [--force] and [--version] say,
    [main] returns normally having only printed; every known version is
    on its own line, the default one marked as such. *)
Theorem main_list_only_prints (host : Host) (args : Args) (w : World) :
  arg_list_versions args = true →
  ∃ out, main host args w = (Ok tt, say out w)
    ∧ (∀ o, o ∈ out → ∃ s, o = PrintLine s)
    ∧ (∀ v, v ∈ AVAILABLE_VERSIONS →
         PrintLine ("  • " +:+ v +:+
                    (if String.eqb v DEFAULT_VERSION then " (default)"
                     else EmptyString)) ∈ out).
Proof.
  intros Hlist. unfold main. rewrite Hlist. unfold list_versions, print.
  cbn [for_each AVAILABLE_VERSIONS].
  repeat (first [rewrite bind_run | rewrite emit_run | progress unfold mret, M_ret];
          cbn beta iota).
  rewrite !say_say.
  eexists. split; [reflexivity|]. split.
  - intros o Ho. apply list_elem_of_In in Ho. cbn [app In] in Ho.
    repeat (destruct Ho as [<- | Ho]; [now eexists|]). destruct Ho.
  - intros v Hv. apply list_elem_of_In in Hv. cbn [AVAILABLE_VERSIONS In] in Hv.
    repeat (destruct Hv as [<- | Hv]; [in_list|]). destruct Hv.
Qed.

Lemma main_list_only_prints_witness :
  ∃ out,
    main freebsd_host
      {| arg_version := DEFAULT_VERSION; arg_force := true;
         arg_list_versions := true; arg_uninstall := true |}
      (world_of installed_fs)
    = (Ok tt, say out (world_of installed_fs)).
Proof.
  destruct (main_list_only_prints freebsd_host
              {| arg_version := DEFAULT_VERSION; arg_force := true;
                 arg_list_versions := true; arg_uninstall := true |}
              (world_of installed_fs) eq_refl) as (out & E & _).
  exists out. exact E.
Defined.

(** ** pip *)

(** X11.  When [pip --version] succeeds, [install_pip] downloads nothing
    and writes nothing itself: it starts exactly two children, the
    version query and the upgrade, and returns normally whatever exit
    status the upgrade reports; the disk is as the second child left
    it. *)
Theorem install_pip_present (host : Host) (python_exe install_dir : Path)
    (w : World) (out err : string) (fs1 : FS)
    (rc2 : Z) (out2 err2 : string) (fs2 : FS) :
  subprocess_run host [path_str host python_exe; "-m"; "pip"; "--version"] (w_fs w)
    = (Completed 0 out err, fs1) →
  subprocess_run host
    [path_str host python_exe; "-m"; "pip"; "install"; "--upgrade"; "pip"; "--quiet"]
    fs1 = (Completed rc2 out2 err2, fs2) →
  ∃ w', install_pip host python_exe install_dir w = (Ok tt, w')
    ∧ w_fs w' = fs2
    ∧ w_requests w' = w_requests w
    ∧ w_reg_writes w' = w_reg_writes w
    ∧ w_spawned w'
      = w_spawned w
        ++ [[path_str host python_exe; "-m"; "pip"; "--version"];
            [path_str host python_exe; "-m"; "pip"; "install"; "--upgrade"; "pip";
             "--quiet"]]
    ∧ w_console w'
      = w_console w
        ++ [InfoLine "Checking pip installation...";
            SuccessLine ("pip already installed: " +:+ Py.strip out);
            InfoLine "Upgrading pip to latest version..."].
Proof.
  intros Hcheck Hupgrade. unfold install_pip, info, success.
  rewrite bind_run, emit_run, bind_run. unfold run at 1.
  cbn [say w_fs w_environment_key w_console w_stdin w_requests w_spawned
       w_reg_writes].
  rewrite Hcheck. cbn [Z.eqb].
  rewrite bind_run, emit_run, bind_run, emit_run, bind_run. unfold run at 1.
  cbn [say w_fs w_environment_key w_console w_stdin w_requests w_spawned
       w_reg_writes].
  rewrite Hupgrade.
  eexists. split; [reflexivity|].
  cbn [w_fs w_requests w_reg_writes w_spawned w_console].
  rewrite <- !app_assoc. repeat split.
Qed.

Lemma install_pip_present_witness :
  ∃ w', install_pip linux_host ["opt"; "bin"; "python3"] ["opt"] (world_of empty_fs)
        = (Ok tt, w')
    ∧ w_requests w' = [].
Proof.
  destruct (install_pip_present linux_host ["opt"; "bin"; "python3"] ["opt"]
              (world_of empty_fs) ("Python 3.11.9" +:+ Py.NL) EmptyString empty_fs
              0 ("Python 3.11.9" +:+ Py.NL) EmptyString empty_fs
              eq_refl eq_refl) as (w' & E & _ & Hreq & _).
  exists w'. split; [exact E | exact Hreq].
Defined.

(** ** What an extraction leaves on the disk *)

Section WholeArchive.

Variable host : Host.



End WholeArchive.


(** ** A successful installation on Linux *)

Lemma extract_member_parent dest m fs fs' :
  extract_member dest m fs = Ok fs' → m_isdir m = false →
  is_dir fs' (path_parent (dest ++ name_parts (m_name m))) = true.
Proof.
  unfold extract_member. intros Hrun Hfile. rewrite Hfile in Hrun.
  destruct (mkdir_parents _ fs) as [fs1|e] eqn:Hmk; [|discriminate].
  cbn [mbind Result_bind] in Hrun.
  destruct (open_for_write _ fs1) as [old|e]; [|discriminate].
  cbn [mbind Result_bind mret Result_ret] in Hrun. injection Hrun as <-.
  rewrite is_dir_store. exact (is_dir_after_mkdir _ _ _ Hmk).
Qed.

Lemma extractall_parent dest members w w' q m :
  extractall dest members w = (Ok tt, w') →
  delivered dest members q = Some m →
  is_dir (w_fs w') (path_parent q) = true.
Proof.
  unfold extractall. revert w.
  induction members as [|m0 ms IH]; intros w; cbn [for_each delivered];
    [discriminate|].
  rewrite bind_run. unfold fs_op at 1.
  destruct (extract_member dest m0 (w_fs w)) as [fs1|e] eqn:Hm; [|discriminate].
  intros Hrest.
  destruct (delivered dest ms q) as [m'|] eqn:Hd.
  - intros Hm'. exact (IH _ Hrest Hm').
  - destruct (m_isdir m0) eqn:Hfile; cbn [negb andb]; [discriminate|].
    destruct (decide (dest ++ name_parts (m_name m0) = q)) as [<-|Hne].
    + intros _. destruct (extractall_ok _ _ _ _ Hrest) as (_ & Hsub & _).
      pose proof (extract_member_parent _ _ _ _ Hm Hfile) as Hp.
      unfold is_dir in *. apply bool_decide_eq_true.
      apply bool_decide_eq_true in Hp. apply Hsub. exact Hp.
    + rewrite bool_decide_eq_false_2 by exact Hne. discriminate.
Qed.

Ltac run_steps :=
  repeat (first [rewrite bind_run | rewrite emit_run]; cbn beta iota).

Lemma bind_ok_inv {A B} (c : M A) (k : A → M B) w b w' :
  (c ≫= k) w = (Ok b, w') → ∃ a w1, c w = (Ok a, w1) ∧ k a w1 = (Ok b, w').
Proof.
  rewrite bind_run. destruct (c w) as [[a|e] w1]; [|discriminate].
  intros H. now exists a, w1.
Qed.

Lemma prefix_snoc_inv (p t : Path) (x : string) :
  p `prefix_of` t ++ [x] → p `prefix_of` t ∨ p = t ++ [x].
Proof.
  intros [k Hk]. destruct (decide (k = [])) as [->|Hne].
  - right. now rewrite app_nil_r in Hk.
  - left. rewrite (app_removelast_last EmptyString Hne), app_assoc in Hk.
    apply app_inj_tail in Hk as [-> _]. now apply prefix_app_r.
Qed.

Section FreshTree.

Variable host : Host.

Lemma with_tempdir_ok_inv {A} (body : Path → M A) w a w' :
  with_tempdir host body w = (Ok a, w') →
  ∃ fs1 w2,
    mkdir_parents (mkdtemp host (w_fs w)) (w_fs w) = Ok fs1
    ∧ body (mkdtemp host (w_fs w)) (set_fs fs1 w) = (Ok a, w2)
    ∧ w_requests w' = w_requests w2
    ∧ w_spawned w' = w_spawned w2
    ∧ (∀ q f, files (w_fs w') !! q = Some f → files (w_fs w2) !! q = Some f)
    ∧ (∀ q f, files (w_fs w') !! q = Some f →
         is_dir (w_fs w2) (path_parent q) = true →
         is_dir (w_fs w') (path_parent q) = true).
Proof.
  unfold with_tempdir. unfold fs_op at 1.
  destruct (mkdir_parents _ (w_fs w)) as [fs1|e] eqn:Hmk; [|discriminate].
  destruct (body _ (set_fs fs1 w)) as [r w2] eqn:Hbody.
  destruct (rmtree _ (w_fs w2)) as [fs'|e] eqn:Hrm.
  - intros [= -> <-]. exists fs1, w2. split; [reflexivity|].
    split; [exact Hbody|]. cbn [set_fs w_fs w_requests w_spawned].
    do 2 (split; [reflexivity|]).
    destruct (rmtree_ok _ _ _ Hrm) as (_ & Hfiles & Hdirs). split.
    + intros q f. rewrite Hfiles. now destruct (bool_decide _).
    + intros q f. rewrite Hfiles, Hdirs.
      destruct (decide (mkdtemp host (w_fs w) `prefix_of` q)) as [Hpre|Hpre].
      * now rewrite (bool_decide_eq_true_2 _ Hpre).
      * intros _ ->. rewrite bool_decide_eq_false_2; [reflexivity|].
        intros Hp. apply Hpre. etrans; [exact Hp | apply path_parent_prefix].
  - intros [= -> <-]. exists fs1, w2. split; [reflexivity|].
    split; [exact Hbody|]. do 2 (split; [reflexivity|]). split; auto.
Qed.

Lemma download_file_ok url dest description w w' :
  download_file host url dest description w = (Ok tt, w') →
  ∃ body, urlopen host url = HttpBody body
    ∧ write_text dest body (w_fs w) = Ok (w_fs w')
    ∧ w_requests w' = w_requests w ++ [url]
    ∧ w_spawned w' = w_spawned w.
Proof.
  unfold download_file, info, success, print, fetch. run_steps.
  cbn [say w_fs w_environment_key w_console w_stdin w_requests w_spawned
       w_reg_writes].
  destruct (urlopen host url) as [body|code reason|reason]; cbn beta iota;
    [|unfold raise; discriminate..].
  rewrite bind_run. unfold fs_op at 1. cbn [w_fs].
  destruct (write_text dest body (w_fs w)) as [fs'|e] eqn:Hwr; [|discriminate].
  run_steps. intros [= <-]. exists body.
  split; [reflexivity|]. cbn [say set_fs w_fs w_requests w_spawned].
  split; [exact Hwr|]. split; reflexivity.
Qed.

Lemma remove_existing_ok d w w' :
  remove_existing d w = (Ok tt, w') →
  w_requests w' = w_requests w
  ∧ w_spawned w' = w_spawned w
  ∧ (∀ q f, files (w_fs w') !! q = Some f → files (w_fs w) !! q = Some f)
  ∧ (∀ q f, files (w_fs w') !! q = Some f → d `prefix_of` q →
       path_exists (w_fs w) d = false).
Proof.
  unfold remove_existing. rewrite bind_run. unfold ask_fs at 1.
  destruct (path_exists (w_fs w) d) eqn:Hpresent.
  - unfold warn. rewrite bind_run, emit_run. unfold fs_op. cbn [say w_fs].
    destruct (rmtree d (w_fs w)) as [fs'|e] eqn:Hrm; [|discriminate].
    intros [= <-]. cbn [set_fs say w_fs w_requests w_spawned].
    do 2 (split; [reflexivity|]).
    destruct (rmtree_ok _ _ _ Hrm) as (_ & Hfiles & _). split.
    + intros q f. rewrite Hfiles. now destruct (bool_decide _).
    + intros q f Hq Hpre. rewrite Hfiles, (bool_decide_eq_true_2 _ Hpre) in Hq.
      discriminate.
  - intros [= <-]. repeat split; auto.
Qed.

Lemma extract_tarball_ok archive dest n w w' :
  0 < n →
  Py.endswith ".tar.gz" (path_name archive) = true
  ∨ Py.endswith ".tgz" (path_name archive) = true →
  extract_archive host archive dest n w = (Ok tt, w') →
  ∃ f members,
    files (w_fs w) !! archive = Some f
    ∧ tar_getmembers host (f_data f) = Some members
    ∧ w_requests w' = w_requests w
    ∧ w_spawned w' = w_spawned w
    ∧ (∀ q, files (w_fs w') !! q
            = match delivered dest (stripped (Z.to_nat n) members) q with
              | Some m => Some {| f_data := m_data m; f_mode := m_mode m |}
              | None => files (w_fs w) !! q
              end)
    ∧ (∀ q m, delivered dest (stripped (Z.to_nat n) members) q = Some m →
         is_dir (w_fs w') (path_parent q) = true).
Proof.
  intros Hn Htar. unfold extract_archive, info, success.
  rewrite bind_run, emit_run, bind_run. unfold fs_op at 1. cbn [say w_fs].
  destruct (mkdir_parents dest (w_fs w)) as [fs1|e] eqn:Hmk; [|discriminate].
  rewrite (tarball_not_zip archive Htar).
  replace (Py.endswith ".tar.gz" (path_name archive)
           || Py.endswith ".tgz" (path_name archive)) with true
    by (destruct Htar as [-> | ->]; [reflexivity | now rewrite orb_true_r]).
  rewrite (proj2 (Z.ltb_lt 0 n) Hn). rewrite !bind_run.
  unfold open_archive at 1. rewrite bind_run. unfold fs_read at 1.
  cbn [set_fs w_fs]. unfold read_text.
  rewrite (proj1 (mkdir_parents_ok _ _ _ Hmk)).
  destruct (files (w_fs w) !! archive) as [f|] eqn:Hf;
    [|destruct (is_dir fs1 archive); discriminate].
  destruct (tar_getmembers host (f_data f)) as [members|] eqn:Hdec; [|discriminate].
  unfold mret at 1, M_ret at 1.
  rewrite strip_loop by lia.
  destruct (extractall dest (stripped (Z.to_nat n) members) _) as [[[]|e] w1] eqn:Hrun;
    [|discriminate].
  rewrite emit_run. intros [= <-]. exists f, members.
  split; [reflexivity|]. split; [exact Hdec|].
  destruct (extractall_ok _ _ _ _ Hrun) as (Hw & _ & _ & Hfiles).
  cbn [say set_fs w_fs w_requests w_spawned w_console] in *.
  rewrite Hw. cbn [set_fs w_requests w_spawned w_fs].
  do 2 (split; [reflexivity|]). split.
  - intros q. rewrite Hfiles. rewrite (proj1 (mkdir_parents_ok _ _ _ Hmk)). reflexivity.
  - intros q m Hd. exact (extractall_parent _ _ _ _ _ _ Hrun Hd).
Qed.

Lemma extract_zip_ok archive dest n w w' :
  Py.endswith ".zip" (path_name archive) = true →
  extract_archive host archive dest n w = (Ok tt, w') →
  ∃ f members,
    files (w_fs w) !! archive = Some f
    ∧ zip_namelist host (f_data f) = Some members
    ∧ w_requests w' = w_requests w
    ∧ w_spawned w' = w_spawned w
    ∧ (∀ q, files (w_fs w') !! q
            = match delivered dest members q with
              | Some m => Some {| f_data := m_data m; f_mode := m_mode m |}
              | None => files (w_fs w) !! q
              end)
    ∧ (∀ q m, delivered dest members q = Some m →
         is_dir (w_fs w') (path_parent q) = true).
Proof.
  intros Hzip. unfold extract_archive, info, success.
  rewrite bind_run, emit_run, bind_run. unfold fs_op at 1. cbn [say w_fs].
  destruct (mkdir_parents dest (w_fs w)) as [fs1|e] eqn:Hmk; [|discriminate].
  rewrite Hzip, orb_true_r. rewrite !bind_run.
  unfold open_archive at 1. rewrite bind_run. unfold fs_read at 1.
  cbn [set_fs w_fs]. unfold read_text.
  rewrite (proj1 (mkdir_parents_ok _ _ _ Hmk)).
  destruct (files (w_fs w) !! archive) as [f|] eqn:Hf;
    [|destruct (is_dir fs1 archive); discriminate].
  destruct (zip_namelist host (f_data f)) as [members|] eqn:Hdec; [|discriminate].
  unfold mret at 1, M_ret at 1.
  destruct (extractall dest members _) as [[[]|e] w1] eqn:Hrun; [|discriminate].
  rewrite emit_run. intros [= <-]. exists f, members.
  split; [reflexivity|]. split; [exact Hdec|].
  destruct (extractall_ok _ _ _ _ Hrun) as (Hw & _ & _ & Hfiles).
  cbn [say set_fs w_fs w_requests w_spawned w_console] in *.
  rewrite Hw. cbn [set_fs w_requests w_spawned w_fs].
  do 2 (split; [reflexivity|]). split.
  - intros q. rewrite Hfiles. rewrite (proj1 (mkdir_parents_ok _ _ _ Hmk)). reflexivity.
  - intros q m Hd. exact (extractall_parent _ _ _ _ _ _ Hrun Hd).
Qed.

(** Download into a temporary directory, remove what is installed,
    unpack: when this returns normally, all that lies below the install
    directory was delivered by the archive that was downloaded. *)
Lemma unpack_in_tempdir_ok (name description : string) (n : Z)
    (decode : string → option (list Member))
    (todo : list Member → list Member)
    (url body : string) (install_dir : Path) (members : list Member)
    (w w3 : World) :
  (∀ tp wb w2,
     extract_archive host (tp ++ [name]) install_dir n wb = (Ok tt, w2) →
     ∃ f ms,
       files (w_fs wb) !! (tp ++ [name]) = Some f
       ∧ decode (f_data f) = Some ms
       ∧ w_requests w2 = w_requests wb
       ∧ w_spawned w2 = w_spawned wb
       ∧ (∀ q, files (w_fs w2) !! q
               = match delivered install_dir (todo ms) q with
                 | Some m => Some {| f_data := m_data m; f_mode := m_mode m |}
                 | None => files (w_fs wb) !! q
                 end)
       ∧ (∀ q m, delivered install_dir (todo ms) q = Some m →
            is_dir (w_fs w2) (path_parent q) = true)) →
  urlopen host url = HttpBody body →
  decode body = Some members →
  (path_exists (w_fs w) install_dir = false →
   ∀ q, install_dir `prefix_of` q → files (w_fs w) !! q = None) →
  with_tempdir host (fun temp_path =>
    _ ← download_file host url (temp_path ++ [name]) description;
    _ ← remove_existing install_dir;
    extract_archive host (temp_path ++ [name]) install_dir n) w = (Ok tt, w3) →
  w_requests w3 = w_requests w ++ [url]
  ∧ w_spawned w3 = w_spawned w
  ∧ (∀ q fl, install_dir `prefix_of` q → files (w_fs w3) !! q = Some fl →
       ∃ m, delivered install_dir (todo members) q = Some m
            ∧ f_data fl = m_data m
            ∧ is_dir (w_fs w3) (path_parent q) = true).
Proof.
  intros Hinv Hopen Hdec Hwf Htmp.
  apply with_tempdir_ok_inv in Htmp
    as (fs1 & w2 & Hmk & Hbody & Hreq3 & Hsp3 & Hfiles3 & Hdir3).
  set (tmp := mkdtemp host (w_fs w)) in *. cbv beta in Hbody.
  apply bind_ok_inv in Hbody as ([] & wa & Hdl & Hbody).
  apply bind_ok_inv in Hbody as ([] & wb & Hrm & Hex).
  apply download_file_ok in Hdl as (body0 & Hopen0 & Hwr & Hreqa & Hspa).
  rewrite Hopen in Hopen0. injection Hopen0 as <-.
  cbn [set_fs w_fs w_requests w_spawned] in Hwr, Hreqa, Hspa.
  apply remove_existing_ok in Hrm as (Hreqb & Hspb & Hfilesb & Hgone).
  apply Hinv in Hex
    as (f & members0 & Hf & Hdec0 & Hreq2 & Hsp2 & Hfiles2 & Hparent2).
  destruct (write_text_frame _ _ _ _ Hwr) as (Hdirsa & Hdataa & Hothera).
  destruct (mkdir_parents_ok _ _ _ Hmk) as [Hfiles1 Hdirs1].
  (* the archive that is unpacked is the one that was downloaded *)
  apply Hfilesb in Hf. rewrite Hf in Hdataa. injection Hdataa as Hbody.
  rewrite Hbody, Hdec in Hdec0. injection Hdec0 as <-.
  (* whatever existed before the download still exists after it *)
  assert (Hkeep : path_exists (w_fs wa) install_dir = false →
                  path_exists (w_fs w) install_dir = false).
  { unfold path_exists. intros [Hd Hfl]%orb_false_iff. apply orb_false_iff. split.
    - apply not_true_is_false. intros Hd0. unfold is_dir in *.
      apply bool_decide_eq_false in Hd. apply Hd. rewrite Hdirsa, Hdirs1.
      apply bool_decide_eq_true in Hd0. apply elem_of_union. now left.
    - apply not_true_is_false. intros Hf0. apply is_file_lookup_iff in Hf0.
      apply not_true_iff_false in Hfl. apply Hfl. apply is_file_lookup_iff.
      destruct (decide (install_dir = tmp ++ [name])) as [->|Hne].
      + now rewrite Hf.
      + now rewrite (Hothera _ Hne), Hfiles1. }
  split; [congruence|]. split; [congruence|].
  intros q fl Hpre Hq3. pose proof (Hfiles3 _ _ Hq3) as Hq2.
  rewrite Hfiles2 in Hq2.
  destruct (delivered install_dir (todo members) q) as [m|] eqn:Hm.
  - injection Hq2 as <-. exists m. split; [reflexivity|]. split; [reflexivity|].
    exact (Hdir3 _ _ Hq3 (Hparent2 _ _ Hm)).
  - exfalso.
    pose proof (Hgone _ _ Hq2 Hpre) as Habsent. apply Hfilesb in Hq2.
    destruct (decide (q = tmp ++ [name])) as [->|Hne].
    + apply prefix_snoc_inv in Hpre as [Hpre | ->].
      * unfold path_exists in Habsent. apply orb_false_iff in Habsent as [Hd _].
        unfold is_dir in Hd. apply bool_decide_eq_false in Hd. apply Hd.
        rewrite Hdirsa, Hdirs1. apply elem_of_union. right.
        apply elem_of_list_to_set, path_lineage_spec, Hpre.
      * unfold path_exists in Habsent. apply orb_false_iff in Habsent as [_ Hfl].
        apply not_true_iff_false in Hfl. apply Hfl, is_file_lookup_iff.
        now rewrite Hq2.
    + rewrite (Hothera _ Hne), Hfiles1 in Hq2.
      rewrite (Hwf (Hkeep Habsent) q Hpre) in Hq2. discriminate.
Qed.

(** X13.  What a successful [install_unix] leaves on a Linux machine.
    The call made one request, for the resolved URL, and started no
    process.  Every file at or below the install directory comes from the
    downloaded tarball: it is the last regular-file member placed at that
    path once the first path segment is stripped, so nothing of an
    earlier installation survives a reinstall.  Every file directly
    inside [bin] has the three execute bits set.  Stated for tarballs
    whose stripped member names stay below the destination, and for a
    disk on which nothing lies below an install directory that does not
    exist. *)
Theorem install_unix_fresh_tree (version : string) (install_dir : Path)
    (arch url body : string) (members : list Member) (w w' : World) (p : Path) :
  get_pbs_download_url version "linux" arch = Ok url →
  urlopen host url = HttpBody body →
  tar_getmembers host body = Some members →
  forallb (λ m, plain_name (m_name m)) (stripped 1 members) = true →
  (path_exists (w_fs w) install_dir = false →
   ∀ q, install_dir `prefix_of` q → files (w_fs w) !! q = None) →
  install_unix host version install_dir "linux" arch w = (Ok p, w') →
  p = install_dir ++ ["bin"; "python3"]
  ∧ w_requests w' = w_requests w ++ [url]
  ∧ w_spawned w' = w_spawned w
  ∧ (∀ q fl, install_dir `prefix_of` q → files (w_fs w') !! q = Some fl →
       ∃ m, delivered install_dir (stripped 1 members) q = Some m
            ∧ f_data fl = m_data m)
  ∧ (∀ q fl, path_parent q = install_dir ++ ["bin"] → q ≠ [] →
       files (w_fs w') !! q = Some fl →
       Z.land (f_mode fl) S_IXALL = S_IXALL).
Proof.
  intros Hurl Hopen Hdec _ Hwf Hrun. unfold install_unix in Hrun.
  apply bind_ok_inv in Hrun as (url0 & w0 & Hl & Hrun).
  unfold lift in Hl. rewrite Hurl in Hl. injection Hl as <- <-.
  apply bind_ok_inv in Hrun as ([] & w3 & Htmp & Hrun).
  apply (unpack_in_tempdir_ok "python.tar.gz" ("Python " +:+ version) 1
           (tar_getmembers host) (stripped 1) url body install_dir members)
    in Htmp as (Hreq & Hsp & Hfresh); [|intros tp wb w2 Hex|assumption..].
  2: { apply extract_tarball_ok in Hex; [exact Hex | lia |].
       left. unfold path_name. rewrite last_last. reflexivity. }
  change (String.eqb "linux" "macos") with false in Hrun. cbv iota in Hrun.
  apply bind_ok_inv in Hrun as ([] & w4 & Hret & Hrun).
  injection Hret as <-.
  apply bind_ok_inv in Hrun as (present & w5 & Hask & Hrun).
  unfold ask_fs in Hask. injection Hask as <- <-.
  apply bind_ok_inv in Hrun as ([] & w6 & Hchmod & Hret).
  injection Hret as <- <-.
  split; [now rewrite <- app_assoc|].
  assert (Hbelow : ∀ q, path_parent q = install_dir ++ ["bin"] → q ≠ [] →
                        install_dir `prefix_of` q).
  { intros q Hpar Hne. rewrite (app_removelast_last EmptyString Hne).
    fold (path_parent q). rewrite Hpar, <- app_assoc. now apply prefix_app_r. }
  destruct (path_exists (w_fs w3) (install_dir ++ ["bin"])) eqn:Hpresent.
  - unfold fs_op in Hchmod.
    destruct (is_dir (w_fs w3) (install_dir ++ ["bin"])); [|discriminate].
    injection Hchmod as <-. cbn [set_fs w_fs w_requests w_spawned].
    do 2 (split; [assumption|]). split.
    + intros q fl Hpre. rewrite chmod_lookup.
      destruct (files (w_fs w3) !! q) as [f3|] eqn:H3; [|discriminate].
      cbn [fmap option_fmap option_map]. intros [= <-].
      destruct (Hfresh q f3 Hpre H3) as (m & Hm & Hdata & _).
      exists m. split; [exact Hm|]. now destruct (bool_decide _).
    + intros q fl Hpar Hne. rewrite chmod_lookup.
      destruct (files (w_fs w3) !! q) as [f3|]; [|discriminate].
      cbn [fmap option_fmap option_map]. intros [= <-].
      rewrite bool_decide_eq_true_2 by (split; assumption). cbn [f_mode].
      apply Z.bits_inj'. intros i _. rewrite Z.land_spec, Z.lor_spec.
      now destruct (Z.testbit (f_mode f3) i), (Z.testbit S_IXALL i).
  - injection Hchmod as <-. do 2 (split; [assumption|]). split.
    + intros q fl Hpre Hq. destruct (Hfresh q fl Hpre Hq) as (m & Hm & Hdata & _).
      now exists m.
    + intros q fl Hpar Hne Hq. exfalso.
      destruct (Hfresh q fl (Hbelow q Hpar Hne) Hq) as (m & _ & _ & Hdir).
      rewrite Hpar in Hdir.
      unfold path_exists in Hpresent. now rewrite Hdir in Hpresent.
Qed.

Lemma configure_pth_keeps version install_dir w w' :
  configure_pth version install_dir w = (Ok tt, w') →
  w_requests w' = w_requests w
  ∧ w_spawned w' = w_spawned w
  ∧ ∀ q fl, files (w_fs w') !! q = Some fl →
      ∃ fl0, files (w_fs w) !! q = Some fl0
             ∧ (q ≠ install_dir
                    ++ ["python" +:+ Py.join EmptyString (take 2 (Py.split "." version))
                        +:+ "._pth"] → fl = fl0).
Proof.
  unfold configure_pth. cbv zeta.
  set (pth := install_dir
              ++ ["python" +:+ Py.join EmptyString (take 2 (Py.split "." version))
                  +:+ "._pth"]).
  assert (Hsame : ∀ q fl, files (w_fs w) !! q = Some fl →
            ∃ fl0, files (w_fs w) !! q = Some fl0 ∧ (q ≠ pth → fl = fl0))
    by (intros q fl Hq; now exists fl).
  assert (Hstore : ∀ f f' q fl, files (w_fs w) !! pth = Some f →
            files (store pth f' (w_fs w)) !! q = Some fl →
            ∃ fl0, files (w_fs w) !! q = Some fl0 ∧ (q ≠ pth → fl = fl0)).
  { intros f f' q fl Hpth. cbn [store files].
    destruct (decide (q = pth)) as [->|Hne].
    - intros _. exists f. split; [exact Hpth | congruence].
    - rewrite lookup_insert_ne by congruence. intros Hq. now exists fl. }
  rewrite bind_run. unfold ask_fs at 1.
  destruct (path_exists (w_fs w) pth).
  - unfold info, success. rewrite bind_run, emit_run, bind_run.
    unfold fs_read at 1. cbn [say w_fs]. unfold read_text.
    destruct (files (w_fs w) !! pth) as [f|] eqn:Hpth;
      [|destruct (is_dir (w_fs w) pth); discriminate].
    destruct (Py.contains "#import site" (f_data f)).
    + rewrite bind_run.
      erewrite fs_op_run by (cbn [say w_fs]; exact (write_text_file _ _ _ _ Hpth)).
      rewrite emit_run.
      intros [= <-]. cbn [say set_fs w_fs w_requests w_spawned].
      do 2 (split; [reflexivity|]). intros q fl. apply (Hstore _ _ _ _ eq_refl).
    + destruct (negb (Py.contains "import site" (f_data f))).
      * rewrite bind_run.
        erewrite fs_op_run by (cbn [say w_fs]; exact (append_text_file _ _ _ _ Hpth)).
        rewrite emit_run.
        intros [= <-]. cbn [say set_fs w_fs w_requests w_spawned].
        do 2 (split; [reflexivity|]). intros q fl. apply (Hstore _ _ _ _ eq_refl).
      * intros [= <-]. cbn [say w_fs w_requests w_spawned].
        do 2 (split; [reflexivity|]). exact Hsame.
  - intros [= <-]. do 2 (split; [reflexivity|]). exact Hsame.
Qed.

(** X14.  What a successful [install_windows] leaves.  The call made one
    request, for the resolved URL, and started no process; it returns
    the path of [python.exe] in the install directory.  Every file at or
    below the install directory was placed there by a regular-file
    member of the downloaded zip, and -- the [._pth] file apart, which
    the installer edits afterwards -- holds that member's contents: a
    reinstall leaves nothing of the earlier installation.  Stated for
    zips whose member names stay below the destination, and for a disk
    on which nothing lies below an install directory that does not
    exist. *)
Theorem install_windows_fresh_tree (version : string) (install_dir : Path)
    (arch url body : string) (members : list Member) (w w' : World) (p : Path) :
  get_windows_embed_url version arch = Ok url →
  urlopen host url = HttpBody body →
  zip_namelist host body = Some members →
  forallb (λ m, plain_name (m_name m)) members = true →
  (path_exists (w_fs w) install_dir = false →
   ∀ q, install_dir `prefix_of` q → files (w_fs w) !! q = None) →
  install_windows host version install_dir arch w = (Ok p, w') →
  p = install_dir ++ ["python.exe"]
  ∧ w_requests w' = w_requests w ++ [url]
  ∧ w_spawned w' = w_spawned w
  ∧ (∀ q fl, install_dir `prefix_of` q → files (w_fs w') !! q = Some fl →
       ∃ m, delivered install_dir members q = Some m
            ∧ (q ≠ install_dir
                   ++ ["python" +:+ Py.join EmptyString (take 2 (Py.split "." version))
                       +:+ "._pth"] → f_data fl = m_data m)).
Proof.
  intros Hurl Hopen Hdec _ Hwf Hrun. unfold install_windows in Hrun.
  apply bind_ok_inv in Hrun as (url0 & w0 & Hl & Hrun).
  unfold lift in Hl. rewrite Hurl in Hl. injection Hl as <- <-.
  apply bind_ok_inv in Hrun as ([] & w3 & Htmp & Hrun).
  apply (unpack_in_tempdir_ok "python-embed.zip"
           ("Python " +:+ version +:+ " embeddable package") 0
           (zip_namelist host) (fun ms => ms) url body install_dir members)
    in Htmp as (Hreq & Hsp & Hfresh); [|intros tp wb w2 Hex|assumption..].
  2: { apply extract_zip_ok in Hex; [exact Hex|].
       unfold path_name. rewrite last_last. reflexivity. }
  apply bind_ok_inv in Hrun as ([] & w4 & Hpth & Hret).
  injection Hret as <- <-.
  apply configure_pth_keeps in Hpth as (Hreq4 & Hsp4 & Hfiles4).
  split; [reflexivity|]. split; [congruence|]. split; [congruence|].
  intros q fl Hpre Hq. destruct (Hfiles4 _ _ Hq) as (fl0 & Hq0 & Hsame).
  destruct (Hfresh q fl0 Hpre Hq0) as (m & Hm & Hdata & _).
  exists m. split; [exact Hm|]. intros Hne. now rewrite (Hsame Hne).
Qed.

End FreshTree.

Lemma install_unix_fresh_tree_witness :
  ∃ fl,
    files (w_fs (install_unix linux_host "3.11.9"
                   ["home"; "user"; ".python-nonadmin"] "linux" "x86_64"
                   (world_of installed_fs)).2)
      !! ["home"; "user"; ".python-nonadmin"; "bin"; "python3"] = Some fl
    ∧ Z.land (f_mode fl) S_IXALL = S_IXALL.
Proof.
  destruct (get_pbs_download_url "3.11.9" "linux" "x86_64") as [url|e] eqn:Hurl;
    [|vm_compute in Hurl; discriminate Hurl].
  assert (Hopen : urlopen linux_host url = HttpBody "PBS") by reflexivity.
  assert (Hdec : tar_getmembers linux_host "PBS" = Some pbs_members)
    by (vm_compute; reflexivity).
  assert (Hplain : forallb (λ m, plain_name (m_name m)) (stripped 1 pbs_members) = true)
    by (vm_compute; reflexivity).
  assert (Hwf : path_exists (w_fs (world_of installed_fs))
                  ["home"; "user"; ".python-nonadmin"] = false →
                ∀ q, ["home"; "user"; ".python-nonadmin"] `prefix_of` q →
                     files (w_fs (world_of installed_fs)) !! q = None)
    by (intros H; vm_compute in H; discriminate H).
  assert (Hrun : install_unix linux_host "3.11.9"
                   ["home"; "user"; ".python-nonadmin"] "linux" "x86_64"
                   (world_of installed_fs)
                 = (Ok ["home"; "user"; ".python-nonadmin"; "bin"; "python3"],
                    (install_unix linux_host "3.11.9"
                       ["home"; "user"; ".python-nonadmin"] "linux" "x86_64"
                       (world_of installed_fs)).2))
    by (vm_compute; reflexivity).
  destruct (install_unix_fresh_tree linux_host _ _ _ _ _ _ _ _ _
              Hurl Hopen Hdec Hplain Hwf Hrun) as (_ & _ & _ & _ & Hexec).
  destruct (files (w_fs (install_unix linux_host "3.11.9"
                           ["home"; "user"; ".python-nonadmin"] "linux" "x86_64"
                           (world_of installed_fs)).2)
              !! ["home"; "user"; ".python-nonadmin"; "bin"; "python3"])
    as [fl|] eqn:Hq; [|vm_compute in Hq; discriminate Hq].
  exists fl. split; [reflexivity|].
  apply (Hexec ["home"; "user"; ".python-nonadmin"; "bin"; "python3"] fl);
    [reflexivity | discriminate | exact Hq].
Defined.

Lemma install_windows_fresh_tree_witness :
  f_data <$> files (w_fs (install_windows embed_host "3.11.9"
                            ["Users"; "user"; ".python-nonadmin"] "x86_64"
                            (world_of empty_fs)).2)
             !! ["Users"; "user"; ".python-nonadmin"; "python.exe"]
  = Some "MZ".
Proof.
  destruct (get_windows_embed_url "3.11.9" "x86_64") as [url|e] eqn:Hurl;
    [|vm_compute in Hurl; discriminate Hurl].
  assert (Hopen : urlopen embed_host url = HttpBody "EMBED") by reflexivity.
  assert (Hdec : zip_namelist embed_host "EMBED" = Some embed_members)
    by (vm_compute; reflexivity).
  assert (Hplain : forallb (λ m, plain_name (m_name m)) embed_members = true)
    by (vm_compute; reflexivity).
  assert (Hwf : path_exists (w_fs (world_of empty_fs))
                  ["Users"; "user"; ".python-nonadmin"] = false →
                ∀ q, ["Users"; "user"; ".python-nonadmin"] `prefix_of` q →
                     files (w_fs (world_of empty_fs)) !! q = None)
    by (intros _ q _; apply lookup_empty).
  assert (Hrun : install_windows embed_host "3.11.9"
                   ["Users"; "user"; ".python-nonadmin"] "x86_64"
                   (world_of empty_fs)
                 = (Ok ["Users"; "user"; ".python-nonadmin"; "python.exe"],
                    (install_windows embed_host "3.11.9"
                       ["Users"; "user"; ".python-nonadmin"] "x86_64"
                       (world_of empty_fs)).2))
    by (vm_compute; reflexivity).
  destruct (install_windows_fresh_tree embed_host _ _ _ _ _ _ _ _ _
              Hurl Hopen Hdec Hplain Hwf Hrun) as (_ & _ & _ & Hfresh).
  destruct (files (w_fs (install_windows embed_host "3.11.9"
                           ["Users"; "user"; ".python-nonadmin"] "x86_64"
                           (world_of empty_fs)).2)
              !! ["Users"; "user"; ".python-nonadmin"; "python.exe"])
    as [fl|] eqn:Hq; [|vm_compute in Hq; discriminate Hq].
  destruct (Hfresh _ fl ltac:(now apply prefix_app_r with (l3 := ["python.exe"])) Hq)
    as (m & Hm & Hdata).
  vm_compute in Hm. injection Hm as <-.
  cbn [fmap option_fmap option_map]. f_equal. apply Hdata.
  vm_compute. discriminate.
Defined.

(** ** Bootstrapping pip *)

Section Bootstrap.

Variable host : Host.

Lemma run_ok_inv argv w rc out err w1 :
  run host argv w = (Ok (rc, out, err), w1) →
  ∃ fs', subprocess_run host argv (w_fs w) = (Completed rc out err, fs')
    ∧ w_fs w1 = fs'
    ∧ w_requests w1 = w_requests w
    ∧ w_spawned w1 = w_spawned w ++ [argv].
Proof.
  unfold run.
  destruct (subprocess_run host argv (w_fs w)) as [[msg|rc0 out0 err0] fs'];
    [discriminate|].
  intros [= <- <- <- <-]. exists fs'. repeat split.
Qed.

(** X15.  [install_pip] returns normally in two ways only.  Either the
    first [pip --version] exited with 0: then nothing was downloaded and
    the only other child is the upgrade.  Or [get-pip.py] was requested
    once, written into the temporary directory and run there, and that
    run exited with 0; the last child is the second [pip --version],
    whose exit status does not matter.  A bootstrap script that fails
    never lets the call return. *)
Theorem install_pip_returns (python_exe install_dir : Path) (w w' : World) :
  install_pip host python_exe install_dir w = (Ok tt, w') →
  (w_requests w' = w_requests w
   ∧ w_spawned w'
     = w_spawned w
       ++ [[path_str host python_exe; "-m"; "pip"; "--version"];
           [path_str host python_exe; "-m"; "pip"; "install"; "--upgrade"; "pip";
            "--quiet"]]
   ∧ ∃ out err fs1,
       subprocess_run host [path_str host python_exe; "-m"; "pip"; "--version"]
         (w_fs w) = (Completed 0 out err, fs1))
  ∨ (w_requests w' = w_requests w ++ [GET_PIP_URL]
     ∧ ∃ script body fs out err fs',
         path_name script = "get-pip.py"
         ∧ w_spawned w'
           = w_spawned w
             ++ [[path_str host python_exe; "-m"; "pip"; "--version"];
                 [path_str host python_exe; path_str host script;
                  "--no-warn-script-location"];
                 [path_str host python_exe; "-m"; "pip"; "--version"]]
         ∧ urlopen host GET_PIP_URL = HttpBody body
         ∧ f_data <$> files fs !! script = Some body
         ∧ subprocess_run host
             [path_str host python_exe; path_str host script;
              "--no-warn-script-location"] fs
           = (Completed 0 out err, fs')).
Proof.
  unfold install_pip. intros Hrun.
  apply bind_ok_inv in Hrun as ([] & w0 & Hinfo & Hrun).
  unfold info, emit in Hinfo. injection Hinfo as <-.
  apply bind_ok_inv in Hrun as ([[rc out] err] & w1 & Hquery & Hrun).
  apply run_ok_inv in Hquery as (fs1 & Hq & _ & Hreq1 & Hsp1).
  cbn [say w_fs w_requests w_spawned] in Hq, Hreq1, Hsp1.
  destruct (rc =? 0) eqn:Hrc.
  - apply Z.eqb_eq in Hrc as ->. left.
    apply bind_ok_inv in Hrun as ([] & w2 & Hs & Hrun).
    unfold success, emit in Hs. injection Hs as <-.
    apply bind_ok_inv in Hrun as ([] & w3 & Hi & Hrun).
    unfold info, emit in Hi. injection Hi as <-.
    apply bind_ok_inv in Hrun as ([[rc2 out2] err2] & w4 & Hup & Hret).
    injection Hret as <-.
    apply run_ok_inv in Hup as (fs2 & _ & _ & Hreq4 & Hsp4).
    cbn [say w_fs w_requests w_spawned] in Hreq4, Hsp4.
    split; [congruence|]. split.
    + rewrite Hsp4, Hsp1, <- app_assoc. reflexivity.
    + now exists out, err, fs1.
  - right.
    apply bind_ok_inv in Hrun as ([] & w2 & Hi & Hrun).
    unfold info, emit in Hi. injection Hi as <-.
    apply bind_ok_inv in Hrun as ([] & w3 & Htmp & Hrun).
    apply with_tempdir_ok_inv in Htmp
      as (fsa & wt & Hmk & Hbody & Hreq3 & Hsp3 & _ & _).
    cbv zeta in Hbody.
    cbn [say w_fs] in Hmk, Hbody.
    set (tmp := mkdtemp host (w_fs w1)) in *.
    apply bind_ok_inv in Hbody as ([] & wa & Hdl & Hbody).
    apply download_file_ok in Hdl as (body & Hopen & Hwr & Hreqa & Hspa).
    cbn [say set_fs w_fs w_requests w_spawned] in Hwr, Hreqa, Hspa.
    apply bind_ok_inv in Hbody as ([[rc2 out2] err2] & wb & Hscript & Hbody).
    apply run_ok_inv in Hscript as (fs' & Hs & _ & Hreqb & Hspb).
    destruct (rc2 =? 0) eqn:Hrc2; cbn [negb] in Hbody.
    2: { apply bind_ok_inv in Hbody as ([] & wc & _ & Hraise). discriminate Hraise. }
    apply Z.eqb_eq in Hrc2 as ->. injection Hbody as <-.
    apply bind_ok_inv in Hrun as ([[rc3 out3] err3] & w4 & Hverify & Hrun).
    apply run_ok_inv in Hverify as (fs4 & _ & _ & Hreq4 & Hsp4).
    assert (w_requests w' = w_requests w4 ∧ w_spawned w' = w_spawned w4) as [Hreq' Hsp'].
    { destruct (rc3 =? 0).
      - unfold success, emit in Hrun. now injection Hrun as <-.
      - unfold warn, emit in Hrun. now injection Hrun as <-. }
    split; [congruence|].
    exists (tmp ++ ["get-pip.py"]), body, (w_fs wa), out2, err2, fs'.
    split; [unfold path_name; now rewrite last_last|].
    split.
    { rewrite Hsp', Hsp4, Hsp3, Hspb, Hspa, Hsp1, <- !app_assoc. reflexivity. }
    split; [exact Hopen|]. split; [|exact Hs].
    exact (proj1 (proj2 (write_text_frame _ _ _ _ Hwr))).
Qed.

End Bootstrap.

Lemma install_pip_returns_witness :
  w_requests (install_pip nopip_host ["opt"; "bin"; "python3"] ["opt"]
                (world_of empty_fs)).2 = [GET_PIP_URL].
Proof.
  assert (Hrun : install_pip nopip_host ["opt"; "bin"; "python3"] ["opt"]
                   (world_of empty_fs)
                 = (Ok tt, (install_pip nopip_host ["opt"; "bin"; "python3"] ["opt"]
                              (world_of empty_fs)).2))
    by (vm_compute; reflexivity).
  destruct (install_pip_returns nopip_host _ _ _ _ Hrun)
    as [(_ & _ & out & err & fs1 & Hq) | (Hreq & _)].
  - vm_compute in Hq. discriminate Hq.
  - exact Hreq.
Defined.

(** ** A completed installation *)

Lemma try_except_ok_inv {A} (body : M A) handler w a w' :
  try_except body handler w = (Ok a, w') →
  body w = (Ok a, w')
  ∨ ∃ e w1, body w = (Raise e, w1) ∧ is_Exception e = true
            ∧ handler e w1 = (Ok a, w').
Proof.
  unfold try_except. destruct (body w) as [[a0|e] w1]; [now left|].
  destruct (is_Exception e) eqn:He; [|discriminate].
  intros H. right. now exists e, w1.
Qed.

Lemma emit_ok_inv o w u w' : emit o w = (Ok u, w') → w' = say [o] w.
Proof. now intros [= _ <-]. Qed.

(** X16.  [install] returns normally in two ways only.  Either the
    install directory existed and [--force] was not given.  Or the
    interpreter that was just unpacked answered [--version] with exit
    status 0, and the console ends with the summary that starts
    [Installation Complete!] and names that interpreter: completion is
    never reported for an interpreter that failed its check. *)
Theorem install_returns (host : Host) (version : string) (force : bool)
    (w w' : World) :
  install host version force w = (Ok tt, w') →
  (path_exists (w_fs w) (get_install_dir host) = true ∧ force = false)
  ∨ ∃ python_exe fs out err fs' pre rest,
      subprocess_run host [path_str host python_exe; "--version"] fs
      = (Completed 0 out err, fs')
      ∧ (python_exe = get_install_dir host ++ ["python.exe"]
         ∨ python_exe = get_install_dir host ++ ["bin"; "python3"])
      ∧ w_console w'
        = pre ++ HeaderLines "Installation Complete!"
              :: PrintLine ("  Python: " +:+ path_str host python_exe) :: rest.
Proof.
  unfold install. intros Hrun.
  apply bind_ok_inv in Hrun as ([os_name arch] & w0 & Hp & Hrun).
  unfold platform_info, lift in Hp. injection Hp as _ <-.
  do 5 (apply bind_ok_inv in Hrun as ([] & ? & He & Hrun);
        unfold header, print, emit in He; injection He as <-).
  apply bind_ok_inv in Hrun as (present & w6 & Hask & Hrun).
  unfold ask_fs in Hask. injection Hask as <- <-. cbn [say w_fs] in Hrun.
  destruct (path_exists (w_fs w) (get_install_dir host) && negb force) eqn:Hgo.
  { left. apply andb_true_iff in Hgo as [Hpresent Hforce].
    split; [exact Hpresent | now destruct force]. }
  right.
  apply bind_ok_inv in Hrun as ([] & ? & He & Hrun).
  unfold info, emit in He. injection He as <-.
  apply try_except_ok_inv in Hrun as [Hrun | (e & w1 & _ & _ & Hhandler)].
  2: { apply bind_ok_inv in Hhandler as ([] & ? & _ & Hraise). discriminate Hraise. }
  apply bind_ok_inv in Hrun as (python_exe & w1 & Hstep & Hrun).
  apply bind_ok_inv in Hrun as ([[rc out] err] & w2 & Hcheck & Hrun).
  unfold run in Hcheck.
  destruct (subprocess_run host [path_str host python_exe; "--version"] (w_fs w1))
    as [[msg|rc0 out0 err0] fs'] eqn:Hsub; [discriminate|].
  injection Hcheck as -> -> -> <-.
  destruct (rc =? 0) eqn:Hrc; cbn [negb] in Hrun; [|discriminate].
  apply Z.eqb_eq in Hrc as ->.
  apply bind_ok_inv in Hrun as ([] & ? & He & Hrun).
  unfold success, emit in He. injection He as <-.
  apply bind_ok_inv in Hrun as ([] & w3 & _ & Hrun).
  apply bind_ok_inv in Hrun as ([] & w4 & _ & Hrun).
  exists python_exe, (w_fs w1), out, err, fs', (w_console w4).
  assert (Hexe : python_exe = get_install_dir host ++ ["python.exe"]
                 ∨ python_exe = get_install_dir host ++ ["bin"; "python3"]).
  { destruct (String.eqb os_name "windows").
    - left. unfold install_windows in Hstep.
      apply bind_ok_inv in Hstep as (? & ? & _ & Hstep).
      apply bind_ok_inv in Hstep as (? & ? & _ & Hstep).
      apply bind_ok_inv in Hstep as (? & ? & _ & Hstep).
      now injection Hstep as <-.
    - right. unfold install_unix in Hstep.
      apply bind_ok_inv in Hstep as (? & ? & _ & Hstep).
      apply bind_ok_inv in Hstep as (? & ? & _ & Hstep).
      apply bind_ok_inv in Hstep as (? & ? & _ & Hstep).
      apply bind_ok_inv in Hstep as (? & ? & _ & Hstep).
      apply bind_ok_inv in Hstep as (? & ? & _ & Hstep).
      injection Hstep as <-. now rewrite <- app_assoc. }
  revert Hrun. unfold header, print. run_steps.
  destruct (String.eqb os_name "windows"); run_steps; intros [= <-];
    cbn [say w_console]; eexists; (split; [exact Hsub|]); (split; [exact Hexe|]);
    rewrite <- !app_assoc; reflexivity.
Qed.

Lemma install_returns_witness :
  ∃ pre line rest,
    w_console (install linux_host "3.11.9" false (world_of empty_fs)).2
    = pre ++ HeaderLines "Installation Complete!" :: PrintLine line :: rest.
Proof.
  assert (Hrun : install linux_host "3.11.9" false (world_of empty_fs)
                 = (Ok tt, (install linux_host "3.11.9" false (world_of empty_fs)).2))
    by (vm_compute; reflexivity).
  destruct (install_returns linux_host _ _ _ _ Hrun)
    as [[Hpresent _] | (exe & fs & out & err & fs' & pre & rest & _ & _ & Hconsole)].
  - vm_compute in Hpresent. discriminate Hpresent.
  - now exists pre, ("  Python: " +:+ path_str linux_host exe), rest.
Defined.
